(** * step-school-eval: response aggregation and report synthesis

    A shallow embedding of the statistics aggregator, the grade converter,
    the structured-output parser and the two callable functions
    ([analyzeResponses], [generateReport]) together with the client code
    that consumes them.

    JavaScript numbers are IEEE-754 binary64 values; they are modelled by
    the Standard Library's [spec_float] at precision 53.  Integer counters
    (array lengths, running sums of ratings) stay below 2^53, where
    binary64 arithmetic is exact, and are kept as [nat] / [Z] until they
    enter a division, a multiplication or a comparison with a literal. *)

From Stdlib Require Import ZArith Lia Strings.Ascii Strings.String.
From Stdlib Require Import Floats.SpecFloat Floats.PrimFloat Floats.FloatOps.
From stdpp Require Import base option list gmap strings pretty.

#[local] Set Warnings "-inexact-float,-register-all".

Open Scope Z_scope.

(** ** JavaScript numbers *)

Module JS.

Definition number : Type := spec_float.

Definition prec : Z := 53.
Definition emax : Z := 1024.

Definition NaN : number := S754_nan.
Definition Infinity : number := S754_infinity false.
Definition zero : number := S754_zero false.

(** An integer converted to a number (round to nearest, ties to even). *)
Definition of_Z (z : Z) : number := binary_normalize prec emax z 0 false.
Definition of_nat (n : nat) : number := of_Z (Z.of_nat n).

Definition div (x y : number) : number := SFdiv prec emax x y.
Definition mul (x y : number) : number := SFmul prec emax x y.

(** [x >= y], [x <= y] and [x < y]; all three are false on NaN. *)
Definition ge (x y : number) : bool := SFleb y x.
Definition le (x y : number) : bool := SFleb x y.
Definition lt (x y : number) : bool := SFltb x y.

Definition isNaN (x : number) : bool :=
  match x with S754_nan => true | _ => false end.

Definition isFinite (x : number) : bool :=
  match x with S754_zero _ | S754_finite _ _ _ => true | _ => false end.

(** ToBoolean on a number: [0], [-0] and [NaN] are falsy. *)
Definition truthy (x : number) : bool :=
  match x with S754_zero _ | S754_nan => false | _ => true end.

(** [Math.round]: the integer nearest to [x], ties towards +Infinity.
    A finite number with a non-negative exponent is already an integer;
    otherwise floor(x + 1/2) is computed exactly on the mantissa, and the
    result, below 2^53 in magnitude, converts back without rounding.  A
    result of zero keeps the sign of [x]. *)
Definition Math_round (x : number) : number :=
  match x with
  | S754_finite s m e =>
      if 0 <=? e then x
      else
        let sm := if s then Z.neg m else Z.pos m in
        binary_normalize prec emax
          ((2 * sm + 2 ^ (- e)) / 2 ^ (1 - e)) 0 s
  | _ => x
  end.

(** The numeric literals of the sources, as the binary64 values the
    engine reads them as. *)
Definition lit_4_2 : number := Eval vm_compute in Prim2SF 4.2%float.
Definition lit_3_4 : number := Eval vm_compute in Prim2SF 3.4%float.
Definition lit_2_6 : number := Eval vm_compute in Prim2SF 2.6%float.
Definition lit_4_1999 : number := Eval vm_compute in Prim2SF 4.1999%float.
Definition lit_2_5999 : number := Eval vm_compute in Prim2SF 2.5999%float.
Definition one : number := Eval vm_compute in Prim2SF 1%float.
Definition ten : number := Eval vm_compute in Prim2SF 10%float.
Definition hundred : number := Eval vm_compute in Prim2SF 100%float.

End JS.

(** ** Grade converter (src/integrations/firebase/types.ts) *)

Inductive GradeLevel := excellent | good | average | poor.

Record GradeInfo := {
  level : GradeLevel;
  label : string;
  color : string;
  bgColor : string;
  description : string
}.

Module gradeThresholds.
Definition excellent : JS.number := JS.lit_4_2.
Definition good : JS.number := JS.lit_3_4.
Definition average : JS.number := JS.lit_2_6.
End gradeThresholds.

Definition gradeInfoMap (l : GradeLevel) : GradeInfo :=
  match l with
  | excellent =>
      {| level := excellent; label := "우수"; color := "text-emerald-600";
         bgColor := "bg-emerald-100"; description := "목표 달성이 우수함" |}
  | good =>
      {| level := good; label := "양호"; color := "text-blue-600";
         bgColor := "bg-blue-100"; description := "목표에 근접함" |}
  | average =>
      {| level := average; label := "보통"; color := "text-amber-600";
         bgColor := "bg-amber-100"; description := "개선 필요" |}
  | poor =>
      {| level := poor; label := "미흡"; color := "text-red-600";
         bgColor := "bg-red-100"; description := "즉각적인 개선 필요" |}
  end.

Definition convertToGrade (averageScore : JS.number) : GradeInfo :=
  if JS.ge averageScore gradeThresholds.excellent then gradeInfoMap excellent
  else if JS.ge averageScore gradeThresholds.good then gradeInfoMap good
  else if JS.ge averageScore gradeThresholds.average then gradeInfoMap average
  else gradeInfoMap poor.

(** The ordinal position of a grade: poor < average < good < excellent. *)
Definition grade_rank (l : GradeLevel) : nat :=
  match l with poor => 0 | average => 1 | good => 2 | excellent => 3 end.

Definition grade_le (a b : GradeLevel) : Prop :=
  (grade_rank a <= grade_rank b)%nat.

(** ** parseInt (the engine's built-in, radix left undefined)

    Leading white space is skipped, then an optional sign, then an optional
    [0x] / [0X] prefix selecting radix 16; the longest run of digits is
    read.  [None] stands for [NaN].  The result is the integer read; the
    engine rounds it to binary64, which leaves its comparisons with the
    small integers 1 and 5 unchanged.  Strings are UTF-8 byte strings. *)

Definition byte_of (c : ascii) : N := N_of_ascii c.

Definition is_ascii_white_space (c : ascii) : bool :=
  let n := byte_of c in
  ((9 <=? n) && (n <=? 13) || (n =? 32))%N.

(** White space outside ASCII, by UTF-8 encoding: U+00A0, U+1680,
    U+2000..U+200A, U+2028, U+2029, U+202F, U+205F, U+3000, U+FEFF. *)
Definition white_space_2 (a b : ascii) : bool :=
  ((byte_of a =? 194) && (byte_of b =? 160))%N.

Definition white_space_3 (a b c : ascii) : bool :=
  let '(x, y, z) := (byte_of a, byte_of b, byte_of c) in
  ((x =? 225) && (y =? 154) && (z =? 128)
   || (x =? 226) && (y =? 128)
        && ((128 <=? z) && (z <=? 138) || (z =? 168) || (z =? 169)
            || (z =? 175))
   || (x =? 226) && (y =? 129) && (z =? 159)
   || (x =? 227) && (y =? 128) && (z =? 128)
   || (x =? 239) && (y =? 187) && (z =? 191))%N.

Fixpoint skip_white_space (s : string) : string :=
  match s with
  | String a r =>
      if is_ascii_white_space a then skip_white_space r
      else
        match r with
        | String b r' =>
            if white_space_2 a b then skip_white_space r'
            else
              match r' with
              | String c r'' =>
                  if white_space_3 a b c then skip_white_space r'' else s
              | EmptyString => s
              end
        | EmptyString => s
        end
  | EmptyString => s
  end.

Definition digit_value (radix : Z) (c : ascii) : option Z :=
  let n := Z.of_N (byte_of c) in
  let v :=
    if (48 <=? n) && (n <=? 57) then Some (n - 48)
    else if (97 <=? n) && (n <=? 122) then Some (n - 87)
    else if (65 <=? n) && (n <=? 90) then Some (n - 55)
    else None in
  match v with
  | Some d => if d <? radix then Some d else None
  | None => None
  end.

(** The longest prefix of digits, most significant first; [acc] is [None]
    until a digit has been read. *)
Fixpoint read_digits (radix : Z) (acc : option Z) (s : string) : option Z :=
  match s with
  | String c r =>
      match digit_value radix c with
      | Some d => read_digits radix (Some (radix * default 0 acc + d)) r
      | None => acc
      end
  | EmptyString => acc
  end.

Definition parseInt (input : string) : option Z :=
  let s := skip_white_space input in
  let '(negative, s) :=
    match s with
    | String "-" r => (true, r)
    | String "+" r => (false, r)
    | _ => (false, s)
    end in
  let '(radix, s) :=
    match s with
    | String "0" (String "x" r) | String "0" (String "X" r) => (16, r)
    | _ => (10, s)
    end in
  match read_digits radix None s with
  | Some v => Some (if negative : bool then - v else v)
  | None => None
  end.

(** [!isNaN(n) && n >= 1 && n <= 5] *)
Definition in_rating_range (n : option Z) : bool :=
  match n with
  | Some v => (1 <=? v) && (v <=? 5)
  | None => false
  end.

(** [calculateAverageFromResponses] (types.ts) *)
Definition calculateAverageFromResponses (responses : list string)
  : JS.number :=
  let numericValues :=
    filter (fun n => in_rating_range n = true) (parseInt <$> responses) in
  if decide (length numericValues = 0%nat) then JS.zero
  else
    JS.div
      (JS.of_Z (foldl (fun sum val => sum + default 0 val) 0 numericValues))
      (JS.of_nat (length numericValues)).

(** ** Collections (src/integrations/firebase/types.ts) *)

Module Question.
Record t := {
  id : string;
  project_id : string;
  respondent_type : string;
  question_type : string;
  question_text : string;
  is_required : bool;
  order_index : Z;
  section_name : option string
}.
End Question.

Module Response.
Record t := {
  id : string;
  question_id : string;
  project_id : string;
  respondent_type : string;
  response_value : option string;
  session_id : string
}.
End Response.

Module SurveyLink.
Record t := {
  id : string;
  project_id : string;
  respondent_type : string;
  access_code : string;
  is_active : bool
}.
End SurveyLink.

(** ** Statistics aggregator ([loadStats] of the ProjectStats component) *)

Record ResponsesByTypeData := {
  chart_respondent_type : string;
  average_score : JS.number;
  response_count : nat
}.

Record Stats := {
  totalQuestions : nat;
  totalResponses : nat;
  responsesByType : gmap string nat;
  averageRating : JS.number;
  completionRate : gmap string JS.number;
  chartData : list ResponsesByTypeData
}.

(** The counters of [loadStats] are plain objects, and [m[k]] reads
    through [Object.prototype]: at one of the names below it finds the
    inherited member instead of [undefined], and an assignment to
    [__proto__] stores no own property.  At every other key, a plain
    key, reading an absent entry gives [undefined] and writing stores an
    own entry; the four respondent types of the data model are plain. *)
Definition Object_prototype_names : list string :=
  [ "constructor"; "__defineGetter__"; "__defineSetter__";
    "hasOwnProperty"; "__lookupGetter__"; "__lookupSetter__";
    "isPrototypeOf"; "propertyIsEnumerable"; "toString"; "valueOf";
    "__proto__"; "toLocaleString" ].

Definition plain_key (k : string) : bool :=
  negb (existsb (String.eqb k) Object_prototype_names).

(** Every element has a plain key. *)
Definition plain_keys {A} (key : A -> string) (xs : list A) : bool :=
  forallb (fun x => plain_key (key x)) xs.

(** [m[k] = (m[k] || 0) + 1] at a plain key [k]. *)
Definition bump (m : gmap string nat) (k : string) : gmap string nat :=
  <[k := S (default 0%nat (m !! k))]> m.

(** [xs.forEach(x => { m[key(x)] = (m[key(x)] || 0) + 1 })] from [{}],
    for elements with plain keys. *)
Definition countByType {A} (key : A -> string) (xs : list A)
  : gmap string nat :=
  foldl (fun m x => bump m (key x)) ∅ xs.

(** ToBoolean on a string: only the empty string is falsy. *)
Definition truthy_string (s : string) : bool :=
  match s with EmptyString => false | _ => true end.

(** The rating carried by a response, when its value is truthy and parses
    to an integer between 1 and 5. *)
Definition ratingOf (r : Response.t) : option Z :=
  match Response.response_value r with
  | Some v =>
      if truthy_string v then
        let value := parseInt v in
        if in_rating_range value then value else None
      else None
  | None => None
  end.

(** One step of the loop that accumulates [totalRating] and
    [ratingCount]. *)
Definition addRating (acc : Z * nat) (r : Response.t) : Z * nat :=
  match ratingOf r with
  | Some value => (fst acc + value, S (snd acc))
  | None => acc
  end.

(** [x || 1] on a count read from a record. *)
Definition or_one (x : option nat) : nat :=
  match x with
  | Some (S n) => S n
  | _ => 1%nat
  end.

(** [Math.round((responded / total) * 100)] *)
Definition percentage (responded total : nat) : JS.number :=
  JS.Math_round
    (JS.mul (JS.div (JS.of_nat responded) (JS.of_nat total)) JS.hundred).

(** The statistics [loadStats] stores with [setStats], as a function of
    the four reads it awaits, for responses and questions whose
    respondent types are plain keys.  [chartData] follows the keys of
    [typeCount]; their order plays no role below. *)
Definition loadStats (questionsCount responsesCount : nat)
    (responses : list Response.t) (questions : list Question.t) : Stats :=
  let typeCount := countByType Response.respondent_type responses in
  let '(totalRating, ratingCount) := foldl addRating (0, 0%nat) responses in
  let questionsByType := countByType Question.respondent_type questions in
  let completionRate :=
    map_imap
      (fun type _ =>
         let responded := default 0%nat (typeCount !! type) in
         let total := or_one (questionsByType !! type) in
         Some (percentage responded total))
      questionsByType in
  let average :=
    if (0 <? ratingCount)%nat
    then JS.div (JS.of_Z totalRating) (JS.of_nat ratingCount)
    else JS.zero in
  let chartData :=
    (fun '(type, count) =>
       {| chart_respondent_type := type;
          average_score := average;
          response_count := count |}) <$> map_to_list typeCount in
  {| totalQuestions := questionsCount;
     totalResponses := responsesCount;
     responsesByType := typeCount;
     averageRating := average;
     completionRate := completionRate;
     chartData := chartData |}.

(** ** Values, documents and thrown errors *)

(** A field value of a Firestore document as the functions read it.
    Objects (timestamps, nested maps) are opaque here. *)
Inductive value :=
  | Undefined
  | Null
  | Bool (b : bool)
  | Num (n : JS.number)
  | Str (s : string)
  | Obj.

(** ToBoolean *)
Definition truthy (v : value) : bool :=
  match v with
  | Undefined | Null => false
  | Bool b => b
  | Num n => JS.truthy n
  | Str s => truthy_string s
  | Obj => true
  end.

(** [v !== null] *)
Definition not_null (v : value) : bool :=
  match v with Null => false | _ => true end.

(** Reading a property that may be absent: [d.f]. *)
Definition field (d : gmap string value) (f : string) : value :=
  default Undefined (d !! f).

(** The result of [JSON.parse]. *)
Inductive json :=
  | JNull
  | JBool (b : bool)
  | JNum (n : JS.number)
  | JStr (s : string)
  | JArr (items : list json)
  | JObj (fields : list (string * json)).

Inductive FunctionsErrorCode :=
  | invalid_argument
  | not_found
  | permission_denied
  | unauthenticated
  | internal.

(** A thrown error object.  [code] is present on an [HttpsError], which
    extends [Error] without renaming it. *)
Record JsError := {
  name : string;
  message : string;
  code : option FunctionsErrorCode
}.

Definition Error (msg : string) : JsError :=
  {| name := "Error"; message := msg; code := None |}.

Definition TypeError (msg : string) : JsError :=
  {| name := "TypeError"; message := msg; code := None |}.

Definition HttpsError (c : FunctionsErrorCode) (msg : string) : JsError :=
  {| name := "Error"; message := msg; code := Some c |}.

(** [`${error}`], that is [Error.prototype.toString]. *)
Definition toString (e : JsError) : string :=
  match message e with
  | EmptyString => name e
  | msg => name e ++ ": " ++ msg
  end.

(** Code that may throw: [inl e] is [throw e]. *)
Definition throws (A : Type) : Type := JsError + A.

Definition throw {A} (e : JsError) : throws A := inl e.
Definition ret {A} (a : A) : throws A := inr a.

Definition bind {A B} (m : throws A) (k : A -> throws B) : throws B :=
  match m with
  | inl e => inl e
  | inr a => k a
  end.

Notation "x <-- m ;; k" := (bind m (fun x => k))
  (at level 100, m at next level, right associativity).
Notation "'guard' b 'else_throw' e ;; k" :=
  (if b then k else throw e)
  (at level 100, b at next level, e at next level, right associativity).

(** [try { body } catch (error) { throw handler(error) }] *)
Definition try_catch_rethrow {A} (body : throws A)
    (handler : JsError -> JsError) : throws A :=
  match body with
  | inl error => inl (handler error)
  | inr a => inr a
  end.

(** ** Structured-output parser (functions/src/index.ts, inline in both
       callables)

    [responseText.match(/\{[\s\S]*\}/)]: the engine tries start positions
    from the left; at an opening brace, the starred class first takes the
    whole rest of the text and gives characters back until a closing brace
    follows. *)

(** The longest prefix of [s] that ends with a closing brace. *)
Fixpoint through_last_close (s : string) : option string :=
  match s with
  | EmptyString => None
  | String c r =>
      match through_last_close r with
      | Some m => Some (String c m)
      | None => if Ascii.eqb c "}" then Some (String c EmptyString) else None
      end
  end.

Fixpoint regex_match (s : string) : option string :=
  match s with
  | EmptyString => None
  | String c r =>
      let here :=
        if Ascii.eqb c "{" then
          match through_last_close r with
          | Some m => Some (String c m)
          | None => None
          end
        else None in
      match here with
      | Some m => Some m
      | None => regex_match r
      end
  end.

Definition extraction_failure : JsError :=
  Error "AI 응답에서 JSON을 추출할 수 없습니다.".

(** ** What the callables return (functions/src/index.ts) *)

Module Functions.

(** The [statistics] of an analysis.  Its [averageRating], a sum of
    untyped document values under the coercions of [+], is left out. *)
Record AnalysisStatistics := {
  totalResponses : nat;
  textResponses : nat;
  ratingResponses : nat
}.

(** [{ success: true, analysis: { ...analysis, statistics } }] *)
Record AnalysisResponse := {
  analysis_success : bool;
  analysis : json;
  analysis_statistics : AnalysisStatistics
}.

(** The [statistics] of a report.  Its [averageRating], a mean of the
    per-question means of untyped document values, is left out. *)
Record ReportStatistics := {
  report_totalResponses : nat;
  completionRate : JS.number
}.

Record Report := {
  title : json;
  generatedAt : string;
  sections : json;
  statistics : ReportStatistics
}.

Record ReportResponse := {
  success : bool;
  report : Report
}.

End Functions.

Section Callables.

(** The platform's [JSON.parse]; [inl] carries the [SyntaxError] it
    throws. *)
Variable JSON_parse : string -> throws json.

Definition parseStructuredOutput (responseText : string) : throws json :=
  match regex_match responseText with
  | None => throw extraction_failure
  | Some jsonMatch => JSON_parse jsonMatch
  end.

(** *** Firestore, as the callables read it *)

Record Firestore := {
  projects : gmap string (gmap string value);
  schools : gmap string (gmap string value);
  questions : list (string * gmap string value);
  responses : list (gmap string value)
}.

(** [collection.doc(path).get()]: the document data when it exists.
    [doc] throws unless the path is a non-empty string. *)
Definition invalid_path : JsError :=
  Error "Value for argument documentPath is not a valid resource path. Path must be a non-empty string.".

Definition getDoc (collection : gmap string (gmap string value))
    (path : value) : throws (option (gmap string value)) :=
  match path with
  | Str p => if truthy_string p then ret (collection !! p)
             else throw invalid_path
  | _ => throw invalid_path
  end.

(** [collection.where("project_id", "==", projectId).get()] *)
Definition has_project (projectId : value) (d : gmap string value) : bool :=
  match projectId, field d "project_id" with
  | Str p, Str p' => String.eqb p p'
  | _, _ => false
  end.

Definition whereProject {A} (data : A -> gmap string value)
    (projectId : value) (docs : list A) : list A :=
  filter (fun d => has_project projectId (data d) = true) docs.

(** *** analyzeResponses *)

Definition textResponses (rs : list (gmap string value)) : list value :=
  (fun r => field r "text_response")
    <$> filter (fun r => truthy (field r "text_response") = true) rs.

Definition ratingResponses (rs : list (gmap string value)) : list value :=
  (fun r => field r "rating_response")
    <$> filter (fun r => not_null (field r "rating_response") = true) rs.

(** [generated] is what [model.generateContent(prompt)] and
    [result.response.text()] produce: the text, or the error thrown when
    the generative service cannot be reached or rejects the request. *)
Definition analyzeResponses (db : Firestore) (data : gmap string value)
    (generated : throws string) : throws Functions.AnalysisResponse :=
  let projectId := field data "projectId" in
  guard (truthy projectId)
    else_throw (HttpsError invalid_argument "프로젝트 ID가 필요합니다.") ;;
  try_catch_rethrow
    (projectDoc <-- getDoc (projects db) projectId ;;
     guard (bool_decide (is_Some projectDoc))
       else_throw (HttpsError not_found "프로젝트를 찾을 수 없습니다.") ;;
     let responsesSnapshot := whereProject id projectId (responses db) in
     guard (negb (bool_decide (responsesSnapshot = [])))
       else_throw (HttpsError not_found "분석할 응답이 없습니다.") ;;
     let responses := responsesSnapshot in
     responseText <-- generated ;;
     analysis <-- parseStructuredOutput responseText ;;
     ret {| Functions.analysis_success := true;
            Functions.analysis := analysis;
            Functions.analysis_statistics :=
              {| Functions.totalResponses := length responses;
                 Functions.textResponses := length (textResponses responses);
                 Functions.ratingResponses :=
                   length (ratingResponses responses) |} |})
    (fun error =>
       HttpsError internal
         ("분석 중 오류가 발생했습니다: " ++ toString error)).

(** *** generateReport *)

(** [v.k] on a parsed value: reading a property of [null] throws, a
    property that is absent reads as [undefined] ([None]). *)
Definition prop (v : json) (k : string) : throws (option json) :=
  match v with
  | JNull =>
      throw (TypeError ("Cannot read properties of null (reading '"
                        ++ k ++ "')"))
  | JObj fields => ret (snd <$> find (fun kv => String.eqb (fst kv) k) fields)
  | _ => ret None
  end.

(** ToBoolean on a property that was read. *)
Definition json_truthy (v : option json) : bool :=
  match v with
  | None | Some JNull => false
  | Some (JBool b) => b
  | Some (JNum n) => JS.truthy n
  | Some (JStr s) => truthy_string s
  | Some (JArr _) | Some (JObj _) => true
  end.

(** [v || d] *)
Definition or_else (v : option json) (d : json) : json :=
  match v with
  | Some x => if json_truthy v then x else d
  | None => d
  end.

(** [school?.school_name || d], with the empty string for [d] inside the
    default title. *)
Definition school_name_or (school : option (gmap string value))
    (d : string) : string :=
  match school with
  | Some sc =>
      match field sc "school_name" with
      | Str n => if truthy_string n then n else d
      | _ => d
      end
  | None => d
  end.

(** [Math.round((responses.length / (questions.length * 10)) * 100)] *)
Definition reportCompletionRate (nResponses nQuestions : nat) : JS.number :=
  JS.Math_round
    (JS.mul
       (JS.div (JS.of_nat nResponses) (JS.mul (JS.of_nat nQuestions) JS.ten))
       JS.hundred).

(** [now] is [new Date().toISOString()]. *)
Definition generateReport (db : Firestore) (data : gmap string value)
    (now : string) (generated : throws string)
  : throws Functions.ReportResponse :=
  let projectId := field data "projectId" in
  guard (truthy projectId)
    else_throw (HttpsError invalid_argument "프로젝트 ID가 필요합니다.") ;;
  try_catch_rethrow
    (projectDoc <-- getDoc (projects db) projectId ;;
     guard (bool_decide (is_Some projectDoc))
       else_throw (HttpsError not_found "프로젝트를 찾을 수 없습니다.") ;;
     let project := default ∅ projectDoc in
     school <-- getDoc (schools db) (field project "school_id") ;;
     let questions := whereProject snd projectId (questions db) in
     let responses := whereProject id projectId (responses db) in
     responseText <-- generated ;;
     reportData <-- parseStructuredOutput responseText ;;
     title <-- prop reportData "title" ;;
     sections <-- prop reportData "sections" ;;
     ret {| Functions.success := true;
            Functions.report :=
              {| Functions.title :=
                   or_else title
                     (JStr (school_name_or school EmptyString
                           ++ " 학교 평가 보고서"));
                 Functions.generatedAt := now;
                 Functions.sections := or_else sections (JArr []);
                 Functions.statistics :=
                   {| Functions.report_totalResponses := length responses;
                      Functions.completionRate :=
                        reportCompletionRate (length responses)
                          (length questions) |} |} |})
    (fun error =>
       HttpsError internal
         ("보고서 생성 중 오류가 발생했습니다: " ++ toString error)).

End Callables.

(** ** Survey submission (src/pages/Survey.tsx, [handleSubmit]) *)

(** [responses[q.id]] is truthy: the question has a non-empty answer. *)
Definition answered (responses : gmap string string) (q : Question.t)
  : bool :=
  match responses !! Question.id q with
  | Some v => truthy_string v
  | None => false
  end.

Definition responsesToInsert (questions : list Question.t)
    (responses : gmap string string) (surveyLink : SurveyLink.t)
    (sessionId : string) : list (gmap string value) :=
  (fun q =>
     {[ "project_id" := Str (SurveyLink.project_id surveyLink);
        "question_id" := Str (Question.id q);
        "respondent_type" := Str (SurveyLink.respondent_type surveyLink);
        "response_value" :=
          Str (default EmptyString (responses !! Question.id q));
        "session_id" := Str sessionId ]})
    <$> filter (fun q => answered responses q = true) questions.

(** [createResponses] (firestore helpers) when every write succeeds:
    each document is stored with a [created_at] timestamp added. *)
Definition createResponses (rs : list (gmap string value))
  : list (gmap string value) :=
  (fun response => <["created_at" := Obj]> response) <$> rs.

(** [createResponses] in general: one [addDoc] is issued for each
    document and the promises are awaited together, so a write that is
    rejected does not undo the others.  [accepted i] tells whether the
    write of the document at position [i] succeeds.  The result is what
    the collection receives, and whether [Promise.all] resolves. *)
Definition createResponsesWith (accepted : nat -> bool)
    (rs : list (gmap string value)) : list (gmap string value) * bool :=
  (omap id
     (imap (fun i response =>
              if accepted i then Some (<["created_at" := Obj]> response)
              else None) rs),
   forallb accepted (seq 0 (length rs))).

(** How [handleSubmit] ends: with the toast that asks for the required
    answers, with the toast of the [catch] block, or with
    [setCompleted(true)] and the toast of success. *)
Inductive SubmitOutcome :=
  | submit_blocked
  | submit_failed
  | submit_completed.

Definition submit_toast (o : SubmitOutcome) : string :=
  match o with
  | submit_blocked => "필수 문항에 모두 응답해 주세요."
  | submit_failed => "응답 제출 중 오류가 발생했습니다."
  | submit_completed => "설문 응답이 제출되었습니다. 감사합니다!"
  end.

(** [handleSubmit] with writes that may fail: the documents the
    [responses] collection receives, and how the handler ends. *)
Definition handleSubmitWith (accepted : nat -> bool)
    (questions : list Question.t) (responses : gmap string string)
    (surveyLink : SurveyLink.t) (sessionId : string)
  : list (gmap string value) * SubmitOutcome :=
  let unansweredRequired :=
    filter (fun q => Question.is_required q && negb (answered responses q)
                     = true) questions in
  if bool_decide (unansweredRequired = []) then
    let '(stored, resolved) :=
      createResponsesWith accepted
        (responsesToInsert questions responses surveyLink sessionId) in
    (stored, if resolved then submit_completed else submit_failed)
  else ([], submit_blocked).

(** The documents a submission adds to the [responses] collection when
    every write succeeds; nothing is written while a required question is
    unanswered. *)
Definition handleSubmit (questions : list Question.t)
    (responses : gmap string string) (surveyLink : SurveyLink.t)
    (sessionId : string) : list (gmap string value) :=
  let unansweredRequired :=
    filter (fun q => Question.is_required q && negb (answered responses q)
                     = true) questions in
  if bool_decide (unansweredRequired = []) then
    createResponses (responsesToInsert questions responses surveyLink sessionId)
  else [].

(** ** Report generator of the client
       (src/components/QuestionManager.tsx) *)

Module ReportGenerator.

Record ReportSection := {
  id : string;
  title : option json;
  content : option json
}.

Record Metadata := {
  schoolName : string;
  year : Z;
  projectTitle : string;
  generatedAt : string;
  totalResponses : nat
}.

Record GeneratedReport := {
  report_title : json;
  report_sections : list ReportSection;
  metadata : Metadata
}.

Inductive Toast :=
  | toast_success (msg : string)
  | toast_error (msg : string).

Record State := {
  report : option GeneratedReport;
  error : option string;
  loading : bool;
  toasts : list Toast
}.

(** [haystack.includes(needle)] *)
Fixpoint includes (haystack needle : string) : bool :=
  String.prefix needle haystack
  || match haystack with
     | String _ rest => includes rest needle
     | EmptyString => false
     end.

Definition nl : string := String "010" EmptyString.

Definition demoSections : list ReportSection :=
  [ {| id := "1";
       title := Some (JStr "1. 요약 (Executive Summary)");
       content := Some (JStr "본 보고서는 학교 평가를 위해 실시된 설문조사 결과를 종합적으로 분석한 것입니다. Firebase Cloud Functions 배포 후 실제 데이터 기반의 보고서가 생성됩니다.") |};
    {| id := "2";
       title := Some (JStr "2. 조사 개요");
       content := Some (JStr ("조사 기간: 2025년" ++ nl ++ "조사 대상: 교원, 학부모, 학생" ++ nl ++ "조사 방법: 온라인 설문" ++ nl ++ nl ++ "상세 응답 통계는 Functions 배포 후 확인 가능합니다.")) |};
    {| id := "3";
       title := Some (JStr "3. 주요 발견사항");
       content := Some (JStr "설문조사 결과 분석을 통해 도출된 주요 발견사항입니다. AI 분석을 통해 주요 키워드, 긍정/부정 의견, 개선 필요사항 등이 자동으로 추출됩니다.") |};
    {| id := "4";
       title := Some (JStr "4. 영역별 분석");
       content := Some (JStr "교육과정, 학생생활지도, 교원역량, 학교운영 등 각 영역별 상세 분석 결과가 포함됩니다.") |};
    {| id := "5";
       title := Some (JStr "5. 강점과 개선점");
       content := Some (JStr ("학교의 강점:" ++ nl ++ "- 교육과정 운영의 전문성" ++ nl ++ "- 학생 중심 교육 활동" ++ nl ++ nl ++ "개선 필요 사항:" ++ nl ++ "- 행정업무 경감" ++ nl ++ "- 시설 현대화")) |};
    {| id := "6";
       title := Some (JStr "6. 제언 및 결론");
       content := Some (JStr "설문 결과를 바탕으로 한 종합적인 제언과 향후 발전 방향을 제시합니다. Firebase Functions 배포 후 AI가 생성한 맞춤형 제언이 포함됩니다.") |} ].

(** [sessionStorage.getItem("school_name") || d] *)
Definition stored_or (item : option string) (d : string) : string :=
  match item with
  | Some v => if truthy_string v then v else d
  | None => d
  end.

(** [(reportData.sections || []).map((s, index) => ...)]: [map] exists on
    arrays only, and reading a property of a [null] element throws. *)
Fixpoint mapSections (index : nat) (items : list json)
  : throws (list ReportSection) :=
  match items with
  | [] => ret []
  | s :: rest =>
      t <-- prop s "title" ;;
      c <-- prop s "content" ;;
      more <-- mapSections (S index) rest ;;
      ret ({| id := pretty (S index); title := t; content := c |} :: more)
  end.

Definition sectionsOf (sections : json) : throws (list ReportSection) :=
  match or_else (Some sections) (JArr []) with
  | JArr items => mapSections 0 items
  | _ => throw (TypeError "(reportData.sections || []).map is not a function")
  end.

(** The body of the [try] block once the call has resolved with [data]. *)
Definition onResolved (schoolItem : option string) (now : string)
    (thisYear : Z) (data : Functions.ReportResponse) (st : State)
  : throws State :=
  if Functions.success data then
    let reportData := Functions.report data in
    let schoolName := stored_or schoolItem "학교" in
    secs <-- sectionsOf (Functions.sections reportData) ;;
    ret {| report :=
             Some {| report_title :=
                       or_else (Some (Functions.title reportData))
                         (JStr (schoolName ++ " 학교평가 보고서"));
                     report_sections := secs;
                     metadata :=
                       {| schoolName := schoolName;
                          year := thisYear;
                          projectTitle := "학교평가";
                          generatedAt :=
                            if truthy_string (Functions.generatedAt reportData)
                            then Functions.generatedAt reportData else now;
                          totalResponses :=
                            Functions.report_totalResponses
                              (Functions.statistics reportData) |} |};
           error := error st;
           loading := loading st;
           toasts := toasts st ++ [toast_success "보고서가 생성되었습니다!"] |}
  else throw (Error "보고서 결과를 받지 못했습니다.").

(** The condition under which the [catch] block shows the demo report:
    the message names one of three error codes. *)
Definition functionsUnavailable (errorMessage : string) : bool :=
  includes errorMessage "not-found"
  || includes errorMessage "permission-denied"
  || includes errorMessage "unauthenticated".

(** The [catch] block. *)
Definition onRejected (schoolItem : option string) (now : string)
    (err : JsError) (st : State) : State :=
  let errorMessage :=
    if truthy_string (message err) then message err
    else "보고서 생성 중 오류가 발생했습니다." in
  if functionsUnavailable errorMessage then
    let schoolName := stored_or schoolItem "테스트 학교" in
    {| report :=
         Some {| report_title := JStr (schoolName ++ " 학교평가 보고서");
                 report_sections := demoSections;
                 metadata :=
                   {| schoolName := schoolName;
                      year := 2025;
                      projectTitle := "학교평가";
                      generatedAt := now;
                      totalResponses := 0 |} |};
       error := Some errorMessage;
       loading := loading st;
       toasts := toasts st ++ [toast_error "Firebase Functions가 아직 배포되지 않았습니다. 데모 보고서를 표시합니다."] |}
  else
    {| report := report st;
       error := Some errorMessage;
       loading := loading st;
       toasts := toasts st ++ [toast_error errorMessage] |}.

(** [generateReport] of the component; [called] is the settled result of
    [generateReportFn({ projectId })]. *)
Definition generateReport (schoolItem : option string) (now : string)
    (thisYear : Z) (called : throws Functions.ReportResponse) (st : State)
  : State :=
  let st := {| report := report st; error := None; loading := true;
               toasts := toasts st |} in
  let st' :=
    match (data <-- called ;; onResolved schoolItem now thisYear data st) with
    | inr st' => st'
    | inl err => onRejected schoolItem now err st
    end in
  {| report := report st'; error := error st'; loading := false;
     toasts := toasts st' |}.

Definition initial : State :=
  {| report := None; error := None; loading := false; toasts := [] |}.

End ReportGenerator.

(** The callable transport, that is the [onCall] wrapper of the
    functions runtime and [httpsCallable] of the client.  A function that
    throws an [HttpsError] rejects the client's call with an error
    carrying the same code and message.  A returned value resolves the
    call when the wrapper can encode it as JSON; [encodes] is the
    wrapper's verdict, and it refuses a number that is not finite.  A
    value that cannot be encoded, like an error that is not an
    [HttpsError], rejects the call with [internal] and the message
    INTERNAL. *)
Definition transport_failure : JsError :=
  {| name := "FirebaseError"; message := "INTERNAL"; code := Some internal |}.

Definition httpsCallable {A} (encodes : A -> bool) (served : throws A)
  : throws A :=
  match served with
  | inl e =>
      match code e with
      | Some c => inl {| name := "FirebaseError"; message := message e;
                         code := Some c |}
      | None => inl transport_failure
      end
  | inr data => if encodes data then inr data else inl transport_failure
  end.

(** Server and client together: the state of the report view after the
    user asks for a report in the state [prior]. *)
Definition reportPipeline (JSON_parse : string -> throws json)
    (encodes : Functions.ReportResponse -> bool)
    (db : Firestore) (data : gmap string value) (generated : throws string)
    (schoolItem : option string) (now : string) (thisYear : Z)
    (prior : ReportGenerator.State)
  : ReportGenerator.State :=
  ReportGenerator.generateReport schoolItem now thisYear
    (httpsCallable encodes (generateReport JSON_parse db data now generated))
    prior.

(** A reference encoder for the examples: it accepts a report whose
    completion rate and parsed numbers are finite. *)
Fixpoint json_finite (v : json) : bool :=
  match v with
  | JNum n => JS.isFinite n
  | JArr items => forallb json_finite items
  | JObj fields => forallb (fun kv => json_finite (snd kv)) fields
  | _ => true
  end.

Definition report_encodable (r : Functions.ReportResponse) : bool :=
  JS.isFinite
    (Functions.completionRate (Functions.statistics (Functions.report r)))
  && json_finite (Functions.title (Functions.report r))
  && json_finite (Functions.sections (Functions.report r)).

(** ** A reference JSON reader and writer

    Statements about the callables are parametric in the platform's
    [JSON.parse].  The examples instantiate it with this reader, which
    covers objects, arrays, strings (with the quote and backslash
    escapes), integers, booleans and [null]. *)

Module RefJSON.

Definition quote : ascii := "034".
Definition backslash : ascii := "092".

Definition quoted (s : string) : string :=
  String quote (s ++ String quote EmptyString).

Definition syntax_error : JsError :=
  {| name := "SyntaxError"; message := "Unexpected token in JSON";
     code := None |}.

Fixpoint skip (s : string) : string :=
  match s with
  | String c r =>
      if Ascii.eqb c " " || Ascii.eqb c "009" || Ascii.eqb c "010"
         || Ascii.eqb c "013"
      then skip r else s
  | EmptyString => s
  end.

(** The characters up to the closing quote, and what follows it. *)
Fixpoint read_string (s : string) : option (string * string) :=
  match s with
  | EmptyString => None
  | String c r =>
      if Ascii.eqb c quote then Some (EmptyString, r)
      else if Ascii.eqb c backslash then
        match r with
        | String e r' =>
            if Ascii.eqb e quote || Ascii.eqb e backslash then
              '(x, rest) ← read_string r'; Some (String e x, rest)
            else None
        | EmptyString => None
        end
      else '(x, rest) ← read_string r; Some (String c x, rest)
  end.

(** A run of decimal digits, and what follows it. *)
Fixpoint read_number (acc : option Z) (s : string) : option Z * string :=
  match s with
  | String c r =>
      match digit_value 10 c with
      | Some d => read_number (Some (10 * default 0 acc + d)) r
      | None => (acc, s)
      end
  | EmptyString => (acc, s)
  end.

Fixpoint read_value (fuel : nat) (s : string) : option (json * string) :=
  match fuel with
  | O => None
  | S fuel =>
      match skip s with
      | String "n" (String "u" (String "l" (String "l" r))) =>
          Some (JNull, r)
      | String "t" (String "r" (String "u" (String "e" r))) =>
          Some (JBool true, r)
      | String "f" (String "a" (String "l" (String "s" (String "e" r)))) =>
          Some (JBool false, r)
      | String "[" r =>
          match skip r with
          | String "]" r' => Some (JArr [], r')
          | _ => '(items, rest) ← read_items fuel r; Some (JArr items, rest)
          end
      | String "{" r =>
          match skip r with
          | String "}" r' => Some (JObj [], r')
          | _ => '(fields, rest) ← read_fields fuel r; Some (JObj fields, rest)
          end
      | String "-" r =>
          match read_number None r with
          | (Some n, rest) => Some (JNum (JS.of_Z (- n)), rest)
          | (None, _) => None
          end
      | String c r =>
          if Ascii.eqb c quote then
            '(x, rest) ← read_string r; Some (JStr x, rest)
          else
            match read_number None (String c r) with
            | (Some n, rest) => Some (JNum (JS.of_Z n), rest)
            | (None, _) => None
            end
      | EmptyString => None
      end
  end
with read_items (fuel : nat) (s : string) : option (list json * string) :=
  match fuel with
  | O => None
  | S fuel =>
      '(v, rest) ← read_value fuel s;
      match skip rest with
      | String "," r =>
          '(more, rest') ← read_items fuel r; Some (v :: more, rest')
      | String "]" r => Some ([v], r)
      | _ => None
      end
  end
with read_fields (fuel : nat) (s : string)
  : option (list (string * json) * string) :=
  match fuel with
  | O => None
  | S fuel =>
      match skip s with
      | String c r =>
          if Ascii.eqb c quote then
            '(k, rest) ← read_string r;
            match skip rest with
            | String ":" r' =>
                '(v, rest') ← read_value fuel r';
                match skip rest' with
                | String "," r'' =>
                    '(more, rest'') ← read_fields fuel r'';
                    Some ((k, v) :: more, rest'')
                | String "}" r'' => Some ([(k, v)], r'')
                | _ => None
                end
            | _ => None
            end
          else None
      | EmptyString => None
      end
  end.

Definition parse (text : string) : throws json :=
  match read_value (S (String.length text)) text with
  | Some (v, rest) =>
      match skip rest with
      | EmptyString => ret v
      | _ => throw syntax_error
      end
  | None => throw syntax_error
  end.

Fixpoint escape (s : string) : string :=
  match s with
  | EmptyString => EmptyString
  | String c r =>
      if Ascii.eqb c quote || Ascii.eqb c backslash
      then String backslash (String c (escape r))
      else String c (escape r)
  end.

(** The integer a number stands for, when it is one. *)
Definition integer_of (n : JS.number) : option Z :=
  match n with
  | S754_zero _ => Some 0
  | S754_finite s m e =>
      let sm := if s then Z.neg m else Z.pos m in
      if 0 <=? e then Some (sm * 2 ^ e)
      else if sm mod 2 ^ (- e) =? 0 then Some (sm / 2 ^ (- e)) else None
  | _ => None
  end.

(** [JSON.stringify] on the values the reader covers; [None] elsewhere. *)
Fixpoint stringify (v : json) : option string :=
  match v with
  | JNull => Some "null"
  | JBool true => Some "true"
  | JBool false => Some "false"
  | JNum n => pretty <$> integer_of n
  | JStr x => Some (quoted (escape x))
  | JArr items =>
      let fix go (l : list json) : option string :=
        match l with
        | [] => Some EmptyString
        | [x] => stringify x
        | x :: rest =>
            a ← stringify x; b ← go rest; Some (a ++ "," ++ b)%string
        end in
      body ← go items; Some ("[" ++ body ++ "]")%string
  | JObj fields =>
      let fix go (l : list (string * json)) : option string :=
        match l with
        | [] => Some EmptyString
        | [(k, x)] =>
            a ← stringify x; Some (quoted (escape k) ++ ":" ++ a)%string
        | (k, x) :: rest =>
            a ← stringify x; b ← go rest;
            Some (quoted (escape k) ++ ":" ++ a ++ "," ++ b)%string
        end in
      body ← go fields; Some ("{" ++ body ++ "}")%string
  end.

End RefJSON.

(** ** Vocabulary of the statements *)

(** [c] occurs nowhere in [s]. *)
Fixpoint lacks (c : ascii) (s : string) : bool :=
  match s with
  | EmptyString => true
  | String d r => negb (Ascii.eqb d c) && lacks c r
  end.

Definition brace_free (s : string) : bool := lacks "{" s && lacks "}" s.

(** [s] has an opening brace with a closing brace somewhere after it. *)
Definition has_span (s : string) : Prop :=
  exists pre mid post : string,
    s = (pre ++ String "{" (mid ++ String "}" post))%string.

(** A response value that parses as an integer from 1 to 5, and the
    ratings of a list of responses: the values of that kind, in order. *)
Definition rating_value (v : string) : option Z :=
  match parseInt v with
  | Some n => if (1 <=? n) && (n <=? 5) then Some n else None
  | None => None
  end.

Definition ratings (responses : list Response.t) : list Z :=
  omap (fun r => Response.response_value r ≫= rating_value) responses.

Definition sum (l : list Z) : Z := foldr Z.add 0 l.

Definition lit_3_71428 : JS.number :=
  Eval vm_compute in Prim2SF 3.71428%float.
Definition lit_3_71429 : JS.number :=
  Eval vm_compute in Prim2SF 3.71429%float.

(** ** Example data *)

(** A payload as the report prompt asks for it. *)
Definition example_payload : json :=
  JObj [ ("title", JStr "2025 학교 평가 보고서");
         ("sections",
          JArr [ JObj [ ("title", JStr "1. 요약");
                        ("content", JStr "응답 7건을 분석했습니다.") ] ]) ].

Definition example_stringify (v : json) : string :=
  default EmptyString (RefJSON.stringify v).

(** A project with a school, two questions and ten responses, seven of
    them ratings; a second project without responses. *)
Definition example_response (type answer : string) : gmap string value :=
  {[ "project_id" := Str "p1"; "question_id" := Str "q1";
     "respondent_type" := Str type; "response_value" := Str answer;
     "session_id" := Str "session-1"; "created_at" := Obj ]}.

Definition example_db : Firestore :=
  {| projects :=
       {[ "p1" := {[ "school_id" := Str "s1"; "name" := Str "2025 학교평가" ]};
          "p2" := {[ "school_id" := Str "s1"; "name" := Str "2026 학교평가" ]} ]};
     schools := {[ "s1" := {[ "school_name" := Str "한빛초등학교" ]} ]};
     questions :=
       [ ("q1", {[ "project_id" := Str "p1";
                   "question_text" := Str "학교 교육과정에 만족한다." ]});
         ("q2", {[ "project_id" := Str "p1";
                   "question_text" := Str "개선할 점을 적어 주세요." ]}) ];
     responses :=
       [ example_response "teacher" "5"; example_response "teacher" "4";
         example_response "teacher" "3"; example_response "teacher" "5";
         example_response "teacher" "4"; example_response "parent" "2";
         example_response "parent" "3";
         example_response "student" "급식이 맛있어요";
         example_response "student" "운동장이 좁아요";
         example_response "student" "도서관이 좋아요" ] |}.

(** A project that has a response but no question. *)
Definition db_without_questions : Firestore :=
  {| projects := {[ "p1" := {[ "school_id" := Str "s1" ]} ]};
     schools := {[ "s1" := {[ "school_name" := Str "한빛초등학교" ]} ]};
     questions := [];
     responses := [ example_response "parent" "4" ] |}.

(** The same ten responses as the statistics view reads them: the seven
    rated ones, alone and followed by three free-text answers. *)
Definition response_of (type answer : string) : Response.t :=
  {| Response.id := "r"; Response.question_id := "q1";
     Response.project_id := "p1"; Response.respondent_type := type;
     Response.response_value := Some answer;
     Response.session_id := "session-1" |}.

Definition rated_responses : list Response.t :=
  [ response_of "teacher" "5"; response_of "teacher" "4";
    response_of "teacher" "3"; response_of "teacher" "5";
    response_of "teacher" "4"; response_of "parent" "2";
    response_of "parent" "3" ].

Definition ten_responses : list Response.t :=
  rated_responses ++
  [ response_of "student" "급식이 맛있어요";
    response_of "student" "운동장이 좁아요";
    response_of "student" "도서관이 좋아요" ].

Definition two_questions : list Question.t :=
  [ {| Question.id := "q1"; Question.project_id := "p1";
       Question.respondent_type := "teacher";
       Question.question_type := "rating";
       Question.question_text := "학교 교육과정에 만족한다.";
       Question.is_required := true; Question.order_index := 0;
       Question.section_name := None |};
    {| Question.id := "q2"; Question.project_id := "p1";
       Question.respondent_type := "teacher";
       Question.question_type := "text";
       Question.question_text := "개선할 점을 적어 주세요.";
       Question.is_required := false; Question.order_index := 1;
       Question.section_name := None |} ].

(** ** Grade distribution (src/integrations/firebase/types.ts) *)

(** [Record<GradeLevel, number>] *)
Record GradeCounts := {
  n_excellent : nat;
  n_good : nat;
  n_average : nat;
  n_poor : nat
}.

(** [distribution[l]] and [distribution[l]++] *)
Definition grade_count (distribution : GradeCounts) (l : GradeLevel) : nat :=
  match l with
  | excellent => n_excellent distribution
  | good => n_good distribution
  | average => n_average distribution
  | poor => n_poor distribution
  end.

Definition grade_increment (distribution : GradeCounts) (l : GradeLevel)
  : GradeCounts :=
  match l with
  | excellent =>
      {| n_excellent := S (n_excellent distribution);
         n_good := n_good distribution;
         n_average := n_average distribution;
         n_poor := n_poor distribution |}
  | good =>
      {| n_excellent := n_excellent distribution;
         n_good := S (n_good distribution);
         n_average := n_average distribution;
         n_poor := n_poor distribution |}
  | average =>
      {| n_excellent := n_excellent distribution;
         n_good := n_good distribution;
         n_average := S (n_average distribution);
         n_poor := n_poor distribution |}
  | poor =>
      {| n_excellent := n_excellent distribution;
         n_good := n_good distribution;
         n_average := n_average distribution;
         n_poor := S (n_poor distribution) |}
  end.

Definition getGradeDistribution (scores : list JS.number) : GradeCounts :=
  foldl
    (fun distribution score =>
       let grade := convertToGrade score in
       grade_increment distribution (level grade))
    {| n_excellent := 0; n_good := 0; n_average := 0; n_poor := 0 |}
    scores.

(** ** Priority voting (the PriorityVoting component)

    The component keeps [selectedItems]; each handler either returns
    early, leaving the state as it is, or sets the state to a new list and
    hands the same list to [onChange] (as JSON text). *)

Module PriorityVoting.

Record PriorityItem := {
  id : string;
  text : string;
  rank : nat
}.

(** What a handler does: [Returned] is the early [return]; [Updated l]
    is [setSelectedItems(l); onChange(JSON.stringify(l))].  [moveItem] is
    called with a position of the rendered list; [OutOfRange] marks any
    other index, where the array assignment is not followed. *)
Inductive Outcome :=
  | Returned
  | Updated (items : list PriorityItem)
  | OutOfRange.

(** [items.map((item, index) => ({ ...item, rank: index + 1 }))] *)
Definition rerank (items : list PriorityItem) : list PriorityItem :=
  imap (fun index item =>
          {| id := id item; text := text item; rank := S index |}) items.

(** [selectedItems.some((item) => item.text === text)] *)
Definition isSelected (selectedItems : list PriorityItem) (t : string)
  : bool :=
  existsb (fun item => String.eqb (text item) t) selectedItems.

(** [now] is [Date.now()]. *)
Definition addItem (questionId : string) (maxSelections : nat) (now : N)
    (selectedItems : list PriorityItem) (t : string) : Outcome :=
  if (maxSelections <=? length selectedItems)%nat then Returned
  else if isSelected selectedItems t then Returned
  else
    Updated
      (selectedItems ++
       [ {| id := questionId ++ "-" ++ pretty now;
            text := t;
            rank := S (length selectedItems) |} ]).

Definition removeItem (selectedItems : list PriorityItem) (t : string)
  : Outcome :=
  let filtered :=
    filter (fun item => text item <> t) selectedItems in
  Updated (rerank filtered).

Inductive Direction := up | down.

Definition is_up (direction : Direction) : bool :=
  match direction with up => true | down => false end.

(** [index === selectedItems.length - 1] *)
Definition is_last (selectedItems : list PriorityItem) (index : nat)
  : bool :=
  bool_decide (S index = length selectedItems).

Definition moveItem (selectedItems : list PriorityItem) (index : nat)
    (direction : Direction) : Outcome :=
  if is_up direction && bool_decide (index = 0%nat) then Returned
  else if negb (is_up direction) && is_last selectedItems index
  then Returned
  else
    let swapIndex := if is_up direction then pred index else S index in
    match selectedItems !! index, selectedItems !! swapIndex with
    | Some a, Some b =>
        Updated (rerank (<[index := b]> (<[swapIndex := a]> selectedItems)))
    | _, _ => OutOfRange
    end.

(** The state after a handler has run. *)
Definition after (selectedItems : list PriorityItem) (o : Outcome)
  : list PriorityItem :=
  match o with
  | Updated items => items
  | _ => selectedItems
  end.

(** The states the buttons of the component lead to, from no selection:
    an available item is added or removed, a selected item is removed or
    moved from its own position. *)
Inductive reachable (questionId : string) (maxSelections : nat)
  : list PriorityItem -> Prop :=
  | reach_empty : reachable questionId maxSelections []
  | reach_add items now t :
      reachable questionId maxSelections items ->
      reachable questionId maxSelections
        (after items (addItem questionId maxSelections now items t))
  | reach_remove items t :
      reachable questionId maxSelections items ->
      reachable questionId maxSelections (after items (removeItem items t))
  | reach_move items index direction :
      reachable questionId maxSelections items ->
      (index < length items)%nat ->
      reachable questionId maxSelections
        (after items (moveItem items index direction)).

(** The ranks are 1, 2, ... in list order. *)
Definition ranked (items : list PriorityItem) : Prop :=
  rank <$> items = seq 1 (length items).

Definition texts (items : list PriorityItem) : list string :=
  text <$> items.

(** The part of an item that [rerank] keeps. *)
Definition core (items : list PriorityItem) : list (string * string) :=
  (fun item => (id item, text item)) <$> items.

End PriorityVoting.

(** ** Survey links (firestore helpers, [getSurveyLinkByCode]) and the
       loading of a survey (src/pages/Survey.tsx, [loadSurvey]) *)

(** A document of [survey_links]: the link and its optional expiry, a
    time in milliseconds. *)
Record StoredLink := {
  link : SurveyLink.t;
  expires_at : option Z
}.

(** [where('access_code', '==', accessCode), where('is_active', '==', true)]
    over the collection in snapshot order; the first document is taken and
    dropped when it has expired at [now]. *)
Definition getSurveyLinkByCode (survey_links : list StoredLink)
    (now : Z) (accessCode : string) : option StoredLink :=
  let snapshot :=
    filter (fun d => SurveyLink.access_code (link d) = accessCode /\
                     SurveyLink.is_active (link d) = true) survey_links in
  match snapshot with
  | [] => None
  | data :: _ =>
      match expires_at data with
      | Some expiry => if expiry <? now then None else Some data
      | None => Some data
      end
  end.

Inductive SurveyPage :=
  | Refused (toast : string)
  | TeacherRedirect (path : string)
  | Shown (surveyLink : SurveyLink.t) (questions : list Question.t).

(** [questionsOf project type] is the result of
    [getQuestionsByProjectId(project, type)]. *)
Definition loadSurvey (survey_links : list StoredLink) (now : Z)
    (questionsOf : string -> string -> list Question.t)
    (accessCode : option string) : SurveyPage :=
  match accessCode with
  | None => Refused "잘못된 접근입니다."
  | Some code =>
      if negb (truthy_string code) then Refused "잘못된 접근입니다."
      else
        match getSurveyLinkByCode survey_links now code with
        | None => Refused "유효하지 않은 설문 링크입니다."
        | Some data =>
            let linkData := link data in
            if negb (SurveyLink.is_active linkData)
            then Refused "이 설문은 현재 비활성화되어 있습니다."
            else if String.eqb (SurveyLink.respondent_type linkData) "teacher"
            then TeacherRedirect ("/teacher-survey/" ++ code)
            else
              Shown linkData
                (questionsOf (SurveyLink.project_id linkData)
                   (SurveyLink.respondent_type linkData))
        end
  end.

(** ** Sections of the teacher survey (src/pages/Survey.tsx,
       [TeacherSurvey]) *)

(** [Array.from(new Set(xs))]: the first occurrence of each element, in
    order. *)
Fixpoint uniq (xs : list string) : list string :=
  match xs with
  | [] => []
  | x :: rest => x :: filter (fun y => y <> x) (uniq rest)
  end.

(** [q.section_name] when it is truthy. *)
Definition sectionName (q : Question.t) : option string :=
  match Question.section_name q with
  | Some n => if truthy_string n then Some n else None
  | None => None
  end.

(** [Array.from(new Set(questions.map((q) => q.section_name)
                                 .filter(Boolean)))] *)
Definition sections (questions : list Question.t) : list string :=
  uniq (omap sectionName questions).

(** The questions shown: those of the current section, or all of them
    when no section is current. *)
Definition sectionQuestions (questions : list Question.t)
    (currentSection : option string) : list Question.t :=
  match currentSection with
  | Some current =>
      if truthy_string current then
        filter (fun q => Question.section_name q = Some current) questions
      else questions
  | None => questions
  end.

(** The section [loadSurvey] makes current: the first one, if any. *)
Definition initialSection (questions : list Question.t) : option string :=
  head (sections questions).

(** ** Progress and navigation of the teacher survey
       (src/pages/Survey.tsx, [TeacherSurvey]) *)




(** [xs.indexOf(x)]: the first position of [x], or -1. *)
Fixpoint indexOf (xs : list string) (x : string) : Z :=
  match xs with
  | [] => -1
  | y :: rest =>
      if String.eqb y x then 0
      else let i := indexOf rest x in if i <? 0 then -1 else i + 1
  end.

(** [xs[i]] for an integer [i]; [None] is [undefined]. *)
Definition at_index (xs : list string) (i : Z) : option string :=
  if i <? 0 then None else xs !! Z.to_nat i.

(** [sections.indexOf(currentSection || EmptyString)] *)
Definition currentSectionIndex (sections : list string)
    (currentSection : option string) : Z :=
  indexOf sections
    (match currentSection with
     | Some c => if truthy_string c then c else EmptyString
     | None => EmptyString
     end).

Definition canGoNext (sections : list string)
    (currentSection : option string) : bool :=
  currentSectionIndex sections currentSection
  <? Z.of_nat (length sections) - 1.

Definition canGoPrev (sections : list string)
    (currentSection : option string) : bool :=
  0 <? currentSectionIndex sections currentSection.

(** The section the two buttons make current. *)
Definition nextSection (sections : list string)
    (currentSection : option string) : option string :=
  at_index sections (currentSectionIndex sections currentSection + 1).

Definition prevSection (sections : list string)
    (currentSection : option string) : option string :=
  at_index sections (currentSectionIndex sections currentSection - 1).

(** ** Further vocabulary and example data *)

Definition GradeLevel_eq_dec (a b : GradeLevel) : Decision (a = b) :=
  ltac:(solve_decision).
#[global] Existing Instance GradeLevel_eq_dec.

(** [s === null] on a parsed value. *)
Definition is_null (s : json) : bool :=
  match s with JNull => true | _ => false end.

(** The five rating digits. *)
Definition rating_digit (n : Z) : ascii :=
  match n with
  | 1 => "1" | 2 => "2" | 3 => "3" | 4 => "4" | _ => "5"
  end.

(** [s] does not go on with a decimal digit. *)
Definition no_digit_ahead (s : string) : Prop :=
  match s with
  | String c _ => digit_value 10 c = None
  | EmptyString => True
  end.

(** Two selected items of a priority question. *)
Definition example_selection : list PriorityVoting.PriorityItem :=
  [ {| PriorityVoting.id := "q3-1762128000000";
       PriorityVoting.text := "교원 연수 확대";
       PriorityVoting.rank := 1 |};
    {| PriorityVoting.id := "q3-1762128000500";
       PriorityVoting.text := "행정업무 경감";
       PriorityVoting.rank := 2 |} ].

(** Survey links: a deactivated parents' link, the active one that took
    over its code, and a teachers' link. *)
Definition example_link (id type accessCode : string) (active : bool)
  : SurveyLink.t :=
  {| SurveyLink.id := id; SurveyLink.project_id := "p1";
     SurveyLink.respondent_type := type;
     SurveyLink.access_code := accessCode;
     SurveyLink.is_active := active |}.

Definition example_links : list StoredLink :=
  [ {| link := example_link "l1" "parent" "PARENT01" false;
       expires_at := None |};
    {| link := example_link "l2" "parent" "PARENT01" true;
       expires_at := Some 1798675200000 |};
    {| link := example_link "l3" "teacher" "TEACH001" true;
       expires_at := None |} ].

(** Questions of a teacher survey in two sections, the last question
    without a section. *)
Definition sectioned_question (id : string) (section : option string)
  : Question.t :=
  {| Question.id := id; Question.project_id := "p1";
     Question.respondent_type := "teacher";
     Question.question_type := "rating";
     Question.question_text := "학교 교육과정에 만족한다.";
     Question.is_required := true; Question.order_index := 0;
     Question.section_name := section |}.

Definition sectioned_questions : list Question.t :=
  [ sectioned_question "t1" (Some "교육과정");
    sectioned_question "t2" (Some "학교운영");
    sectioned_question "t3" (Some "교육과정");
    sectioned_question "t4" None ].

(** A link and the answers of a submission, for the examples. *)
Definition example_survey_link : SurveyLink.t :=
  {| SurveyLink.id := "l1"; SurveyLink.project_id := "p1";
     SurveyLink.respondent_type := "teacher";
     SurveyLink.access_code := "TCH001"; SurveyLink.is_active := true |}.

Definition example_answers : gmap string string :=
  {[ "q1" := "5"; "q2" := "more time" ]}.

(** ** Properties of the number model *)

(** The constants of [JS] are the binary64 values of the literals. *)
Lemma literals_are_binary64 :
  Prim2SF 4.2%float = JS.lit_4_2 /\ Prim2SF 3.4%float = JS.lit_3_4 /\
  Prim2SF 2.6%float = JS.lit_2_6 /\ Prim2SF 4.1999%float = JS.lit_4_1999 /\
  Prim2SF 2.5999%float = JS.lit_2_5999 /\ Prim2SF 1%float = JS.one /\
  Prim2SF 10%float = JS.ten /\ Prim2SF 100%float = JS.hundred /\
  JS.of_Z 1 = JS.one /\ JS.of_Z 10 = JS.ten /\ JS.of_Z 100 = JS.hundred.
Proof. vm_compute. repeat split; reflexivity. Qed.

(** [<=] on numbers is transitive (a comparison with NaN is false). *)
Lemma SFleb_trans (x y z : spec_float) :
  SFleb x y = true -> SFleb y z = true -> SFleb x z = true.
Proof.
  unfold SFleb, SFcompare.
  destruct x as [sx|sx| |sx mx ex], y as [sy|sy| |sy my ey],
    z as [sz|sz| |sz mz ez];
    repeat match goal with s : bool |- _ => destruct s end;
    try (cbn; congruence).
  - destruct (Z.compare_spec ex ey), (Z.compare_spec ey ez),
      (Z.compare_spec ex ez); subst; try lia; try (cbn; congruence).
    rewrite !Pos.compare_cont_spec; cbn.
    destruct (Pos.compare_spec mx my), (Pos.compare_spec my mz),
      (Pos.compare_spec mx mz); subst; try lia; cbn; congruence.
  - destruct (Z.compare_spec ex ey), (Z.compare_spec ey ez),
      (Z.compare_spec ex ez); subst; try lia; try (cbn; congruence).
    rewrite !Pos.compare_cont_spec; cbn.
    destruct (Pos.compare_spec mx my), (Pos.compare_spec my mz),
      (Pos.compare_spec mx mz); subst; try lia; cbn; congruence.
Qed.

(** On numbers, [x < t] is the negation of [x >= t]. *)
Lemma SFltb_negb_SFleb (x t : spec_float) :
  JS.isNaN x = false -> JS.isNaN t = false ->
  SFltb x t = negb (SFleb t x).
Proof.
  unfold SFltb, SFleb, SFcompare.
  destruct x as [sx|sx| |sx mx ex], t as [st|st| |st mt et];
    repeat match goal with s : bool |- _ => destruct s end;
    try (cbn; congruence); intros _ _.
  - rewrite (Z.compare_antisym ex et).
    destruct (ex ?= et); cbn; try done.
    rewrite !Pos.compare_cont_spec, (Pos.compare_antisym mx mt); cbn.
    by destruct (mx ?= mt)%positive.
  - rewrite (Z.compare_antisym ex et).
    destruct (ex ?= et); cbn; try done.
    rewrite !Pos.compare_cont_spec, (Pos.compare_antisym mx mt); cbn.
    by destruct (mx ?= mt)%positive.
Qed.

(** *** Rounding in the normal range

    [binary_round_aux] shifts the mantissa down to 53 bits, rounds to
    nearest even and renormalises.  The lemmas below follow the mantissa
    and the exponent through these steps when no underflow occurs, which
    is all that counts, percentages and their quotients need. *)

(** [digits2_pos p] is the number of binary digits of [p]. *)
Lemma digits2_pos_bounds (p : positive) :
  2 ^ (Z.pos (digits2_pos p) - 1) <= Z.pos p < 2 ^ Z.pos (digits2_pos p).
Proof.
  induction p as [p IH|p IH|]; cbn [digits2_pos].
  - rewrite Pos2Z.inj_succ.
    replace (Z.succ (Z.pos (digits2_pos p)) - 1)
      with (Z.succ (Z.pos (digits2_pos p) - 1)) by lia.
    rewrite !Z.pow_succ_r by lia. lia.
  - rewrite Pos2Z.inj_succ.
    replace (Z.succ (Z.pos (digits2_pos p)) - 1)
      with (Z.succ (Z.pos (digits2_pos p) - 1)) by lia.
    rewrite !Z.pow_succ_r by lia. lia.
  - cbn. lia.
Qed.

Lemma digits2_pos_unique (p : positive) (d : Z) :
  2 ^ (d - 1) <= Z.pos p < 2 ^ d -> Z.pos (digits2_pos p) = d.
Proof.
  intros [Hlo Hhi]. pose proof (digits2_pos_bounds p) as [Blo Bhi].
  assert (0 < d).
  { destruct (Z.ltb_spec 0 d); [done|].
    assert (2 ^ d <= 2 ^ 0) by (apply Z.pow_le_mono_r; lia). cbn in *. lia. }
  destruct (Z.lt_trichotomy (Z.pos (digits2_pos p)) d) as [Hlt|[->|Hgt]];
    [|done|].
  - assert (2 ^ Z.pos (digits2_pos p) <= 2 ^ (d - 1))
      by (apply Z.pow_le_mono_r; lia).
    lia.
  - assert (2 ^ d <= 2 ^ (Z.pos (digits2_pos p) - 1))
      by (apply Z.pow_le_mono_r; lia).
    lia.
Qed.

(** One shift halves the mantissa; [k] shifts divide it by 2^k. *)
Lemma shr_1_m (mrs : shr_record) :
  0 <= shr_m mrs -> shr_m (shr_1 mrs) = shr_m mrs / 2.
Proof.
  destruct mrs as [m r s]; cbn [shr_m]. intros Hm.
  destruct m as [|[p|p|]|p]; cbn [shr_1 shr_m]; [done| | |done|lia].
  - apply Z.div_unique with (r := 1); lia.
  - apply Z.div_unique with (r := 0); lia.
Qed.

Lemma iter_pos_shr_1_m (k : positive) (mrs : shr_record) :
  0 <= shr_m mrs ->
  shr_m (SpecFloat.iter_pos shr_1 k mrs) = shr_m mrs / 2 ^ Z.pos k.
Proof.
  revert mrs.
  induction k as [k IH|k IH|]; intros mrs Hm; cbn [SpecFloat.iter_pos].
  - assert (0 <= shr_m (shr_1 mrs))
      by (rewrite shr_1_m by done; apply Z.div_pos; lia).
    assert (0 <= shr_m (SpecFloat.iter_pos shr_1 k (shr_1 mrs)))
      by (rewrite IH by done; apply Z.div_pos; lia).
    rewrite !IH, shr_1_m by done.
    rewrite !Z.div_div by lia. f_equal.
    rewrite Pos2Z.inj_xI, Z.pow_add_r, Z.pow_mul_r by lia.
    change (2 ^ 2) with 4. change (2 ^ 1) with 2.
    replace (4 ^ Z.pos k) with (2 ^ Z.pos k * 2 ^ Z.pos k).
    + lia.
    + rewrite <- Z.pow_add_r by lia.
      replace (Z.pos k + Z.pos k) with (2 * Z.pos k) by lia.
      rewrite Z.pow_mul_r by lia. done.
  - assert (0 <= shr_m (SpecFloat.iter_pos shr_1 k mrs))
      by (rewrite IH by done; apply Z.div_pos; lia).
    rewrite !IH by done. rewrite Z.div_div by lia. f_equal.
    rewrite Pos2Z.inj_xO. rewrite <- Z.pow_add_r by lia. f_equal. lia.
  - rewrite shr_1_m by done. done.
Qed.

Lemma shr_spec (mrs : shr_record) (e n : Z) :
  0 <= n -> 0 <= shr_m mrs ->
  exists mrs' : shr_record,
    shr mrs e n = (mrs', e + n) /\
    shr_m mrs' = shr_m mrs / 2 ^ n /\
    (n = 0 -> mrs' = mrs).
Proof.
  intros Hn Hm. destruct n as [|k|k]; [| |lia].
  - exists mrs. cbn [shr]. rewrite Z.add_0_r, Z.div_1_r. done.
  - exists (SpecFloat.iter_pos shr_1 k mrs). cbn [shr].
    split; [done|]. split; [by apply iter_pos_shr_1_m | lia].
Qed.

Lemma shr_record_of_loc_m (m : Z) (l : location) :
  shr_m (shr_record_of_loc m l) = m /\
  loc_of_shr_record (shr_record_of_loc m l) = l.
Proof. by destruct l as [|[]]. Qed.

Lemma round_nearest_even_bounds (m : Z) (l : location) :
  m <= round_nearest_even m l <= m + 1.
Proof.
  destruct l as [|[]]; cbn; [lia| |lia|lia]. destruct (Z.even m); lia.
Qed.

Lemma fexp_normal (e : Z) : -1074 <= e - 53 -> fexp 53 1024 e = e - 53.
Proof. intros H. unfold fexp, emin. lia. Qed.

(** Rounding a mantissa of [d >= 53] digits without underflow: the
    result has a 53-bit mantissa [m'], which is the truncated mantissa [m1]
    or its successor at exponent [ex + (d - 53)], or 2^52 one exponent
    higher when the successor carries; an exact 53-bit mantissa is kept. *)
Lemma binary_round_aux_normal (s : bool) (mx : positive) (ex : Z)
    (lx : location) :
  let d := Z.pos (digits2_pos mx) in
  let m1 := Z.pos mx / 2 ^ (d - 53) in
  53 <= d -> -1074 <= ex + (d - 53) ->
  exists (m' : positive) (e' : Z),
    binary_round_aux 53 1024 s (Z.pos mx) ex lx
    = (if e' <=? 971 then S754_finite s m' e' else S754_infinity s) /\
    2 ^ 52 <= Z.pos m' < 2 ^ 53 /\
    ((e' = ex + (d - 53) /\ m1 <= Z.pos m' <= m1 + 1) \/
     (e' = ex + (d - 53) + 1 /\ Z.pos m' = 2 ^ 52 /\ m1 + 1 = 2 ^ 53)) /\
    (d = 53 -> lx = loc_Exact -> m' = mx /\ e' = ex).
Proof.
  intros d m1 Hd He.
  pose proof (digits2_pos_bounds mx) as [Blo Bhi]. fold d in Blo, Bhi.
  assert (2 ^ 52 <= m1 < 2 ^ 53) as Hm1.
  { subst m1. split.
    - apply Z.div_le_lower_bound; [lia|].
      rewrite <- Z.pow_add_r by lia.
      by replace (d - 53 + 52) with (d - 1) by lia.
    - apply Z.div_lt_upper_bound; [lia|].
      rewrite <- Z.pow_add_r by lia.
      by replace (d - 53 + 53) with d by lia. }
  unfold binary_round_aux, shr_fexp.
  change (Zdigits2 (Z.pos mx)) with d.
  rewrite fexp_normal by lia.
  destruct (shr_spec (shr_record_of_loc (Z.pos mx) lx) ex (d + ex - 53 - ex))
    as (mrs1 & -> & Hmrs1 & Hexact);
    [lia | by rewrite (proj1 (shr_record_of_loc_m _ _)) |].
  rewrite (proj1 (shr_record_of_loc_m _ _)) in Hmrs1.
  replace (d + ex - 53 - ex) with (d - 53) in * by lia. fold m1 in Hmrs1.
  set (m2 := round_nearest_even (shr_m mrs1) (loc_of_shr_record mrs1)).
  pose proof (round_nearest_even_bounds (shr_m mrs1) (loc_of_shr_record mrs1))
    as Hm2. fold m2 in Hm2. rewrite Hmrs1 in Hm2.
  assert (d = 53 -> lx = loc_Exact -> m2 = Z.pos mx) as Hex.
  { intros Hd53 ->. subst m2. rewrite Hexact by lia. cbn.
    done. }
  clearbody m2. clear Hmrs1 Hexact mrs1.
  destruct (Z.ltb_spec m2 (2 ^ 53)) as [Hlt|Hge].
  - destruct m2 as [|p2|p2]; [lia| |lia].
    assert (Z.pos (digits2_pos p2) = 53) as Hd2
      by (apply digits2_pos_unique; lia).
    cbn [Zdigits2]. rewrite Hd2, fexp_normal by lia.
    destruct (shr_spec (shr_record_of_loc (Z.pos p2) loc_Exact) (ex + (d - 53))
                (53 + (ex + (d - 53)) - 53 - (ex + (d - 53))))
      as (mrs2 & -> & _ & Hexact2); [lia | done |].
    rewrite Hexact2 by lia. cbn [shr_record_of_loc shr_m].
    exists p2, (ex + (d - 53)).
    replace (ex + (d - 53) + (53 + (ex + (d - 53)) - 53 - (ex + (d - 53))))
      with (ex + (d - 53)) by lia.
    change (1024 - 53) with 971.
    split; [done|]. split; [lia|]. split; [left; lia|].
    intros Hd53 Hl. specialize (Hex Hd53 Hl). split; [congruence | lia].
  - assert (m2 = 2 ^ 53) as -> by lia.
    change (Zdigits2 (2 ^ 53)) with 54. rewrite fexp_normal by lia.
    replace (54 + (ex + (d - 53)) - 53 - (ex + (d - 53))) with 1 by lia.
    cbn [shr shr_record_of_loc SpecFloat.iter_pos].
    change (shr_m (shr_1 {| shr_m := 2 ^ 53; shr_r := false; shr_s := false |}))
      with (Z.pos 4503599627370496).
    exists 4503599627370496%positive, (ex + (d - 53) + 1).
    change (1024 - 53) with 971.
    split; [done|]. split; [done|]. split; [right; lia|].
    intros Hd53 Hl. specialize (Hex Hd53 Hl). rewrite Hd53 in Bhi. lia.
Qed.

Lemma pos_iter_xO (p k : positive) :
  Z.pos (Pos.iter xO p k) = Z.pos p * 2 ^ Z.pos k.
Proof.
  induction k as [|k IH] using Pos.peano_ind.
  - cbn. lia.
  - rewrite Pos.iter_succ, Pos2Z.inj_succ, Z.pow_succ_r by lia.
    rewrite Pos2Z.inj_xO, IH. lia.
Qed.

(** A positive integer below 2^53 converts exactly: its digits are
    shifted up to 53 bits. *)
Lemma of_Z_normal (p : positive) :
  let d := Z.pos (digits2_pos p) in
  d <= 53 ->
  exists m : positive,
    JS.of_Z (Z.pos p) = S754_finite false m (d - 53) /\
    Z.pos m = Z.pos p * 2 ^ (53 - d).
Proof.
  intros d Hd. pose proof (digits2_pos_bounds p) as [Blo Bhi].
  fold d in Blo, Bhi.
  unfold JS.of_Z, binary_normalize, binary_round, JS.prec, JS.emax.
  fold d. rewrite fexp_normal by lia. unfold shl_align.
  destruct (d + 0 - 53 - 0) as [|k|k] eqn:Ek; [|lia|].
  - assert (d = 53) as Hd53 by lia.
    destruct (binary_round_aux_normal false p 0 loc_Exact)
      as (m' & e' & -> & _ & _ & Hex); [fold d; lia | fold d; lia |].
    destruct (Hex Hd53 eq_refl) as [-> ->]. cbn [Z.leb Z.compare].
    exists p. rewrite Hd53. split; [done | cbn; lia].
  - assert (Z.pos k = 53 - d) as Hk by lia.
    pose proof (pos_iter_xO p k) as Hmz. rewrite Hk in Hmz.
    set (mz := Pos.iter xO p k) in *.
    assert (2 ^ 53 = 2 ^ d * 2 ^ (53 - d)) as E53
      by (rewrite <- Z.pow_add_r by lia; f_equal; lia).
    assert (2 ^ 52 = 2 ^ (d - 1) * 2 ^ (53 - d)) as E52
      by (rewrite <- Z.pow_add_r by lia; f_equal; lia).
    assert (0 < 2 ^ (53 - d)) by (apply Z.pow_pos_nonneg; lia).
    assert (Z.pos (digits2_pos mz) = 53) as Hdz.
    { apply digits2_pos_unique. change (53 - 1) with 52.
      rewrite Hmz, E52, E53. nia. }
    destruct (binary_round_aux_normal false mz (d + 0 - 53) loc_Exact)
      as (m' & e' & -> & _ & _ & Hex); [lia | lia |].
    destruct (Hex Hdz eq_refl) as [-> ->].
    replace (d + 0 - 53 <=? 971) with true by (symmetry; apply Z.leb_le; lia).
    exists mz. split; [f_equal; lia | done].
Qed.

(** A positive integer converts to a positive number or to [Infinity]. *)
Lemma of_Z_positive (p : positive) :
  (exists m e, JS.of_Z (Z.pos p) = S754_finite false m e) \/
  JS.of_Z (Z.pos p) = S754_infinity false.
Proof.
  destruct (Z.leb_spec (Z.pos (digits2_pos p)) 53) as [Hd|Hd].
  - destruct (of_Z_normal p Hd) as (m & -> & _). left. by eexists _, _.
  - unfold JS.of_Z, binary_normalize, binary_round, JS.prec, JS.emax.
    unfold shl_align, fexp, emin.
    destruct (Z.max (Z.pos (digits2_pos p) + 0 - 53) (3 - 1024 - 53) - 0)
      as [|k|k] eqn:Ek; [lia| |lia].
    destruct (binary_round_aux_normal false p 0 loc_Exact)
      as (m' & e' & -> & _); [lia | lia |].
    destruct (e' <=? 971); [left; by eexists _, _ | by right].
Qed.

Lemma div_eucl_spec (a b : Z) :
  0 < b ->
  exists q r, IntDef.Z.div_eucl a b = (q, r) /\ a = b * q + r /\ 0 <= r < b.
Proof.
  intros Hb. pose proof (Z_div_mod a b ltac:(lia)) as H.
  change (Z.div_eucl a b) with (IntDef.Z.div_eucl a b) in H.
  destruct (IntDef.Z.div_eucl a b) as [q r]. by exists q, r.
Qed.

Lemma new_location_exact (n : Z) : new_location n 0 = loc_Exact.
Proof. unfold new_location. by destruct (Z.even n). Qed.

(** A normal number divided by itself is 1. *)
Lemma div_self (m : positive) (e : Z) :
  2 ^ 52 <= Z.pos m < 2 ^ 53 ->
  JS.div (S754_finite false m e) (S754_finite false m e) = JS.one.
Proof.
  intros Hm.
  assert (Z.pos (digits2_pos m) = 53) as Hd
    by (apply digits2_pos_unique; lia).
  unfold JS.div, SFdiv, SFdiv_core_binary, JS.prec, JS.emax.
  cbn [Zdigits2 xorb]. rewrite Hd.
  rewrite fexp_normal by lia. rewrite Z.min_l by lia.
  replace (e - e - (53 + e - (53 + e) - 53)) with 53 by lia.
  replace (53 + e - (53 + e) - 53) with (-53) by lia.
  cbv beta iota.
  rewrite Z.shiftl_mul_pow2 by lia.
  destruct (div_eucl_spec (Z.pos m * 2 ^ 53) (Z.pos m))
    as (q & r & -> & Hq & Hr); [lia|].
  assert (q = 2 ^ 53) as -> by nia. assert (r = 0) as -> by nia.
  rewrite new_location_exact. vm_compute. reflexivity.
Qed.

(** The quotient of two normal numbers [x <= y] between 1 and 2^53 is at
    most 1. *)
Lemma div_le_one (mx my : positive) (ex ey : Z) :
  2 ^ 52 <= Z.pos mx < 2 ^ 53 -> 2 ^ 52 <= Z.pos my < 2 ^ 53 ->
  -52 <= ex <= 0 -> -52 <= ey <= 0 ->
  ex < ey \/ (ex = ey /\ Z.pos mx <= Z.pos my) ->
  exists (m : positive) (e : Z),
    JS.div (S754_finite false mx ex) (S754_finite false my ey)
    = S754_finite false m e /\
    2 ^ 52 <= Z.pos m < 2 ^ 53 /\ -105 <= e /\
    (e < -52 \/ (e = -52 /\ Z.pos m = 2 ^ 52)).
Proof.
  intros Hmx Hmy Hex Hey Hle.
  destruct (decide (ex = ey /\ mx = my)) as [[-> ->]|Hne].
  { rewrite div_self by done. exists 4503599627370496%positive, (-52).
    split; [done|]. split; [done|]. split; [lia|]. right. done. }
  assert (Z.pos (digits2_pos mx) = 53) as Hdx
    by (apply digits2_pos_unique; lia).
  assert (Z.pos (digits2_pos my) = 53) as Hdy
    by (apply digits2_pos_unique; lia).
  unfold JS.div, SFdiv, SFdiv_core_binary, JS.prec, JS.emax.
  cbn [Zdigits2 xorb]. rewrite Hdx, Hdy.
  rewrite fexp_normal by lia. rewrite Z.min_l by lia.
  replace (ex - ey - (53 + ex - (53 + ey) - 53)) with 53 by lia.
  replace (53 + ex - (53 + ey) - 53) with (ex - ey - 53) by lia.
  cbv beta iota.
  rewrite Z.shiftl_mul_pow2 by lia.
  destruct (div_eucl_spec (Z.pos mx * 2 ^ 53) (Z.pos my))
    as (q & r & -> & Hq & Hr); [lia|].
  assert (2 ^ 52 <= q < 2 ^ 54) as Hqb by nia.
  destruct q as [|pq|pq]; [lia| |lia].
  pose proof (digits2_pos_bounds pq) as [Blo Bhi].
  set (d := Z.pos (digits2_pos pq)) in *.
  assert (53 <= d <= 54) as Hd.
  { split.
    - destruct (Z.ltb_spec d 53); [|done].
      assert (2 ^ d <= 2 ^ 52) by (apply Z.pow_le_mono_r; lia). lia.
    - destruct (Z.ltb_spec 54 d); [|done].
      assert (2 ^ 54 <= 2 ^ (d - 1)) by (apply Z.pow_le_mono_r; lia). lia. }
  destruct (binary_round_aux_normal false pq (ex - ey - 53)
              (new_location (Z.pos my) r))
    as (m' & e' & -> & Hm' & Hcases & _); [fold d; lia | fold d; lia |].
  fold d in Hcases.
  assert (ex = ey -> d = 53) as Hsame.
  { intros ->.
    assert (Z.pos mx < Z.pos my)
      by (destruct Hle; [lia|];
          assert (Z.pos mx <> Z.pos my) by (intros [=]; tauto); lia).
    assert (Z.pos pq < 2 ^ 53) by nia.
    destruct (Z.ltb_spec 53 d); [|lia].
    assert (2 ^ 53 <= 2 ^ (d - 1)) by (apply Z.pow_le_mono_r; lia). lia. }
  assert (e' <= 971) as He' by lia.
  apply Z.leb_le in He'. rewrite He'.
  exists m', e'. split; [done|]. split; [done|]. split; [lia|].
  destruct (decide (ex = ey)) as [Heq|Hneq].
  - specialize (Hsame Heq). lia.
  - lia.
Qed.

(** A number that is at most 1 times 100 is at most 100. *)
Lemma mul_hundred_le (m : positive) (e : Z) :
  2 ^ 52 <= Z.pos m < 2 ^ 53 -> -105 <= e ->
  e < -52 \/ (e = -52 /\ Z.pos m = 2 ^ 52) ->
  exists (m' : positive) (e' : Z),
    JS.mul (S754_finite false m e) JS.hundred = S754_finite false m' e' /\
    2 ^ 52 <= Z.pos m' < 2 ^ 53 /\ -99 <= e' /\
    (e' < -46 \/ (e' = -46 /\ Z.pos m' <= 100 * 2 ^ 46)).
Proof.
  intros Hm He [Hlt|[-> Hone]].
  2:{ assert (m = 4503599627370496%positive) as -> by lia.
      exists 7036874417766400%positive, (-46).
      split; [vm_compute; reflexivity|]. split; [done|]. split; [lia|].
      right. done. }
  unfold JS.mul, SFmul, JS.hundred, JS.prec, JS.emax. cbn [xorb].
  set (P := (m * 7036874417766400)%positive).
  assert (Z.pos P = Z.pos m * (100 * 2 ^ 46)) as HP by (subst P; lia).
  assert (2 ^ 104 <= Z.pos P < 2 ^ 106) as HPb by lia.
  pose proof (digits2_pos_bounds P) as [Blo Bhi].
  set (d := Z.pos (digits2_pos P)) in *.
  assert (105 <= d <= 106) as Hd.
  { split.
    - destruct (Z.ltb_spec d 105); [|done].
      assert (2 ^ d <= 2 ^ 104) by (apply Z.pow_le_mono_r; lia). lia.
    - destruct (Z.ltb_spec 106 d); [|done].
      assert (2 ^ 106 <= 2 ^ (d - 1)) by (apply Z.pow_le_mono_r; lia). lia. }
  destruct (binary_round_aux_normal false P (e + -46) loc_Exact)
    as (m' & e' & -> & Hm' & Hcases & _); [fold d; lia | fold d; lia |].
  fold d in Hcases.
  assert (d = 106 -> Z.pos P / 2 ^ (d - 53) < 100 * 2 ^ 46) as Hhi.
  { intros ->. change (106 - 53) with 53.
    apply Z.div_lt_upper_bound; [lia|]. lia. }
  assert (e' <= 971) as He' by lia.
  apply Z.leb_le in He'. rewrite He'.
  exists m', e'. split; [done|]. split; [done|]. split; [lia|].
  destruct (decide (d = 106)) as [Hd6|Hd5].
  - specialize (Hhi Hd6). lia.
  - lia.
Qed.

(** A positive number that is at most 100 rounds to an integer from 0 to
    100. *)
Lemma Math_round_percent (m : positive) (e : Z) :
  2 ^ 52 <= Z.pos m < 2 ^ 53 -> -99 <= e ->
  e < -46 \/ (e = -46 /\ Z.pos m <= 100 * 2 ^ 46) ->
  exists n : Z,
    0 <= n <= 100 /\ JS.Math_round (S754_finite false m e) = JS.of_Z n.
Proof.
  intros Hm He Hle. unfold JS.Math_round.
  destruct (Z.leb_spec 0 e) as [|_]; [lia|].
  exists ((2 * Z.pos m + 2 ^ (- e)) / 2 ^ (1 - e)). split; [|done].
  assert (2 ^ (1 - e) = 2 * 2 ^ (- e)) as E
    by (rewrite <- Z.pow_succ_r by lia; f_equal; lia).
  assert (2 ^ 46 <= 2 ^ (- e)) by (apply Z.pow_le_mono_r; lia).
  split.
  - apply Z.div_pos; lia.
  - apply Z.lt_succ_r. apply Z.div_lt_upper_bound; [lia|]. rewrite E.
    destruct Hle as [Hlt|[-> Hmh]].
    + assert (2 ^ 47 <= 2 ^ (- e)) by (apply Z.pow_le_mono_r; lia). lia.
    + change (- -46) with 46. lia.
Qed.

Lemma percent_in_range (n : Z) :
  0 <= n <= 100 ->
  JS.le JS.zero (JS.of_Z n) = true /\ JS.le (JS.of_Z n) JS.hundred = true.
Proof.
  intros Hn.
  assert (forallb (fun k => JS.le JS.zero (JS.of_Z (Z.of_nat k))
                            && JS.le (JS.of_Z (Z.of_nat k)) JS.hundred)
            (seq 0 101) = true) as Hall by (vm_compute; reflexivity).
  rewrite forallb_forall in Hall.
  specialize (Hall (Z.to_nat n)). rewrite Z2Nat.id in Hall by lia.
  apply andb_prop. apply Hall. apply in_seq. lia.
Qed.

Lemma digits2_pos_le (p q : positive) :
  (p <= q)%positive -> Z.pos (digits2_pos p) <= Z.pos (digits2_pos q).
Proof.
  intros Hpq. pose proof (digits2_pos_bounds p) as [Plo Phi].
  pose proof (digits2_pos_bounds q) as [Qlo Qhi].
  destruct (Z.leb_spec (Z.pos (digits2_pos p)) (Z.pos (digits2_pos q)));
    [done|].
  assert (2 ^ Z.pos (digits2_pos q) <= 2 ^ (Z.pos (digits2_pos p) - 1))
    by (apply Z.pow_le_mono_r; lia). lia.
Qed.

Lemma digits2_pos_small (p : positive) :
  Z.pos p < 2 ^ 53 -> Z.pos (digits2_pos p) <= 53.
Proof.
  intros Hp. pose proof (digits2_pos_bounds p) as [Plo Phi].
  destruct (Z.leb_spec (Z.pos (digits2_pos p)) 53); [done|].
  assert (2 ^ 53 <= 2 ^ (Z.pos (digits2_pos p) - 1))
    by (apply Z.pow_le_mono_r; lia). lia.
Qed.

(** [Math.round((responded / total) * 100)] is an integer from 0 to 100
    when [responded <= total]. *)
Lemma percentage_integer (responded total : nat) :
  (responded <= total)%nat -> (1 <= total)%nat ->
  Z.of_nat total < 2 ^ 53 ->
  exists n : Z, 0 <= n <= 100 /\ percentage responded total = JS.of_Z n.
Proof.
  intros Hle Hpos Hbig. unfold percentage, JS.of_nat.
  destruct (Z.of_nat responded) as [|r|r] eqn:Er; [| |lia].
  { exists 0. split; [lia|].
    destruct (Z.of_nat total) as [|q|q] eqn:Eq; [lia| |lia].
    destruct (of_Z_normal q) as (mq & -> & _); [apply digits2_pos_small; lia|].
    reflexivity. }
  destruct (Z.of_nat total) as [|q|q] eqn:Eq; [lia| |lia].
  assert (r <= q)%positive as Hrq by lia.
  pose proof (digits2_pos_le r q Hrq) as Hdig.
  pose proof (digits2_pos_bounds r) as [Rlo Rhi].
  pose proof (digits2_pos_bounds q) as [Qlo Qhi].
  pose proof (digits2_pos_small q Hbig) as Hdq.
  destruct (of_Z_normal r) as (mr & -> & Hmr); [lia|].
  destruct (of_Z_normal q) as (mq & -> & Hmq); [lia|].
  set (dr := Z.pos (digits2_pos r)) in *.
  set (dq := Z.pos (digits2_pos q)) in *.
  assert (0 < dr) by (subst dr; lia). assert (0 < dq) by (subst dq; lia).
  assert (2 ^ 53 = 2 ^ dr * 2 ^ (53 - dr)) as Er53
    by (rewrite <- Z.pow_add_r by lia; f_equal; lia).
  assert (2 ^ 52 = 2 ^ (dr - 1) * 2 ^ (53 - dr)) as Er52
    by (rewrite <- Z.pow_add_r by lia; f_equal; lia).
  assert (2 ^ 53 = 2 ^ dq * 2 ^ (53 - dq)) as Eq53
    by (rewrite <- Z.pow_add_r by lia; f_equal; lia).
  assert (2 ^ 52 = 2 ^ (dq - 1) * 2 ^ (53 - dq)) as Eq52
    by (rewrite <- Z.pow_add_r by lia; f_equal; lia).
  assert (0 < 2 ^ (53 - dr)) by (apply Z.pow_pos_nonneg; lia).
  assert (0 < 2 ^ (53 - dq)) by (apply Z.pow_pos_nonneg; lia).
  destruct (div_le_one mr mq (dr - 53) (dq - 53))
    as (m1 & e1 & -> & Hm1 & He1 & Hc1).
  { rewrite Hmr, Er52, Er53. nia. }
  { rewrite Hmq, Eq52, Eq53. nia. }
  { lia. }
  { lia. }
  { destruct (decide (dr = dq)) as [Hd|Hd]; [right|left; lia].
    split; [lia|]. rewrite Hmr, Hmq, Hd. nia. }
  destruct (mul_hundred_le m1 e1 Hm1 He1 Hc1)
    as (m2 & e2 & -> & Hm2 & He2 & Hc2).
  exact (Math_round_percent m2 e2 Hm2 He2 Hc2).
Qed.

(** ** The brace-delimited span *)

Lemma append_nil (s : string) : (EmptyString ++ s)%string = s.
Proof. reflexivity. Qed.

Lemma append_cons (c : ascii) (a b : string) :
  (String c a ++ b)%string = String c (a ++ b).
Proof. reflexivity. Qed.

Lemma append_assoc (a b c : string) :
  ((a ++ b) ++ c)%string = (a ++ (b ++ c))%string.
Proof.
  induction a as [|x a IH]; [done|]. by rewrite !append_cons, IH.
Qed.

(** Unfolds appends whose left operand starts with a known character. *)
Ltac string_simpl := rewrite ?append_cons, ?append_nil; cbn.

Lemma through_last_close_lacks (s : string) :
  lacks "}" s = true -> through_last_close s = None.
Proof.
  induction s as [|c r IH]; cbn; [done|].
  intros [Hc Hr]%andb_prop. rewrite (IH Hr).
  destruct (Ascii.eqb c "}"); [discriminate | done].
Qed.

Lemma through_last_close_app (body post : string) :
  lacks "}" post = true ->
  through_last_close (body ++ String "}" post)
  = Some (body ++ String "}" EmptyString)%string.
Proof.
  intros Hpost. induction body as [|c b IH]; string_simpl.
  - by rewrite (through_last_close_lacks post Hpost).
  - by rewrite IH.
Qed.

Lemma through_last_close_Some (s m : string) :
  through_last_close s = Some m ->
  exists mid post : string, s = (mid ++ String "}" post)%string.
Proof.
  revert m. induction s as [|c r IH]; cbn; [done|]. intros m.
  destruct (through_last_close r) as [m'|] eqn:E.
  - intros _. destruct (IH m' eq_refl) as (mid & post & ->).
    by exists (String c mid), post.
  - destruct (Ascii.eqb_spec c "}") as [->|]; [|done].
    intros _. by exists EmptyString, r.
Qed.

Lemma through_last_close_None (s mid post : string) :
  through_last_close s = None -> s <> (mid ++ String "}" post)%string.
Proof.
  revert mid. induction s as [|c r IH]; intros mid; cbn.
  - by destruct mid.
  - destruct (through_last_close r) eqn:E; [done|].
    destruct (Ascii.eqb_spec c "}"); [done|]. intros _.
    destruct mid as [|d mid]; string_simpl; intros [= ? ?]; subst; [done|].
    by eapply IH.
Qed.

Lemma regex_match_span (pre body post : string) :
  lacks "{" pre = true -> lacks "}" post = true ->
  regex_match (pre ++ String "{" (body ++ String "}" post))
  = Some (String "{" (body ++ String "}" EmptyString)).
Proof.
  intros Hpre Hpost. induction pre as [|c p IH]; string_simpl.
  - by rewrite through_last_close_app.
  - cbn in Hpre. apply andb_prop in Hpre as [Hc Hp].
    destruct (Ascii.eqb c "{"); [discriminate|]. by apply IH.
Qed.

Lemma regex_match_None_iff (s : string) :
  regex_match s = None <-> ~ has_span s.
Proof.
  split.
  - intros Hnone (pre & mid & post & ->). revert Hnone.
    induction pre as [|c p IH]; string_simpl.
    + destruct (through_last_close _) eqn:E; [done|].
      by apply through_last_close_None with (mid := mid) (post := post) in E.
    + destruct (Ascii.eqb c "{"); [|done].
      by destruct (through_last_close _).
  - induction s as [|c r IH]; cbn; [done|]. intros Hspan.
    destruct (Ascii.eqb_spec c "{") as [->|Hc].
    + destruct (through_last_close r) as [m|] eqn:E.
      * destruct (through_last_close_Some _ _ E) as (mid & post & ->).
        destruct Hspan. by exists EmptyString, mid, post.
      * apply IH. intros (pre & mid & post & ->).
        apply Hspan. by exists (String "{" pre), mid, post.
    + apply IH. intros (pre & mid & post & ->).
      apply Hspan. by exists (String c pre), mid, post.
Qed.

(** The match is the widest span: with two objects in the text it runs
    from the first opening brace to the last closing brace. *)
Example regex_match_two_objects :
  regex_match "first {a} then {b} done" = Some "{a} then {b}".
Proof. reflexivity. Qed.

(** ** Theorems *)

(** C5: the grade bins are closed below and open above, and a score on a
    threshold gets the higher grade: 4.2 is excellent, 4.1999 and 3.4 are
    good, 2.6 is average and 2.5999 is poor. *)
Theorem convertToGrade_boundaries :
  (forall x : JS.number,
     JS.isNaN x = false ->
     (level (convertToGrade x) = excellent
      <-> JS.ge x gradeThresholds.excellent = true) /\
     (level (convertToGrade x) = good
      <-> JS.ge x gradeThresholds.good = true /\
          JS.lt x gradeThresholds.excellent = true) /\
     (level (convertToGrade x) = average
      <-> JS.ge x gradeThresholds.average = true /\
          JS.lt x gradeThresholds.good = true) /\
     (level (convertToGrade x) = poor
      <-> JS.lt x gradeThresholds.average = true)) /\
  level (convertToGrade JS.lit_4_2) = excellent /\
  level (convertToGrade JS.lit_4_1999) = good /\
  level (convertToGrade JS.lit_3_4) = good /\
  level (convertToGrade JS.lit_2_6) = average /\
  level (convertToGrade JS.lit_2_5999) = poor.
Proof.
  split; [|vm_compute; repeat split; reflexivity].
  intros x Hx. unfold convertToGrade, JS.ge, JS.lt.
  rewrite !(SFltb_negb_SFleb x) by done.
  pose proof (SFleb_trans gradeThresholds.good gradeThresholds.excellent x
                eq_refl) as H21.
  pose proof (SFleb_trans gradeThresholds.average gradeThresholds.good x
                eq_refl) as H32.
  destruct (SFleb gradeThresholds.excellent x) eqn:B1;
    [rewrite (H21 eq_refl), (H32 (H21 eq_refl)) | clear H21];
    [cbn; intuition congruence|].
  destruct (SFleb gradeThresholds.good x) eqn:B2;
    [rewrite (H32 eq_refl) | clear H32]; [cbn; intuition congruence|].
  destruct (SFleb gradeThresholds.average x) eqn:B3;
    cbn; intuition congruence.
Qed.

Lemma convertToGrade_boundaries_witness :
  level (convertToGrade JS.lit_3_4) = good
  <-> JS.ge JS.lit_3_4 gradeThresholds.good = true /\
      JS.lt JS.lit_3_4 gradeThresholds.excellent = true.
Proof.
  exact (proj1 (proj2 (proj1 convertToGrade_boundaries JS.lit_3_4 eq_refl))).
Defined.

(** C6: [convertToGrade] returns a grade for every number, and on finite
    numbers it is monotone: a larger score never gets a lower grade in
    the order poor < average < good < excellent. *)
Theorem convertToGrade_total_monotone (x y : JS.number) :
  JS.isFinite x = true -> JS.isFinite y = true -> JS.le x y = true ->
  exists gx gy : GradeLevel,
    convertToGrade x = gradeInfoMap gx /\
    convertToGrade y = gradeInfoMap gy /\
    grade_le gx gy.
Proof.
  intros _ _ Hxy. unfold convertToGrade, JS.ge, JS.le in *.
  pose proof (fun t => SFleb_trans t x y) as Htr.
  destruct (SFleb gradeThresholds.excellent x) eqn:X1.
  { rewrite (Htr _ X1 Hxy). exists excellent, excellent.
    repeat split; unfold grade_le; cbn; lia. }
  destruct (SFleb gradeThresholds.good x) eqn:X2.
  { rewrite (Htr _ X2 Hxy).
    destruct (SFleb gradeThresholds.excellent y);
      eexists _, _; repeat split; unfold grade_le; cbn; lia. }
  destruct (SFleb gradeThresholds.average x) eqn:X3.
  { rewrite (Htr _ X3 Hxy).
    destruct (SFleb gradeThresholds.excellent y),
      (SFleb gradeThresholds.good y);
      eexists _, _; repeat split; unfold grade_le; cbn; lia. }
  destruct (SFleb gradeThresholds.excellent y),
    (SFleb gradeThresholds.good y), (SFleb gradeThresholds.average y);
    eexists _, _; repeat split; unfold grade_le; cbn; lia.
Qed.

Lemma convertToGrade_total_monotone_witness :
  exists gx gy : GradeLevel,
    convertToGrade JS.lit_2_6 = gradeInfoMap gx /\
    convertToGrade JS.lit_4_2 = gradeInfoMap gy /\
    grade_le gx gy.
Proof.
  apply (convertToGrade_total_monotone JS.lit_2_6 JS.lit_4_2);
    vm_compute; reflexivity.
Defined.

(** C8: a text without an opening brace followed by a closing brace makes
    the parser throw its extraction error; no payload is returned and
    [JSON.parse] is not consulted. *)
Theorem parseStructuredOutput_without_span
    (JSON_parse : string -> throws json) (raw : string) :
  ~ has_span raw ->
  parseStructuredOutput JSON_parse raw = throw extraction_failure.
Proof.
  intros Hspan. unfold parseStructuredOutput.
  by rewrite (proj2 (regex_match_None_iff raw) Hspan).
Qed.

Lemma parseStructuredOutput_without_span_witness :
  parseStructuredOutput RefJSON.parse "no braces here"
  = throw extraction_failure.
Proof.
  apply (parseStructuredOutput_without_span RefJSON.parse "no braces here").
  apply regex_match_None_iff. vm_compute. reflexivity.
Defined.

(** C7: when the model output is a preamble, the serialization of an
    object payload [P] and a trailer, with no brace in the preamble or the
    trailer, the match is the span from the first opening brace to the
    last closing brace, that span is the serialization of [P], and the
    parser returns [P]. *)
Theorem parseStructuredOutput_round_trip
    (JSON_parse : string -> throws json) (JSON_stringify : json -> string)
    (P : json) (preamble body trailing : string) :
  JSON_stringify P = String "{" (body ++ String "}" EmptyString) ->
  JSON_parse (JSON_stringify P) = ret P ->
  brace_free preamble = true -> brace_free trailing = true ->
  regex_match (preamble ++ JSON_stringify P ++ trailing)
  = Some (JSON_stringify P) /\
  parseStructuredOutput JSON_parse (preamble ++ JSON_stringify P ++ trailing)
  = ret P.
Proof.
  intros Hobj Hrt [Hpre _]%andb_prop [_ Hpost]%andb_prop.
  assert (regex_match (preamble ++ JSON_stringify P ++ trailing)
          = Some (JSON_stringify P)) as Hm.
  { rewrite Hobj, append_cons, append_assoc, append_cons, append_nil.
    by apply regex_match_span. }
  split; [done|]. unfold parseStructuredOutput. by rewrite Hm.
Qed.

Lemma parseStructuredOutput_round_trip_witness :
  regex_match ("Here is the report: " ++ example_stringify example_payload
               ++ " I hope this helps.")
  = Some (example_stringify example_payload) /\
  parseStructuredOutput RefJSON.parse
    ("Here is the report: " ++ example_stringify example_payload
     ++ " I hope this helps.")
  = ret example_payload.
Proof.
  apply (parseStructuredOutput_round_trip RefJSON.parse example_stringify
           example_payload "Here is the report: "
           (let s := example_stringify example_payload in
            substring 1 (String.length s - 2) s)
           " I hope this helps.");
    vm_compute; reflexivity.
Defined.

(** What a stored survey answer looks like to the analysis: it has
    neither a [text_response] nor a [rating_response] field. *)
Lemma stored_response_fields (questions : list Question.t)
    (answers : gmap string string) (surveyLink : SurveyLink.t)
    (sessionId : string) (r : gmap string value) :
  r ∈ handleSubmit questions answers surveyLink sessionId ->
  field r "text_response" = Undefined /\
  field r "rating_response" = Undefined /\
  exists v, r !! "response_value" = Some (Str v) /\ truthy_string v = true.
Proof.
  unfold handleSubmit. case_bool_decide; [|by intros ?%elem_of_nil].
  unfold createResponses, responsesToInsert.
  intros (d & -> & (q & -> & Hq)%list_elem_of_fmap)%list_elem_of_fmap.
  apply list_elem_of_filter in Hq as [Hq _]. unfold answered in Hq.
  unfold field. split; [done|]. split; [done|].
  destruct (answers !! Question.id q) as [v|] eqn:E; [|done].
  exists v. by simplify_map_eq.
Qed.

(** C2: on the documents the survey stores, the analysis classifies no
    response as a text response and every response as a rating response,
    whatever the type of its question. *)
Theorem survey_responses_classification
    (submissions :
       list (list Question.t * gmap string string * SurveyLink.t * string)) :
  let stored :=
    mjoin ((fun '(questions, answers, surveyLink, sessionId) =>
              handleSubmit questions answers surveyLink sessionId)
           <$> submissions) in
  textResponses stored = [] /\
  ratingResponses stored = (fun _ => Undefined) <$> stored /\
  length (ratingResponses stored) = length stored.
Proof.
  intros stored.
  assert (Forall (fun r => field r "text_response" = Undefined /\
                           field r "rating_response" = Undefined) stored)
    as Hall.
  { subst stored. induction submissions as [|[[[qs ans] link] sid] rest IH];
      cbn; [constructor|].
    apply Forall_app. split; [|done].
    apply Forall_forall. intros r Hr.
    destruct (stored_response_fields _ _ _ _ _ Hr) as (? & ? & _). done. }
  clearbody stored. unfold textResponses, ratingResponses.
  induction Hall as [|r rs [Ht Hr] _ (IH1 & IH2 & IH3)]; [done|].
  rewrite !filter_cons, Ht, Hr. cbn.
  rewrite decide_False by done. rewrite decide_True by done.
  cbn. rewrite Hr. rewrite IH1, IH2. repeat split; try done.
  cbn. by rewrite !length_fmap.
Qed.

(** X22: no error leaves a callable with the code [not-found]: what is
    thrown inside the [try] block is caught and thrown again as
    [internal]. *)
Lemma callables_never_surface_not_found
    (JSON_parse : string -> throws json) (db : Firestore)
    (data : gmap string value) (now : string) (generated : throws string)
    (e : JsError) :
  analyzeResponses JSON_parse db data generated = throw e \/
  generateReport JSON_parse db data now generated = throw e ->
  code e = Some invalid_argument \/ code e = Some internal.
Proof.
  unfold analyzeResponses, generateReport, try_catch_rethrow, throw.
  destruct (truthy (field data "projectId")).
  - intros [H|H];
      match type of H with
      | match ?b with _ => _ end = _ => destruct b; inversion H; by right
      end.
  - intros [[= <-]|[= <-]]; by left.
Qed.

(** X23: a request without a project identifier is refused with
    [invalid-argument] by both callables. *)
Lemma callables_require_projectId
    (JSON_parse : string -> throws json) (db : Firestore)
    (data : gmap string value) (now : string) (generated : throws string) :
  truthy (field data "projectId") = false ->
  analyzeResponses JSON_parse db data generated
  = throw (HttpsError invalid_argument "프로젝트 ID가 필요합니다.") /\
  generateReport JSON_parse db data now generated
  = throw (HttpsError invalid_argument "프로젝트 ID가 필요합니다.").
Proof.
  intros H. unfold analyzeResponses, generateReport. by rewrite H.
Qed.

(** C9: at a project that does not exist, and at a project without
    responses, the callables throw [internal], not [not-found]; the
    message of the original error is embedded in the new one. *)
Theorem not_found_is_rethrown_as_internal :
  analyzeResponses RefJSON.parse example_db {[ "projectId" := Str "p9" ]}
    (ret "{}")
  = throw (HttpsError internal
             "분석 중 오류가 발생했습니다: Error: 프로젝트를 찾을 수 없습니다.") /\
  analyzeResponses RefJSON.parse example_db {[ "projectId" := Str "p2" ]}
    (ret "{}")
  = throw (HttpsError internal
             "분석 중 오류가 발생했습니다: Error: 분석할 응답이 없습니다.") /\
  generateReport RefJSON.parse example_db {[ "projectId" := Str "p9" ]}
    "2026-11-03T00:00:00.000Z" (ret "{}")
  = throw (HttpsError internal
             "보고서 생성 중 오류가 발생했습니다: Error: 프로젝트를 찾을 수 없습니다.").
Proof. vm_compute. repeat split; reflexivity. Qed.

(** C1, as stated, fails: the project and its responses are there, the
    model answers without a JSON object, and the function throws; the
    report view shows the error and no report. *)
Lemma malformed_output_yields_no_report :
  generateReport RefJSON.parse example_db {[ "projectId" := Str "p1" ]}
    "2026-11-03T00:00:00.000Z" (ret "no braces here")
  = throw (HttpsError internal
             "보고서 생성 중 오류가 발생했습니다: Error: AI 응답에서 JSON을 추출할 수 없습니다.") /\
  ReportGenerator.report
    (reportPipeline RefJSON.parse report_encodable example_db
       {[ "projectId" := Str "p1" ]}
       (ret "no braces here") (Some "한빛초등학교")
       "2026-11-03T00:00:00.000Z" 2026 ReportGenerator.initial)
  = None.
Proof. vm_compute. split; reflexivity. Qed.

Lemma append_not_empty (a : string) (c : ascii) (b : string) :
  (a ++ String c b)%string <> EmptyString.
Proof. by destruct a. Qed.

(** The [catch] block of the report view: the error is recorded, and the
    report is replaced by the placeholder only for the three codes. *)
Lemma onRejected_report (schoolItem : option string) (now : string)
    (err : JsError) (st : ReportGenerator.State) :
  truthy_string (message err) = true ->
  let st' := ReportGenerator.onRejected schoolItem now err st in
  ReportGenerator.error st' = Some (message err) /\
  if ReportGenerator.functionsUnavailable (message err)
  then exists r t,
         ReportGenerator.report st' = Some r /\
         length (ReportGenerator.report_sections r) = 6%nat /\
         ReportGenerator.report_title r = JStr t /\ t <> EmptyString
  else ReportGenerator.report st' = ReportGenerator.report st.
Proof.
  intros Hmsg. unfold ReportGenerator.onRejected. rewrite Hmsg.
  destruct (ReportGenerator.functionsUnavailable (message err)); cbn.
  - split; [done|]. eexists _, _. repeat split. apply append_not_empty.
  - done.
Qed.

(** C1, amended: once the project and the school have been read, a
    failure of the generative service, a text without a JSON object and a
    span that does not parse all make [generateReport] throw [internal].
    The report view, whatever it held before the request, then holds the
    six-section placeholder with a non-empty title exactly when the
    surfaced message names [not-found], [permission-denied] or
    [unauthenticated]; otherwise it records the error and keeps the
    report it held before the request, so that a view without a report
    still has none. *)
Theorem report_failure_handling
    (JSON_parse : string -> throws json)
    (encodes : Functions.ReportResponse -> bool) (db : Firestore)
    (data : gmap string value) (now : string) (generated : throws string)
    (schoolItem : option string) (thisYear : Z)
    (prior : ReportGenerator.State)
    (p : string) (project : gmap string value) (err : JsError) :
  field data "projectId" = Str p -> truthy_string p = true ->
  projects db !! p = Some project ->
  (exists school,
     getDoc (schools db) (field project "school_id") = ret school) ->
  (generated = throw err \/
   exists text, generated = ret text /\
                parseStructuredOutput JSON_parse text = throw err) ->
  let surfaced :=
    HttpsError internal
      ("보고서 생성 중 오류가 발생했습니다: " ++ toString err) in
  let st :=
    reportPipeline JSON_parse encodes db data generated schoolItem now
      thisYear prior in
  generateReport JSON_parse db data now generated = throw surfaced /\
  ReportGenerator.error st = Some (message surfaced) /\
  ReportGenerator.loading st = false /\
  if ReportGenerator.functionsUnavailable (message surfaced)
  then exists r t,
         ReportGenerator.report st = Some r /\
         length (ReportGenerator.report_sections r) = 6%nat /\
         ReportGenerator.report_title r = JStr t /\ t <> EmptyString
  else ReportGenerator.report st = ReportGenerator.report prior /\
       ReportGenerator.toasts st
       = ReportGenerator.toasts prior
         ++ [ReportGenerator.toast_error (message surfaced)] /\
       (ReportGenerator.report prior = None ->
        ReportGenerator.report st = None).
Proof.
  intros Hid Hp Hproj [school Hschool] Hfail surfaced st.
  assert (generateReport JSON_parse db data now generated = throw surfaced)
    as Hsrv.
  { unfold generateReport. rewrite Hid. cbn [truthy]. rewrite Hp.
    cbn [getDoc]. rewrite Hp, Hproj. cbn. rewrite Hschool. cbn.
    destruct Hfail as [->|(text & -> & Hparse)]; cbn; [done|].
    by rewrite Hparse. }
  split; [done|]. subst st. unfold reportPipeline. rewrite Hsrv.
  pose proof (onRejected_report schoolItem now
                {| name := "FirebaseError"; message := message surfaced;
                   code := Some internal |}
                {| ReportGenerator.report := ReportGenerator.report prior;
                   ReportGenerator.error := None;
                   ReportGenerator.loading := true;
                   ReportGenerator.toasts := ReportGenerator.toasts prior |}
                eq_refl) as [Herr Hrep].
  split; [exact Herr|]. split; [reflexivity|].
  cbn [message] in Hrep.
  unfold ReportGenerator.generateReport, httpsCallable, throw, bind.
  cbn [code surfaced HttpsError message ReportGenerator.report
       ReportGenerator.toasts].
  unfold ReportGenerator.onRejected in *.
  cbn [message surfaced HttpsError] in *.
  destruct (ReportGenerator.functionsUnavailable _); cbn in *.
  - exact Hrep.
  - repeat split. intros H. exact H.
Qed.

Lemma report_failure_handling_witness :
  generateReport RefJSON.parse example_db {[ "projectId" := Str "p1" ]}
    "2026-11-03T00:00:00.000Z" (ret "no braces here")
  = throw (HttpsError internal
             ("보고서 생성 중 오류가 발생했습니다: "
              ++ toString extraction_failure)) /\
  ReportGenerator.report
    (reportPipeline RefJSON.parse report_encodable example_db
       {[ "projectId" := Str "p1" ]}
       (ret "no braces here") None "2026-11-03T00:00:00.000Z" 2026
       ReportGenerator.initial)
  = None.
Proof.
  pose proof (report_failure_handling RefJSON.parse report_encodable
                example_db
                {[ "projectId" := Str "p1" ]} "2026-11-03T00:00:00.000Z"
                (ret "no braces here") None 2026 ReportGenerator.initial
                "p1"
                {[ "school_id" := Str "s1"; "name" := Str "2025 학교평가" ]}
                extraction_failure
                eq_refl eq_refl eq_refl
                (ex_intro _ (Some {[ "school_name" := Str "한빛초등학교" ]})
                   eq_refl)
                (or_intror (ex_intro _ "no braces here"
                              (conj eq_refl eq_refl)))) as (H1 & _ & _ & H3).
  split; [exact H1 | exact (proj1 H3)].
Defined.

(** ** The statistics aggregator *)

Lemma countByType_snoc {A} (key : A -> string) (xs : list A) (x : A) :
  countByType key (xs ++ [x]) = bump (countByType key xs) (key x).
Proof. unfold countByType. by rewrite foldl_app. Qed.

(** A type is a key of the record exactly when some element has it, and
    the value stored is the number of such elements. *)
Lemma countByType_lookup {A} (key : A -> string) (xs : list A) (k : string) :
  countByType key xs !! k
  = match length (filter (fun x => key x = k) xs) with
    | O => None
    | S n => Some (S n)
    end.
Proof.
  induction xs as [|x xs IH] using rev_ind; [done|].
  rewrite countByType_snoc, filter_app, length_app. unfold bump.
  rewrite filter_cons, filter_nil.
  destruct (decide (key x = k)) as [->|Hne].
  - rewrite lookup_insert_eq, IH. cbn.
    destruct (length (filter _ xs)) as [|n]; cbn; [done|].
    by rewrite Nat.add_1_r.
  - rewrite lookup_insert_ne, IH by done. cbn. by rewrite Nat.add_0_r.
Qed.

Lemma length_filter_le {A} (P : A -> Prop) `{!forall x, Decision (P x)}
    (xs : list A) :
  (length (filter P xs) <= length xs)%nat.
Proof.
  induction xs as [|x xs IH]; [done|]. rewrite filter_cons.
  destruct (decide (P x)); cbn; lia.
Qed.

Lemma countByType_Some {A} (key : A -> string) (xs : list A) (k : string)
    (n : nat) :
  countByType key xs !! k = Some n ->
  (1 <= n <= length xs)%nat /\ exists x, x ∈ xs /\ key x = k.
Proof.
  rewrite countByType_lookup.
  pose proof (length_filter_le (fun x => key x = k) xs) as Hle.
  destruct (filter (fun x => key x = k) xs) as [|x l] eqn:E; [done|].
  cbn in *. intros [= <-]. split; [lia|].
  assert (x ∈ filter (fun x => key x = k) xs) as Hx by (rewrite E; left).
  apply list_elem_of_filter in Hx as [? ?]. by exists x.
Qed.

Lemma countByType_None {A} (key : A -> string) (xs : list A) (k : string) :
  countByType key xs !! k = None -> forall x, x ∈ xs -> key x <> k.
Proof.
  rewrite countByType_lookup. intros Hnone x Hx Hk.
  assert (x ∈ filter (fun x => key x = k) xs) as Hin
    by by apply list_elem_of_filter.
  destruct (filter (fun x => key x = k) xs); [by apply elem_of_nil in Hin|].
  done.
Qed.

(** The loop of [loadStats] adds a response exactly when its value is a
    rating. *)
Lemma ratingOf_rating_value (r : Response.t) :
  ratingOf r = Response.response_value r ≫= rating_value.
Proof.
  unfold ratingOf, rating_value, in_rating_range.
  destruct (Response.response_value r) as [[|c v]|]; cbn; [done| |done].
  by destruct (parseInt (String c v)).
Qed.

Lemma foldl_addRating (responses : list Response.t) (acc : Z * nat) :
  foldl addRating acc responses
  = (fst acc + sum (ratings responses),
     (snd acc + length (ratings responses))%nat).
Proof.
  revert acc. induction responses as [|r rs IH]; intros [a c]; cbn.
  - f_equal; lia.
  - rewrite IH. unfold addRating, ratings, sum. cbn [omap].
    rewrite ratingOf_rating_value.
    destruct (Response.response_value r ≫= rating_value) as [v|]; cbn;
      f_equal; lia.
Qed.

Lemma loadStats_averageRating (questionsCount responsesCount : nat)
    (responses : list Response.t) (questions : list Question.t) :
  averageRating (loadStats questionsCount responsesCount responses questions)
  = match ratings responses with
    | [] => JS.zero
    | rs => JS.div (JS.of_Z (sum rs)) (JS.of_nat (length rs))
    end.
Proof.
  unfold loadStats. rewrite foldl_addRating. cbn.
  by destruct (ratings responses).
Qed.

Lemma loadStats_responsesByType (questionsCount responsesCount : nat)
    (responses : list Response.t) (questions : list Question.t) :
  responsesByType
    (loadStats questionsCount responsesCount responses questions)
  = countByType Response.respondent_type responses.
Proof. unfold loadStats. by destruct (foldl addRating _ _). Qed.

Lemma loadStats_completionRate (questionsCount responsesCount : nat)
    (responses : list Response.t) (questions : list Question.t)
    (type : string) :
  completionRate
    (loadStats questionsCount responsesCount responses questions) !! type
  = match countByType Question.respondent_type questions !! type with
    | Some _ =>
        Some (percentage
                (default 0%nat
                   (countByType Response.respondent_type responses !! type))
                (or_one
                   (countByType Question.respondent_type questions !! type)))
    | None => None
    end.
Proof.
  unfold loadStats. destruct (foldl addRating _ _). cbn [completionRate].
  rewrite map_lookup_imap. by destruct (countByType _ questions !! type).
Qed.

(** The same ratings, as [calculateAverageFromResponses] selects them
    from the response values. *)
Lemma omap_cons {A B} (f : A -> option B) (x : A) (l : list A) :
  omap f (x :: l)
  = match f x with Some y => y :: omap f l | None => omap f l end.
Proof. reflexivity. Qed.

Lemma rating_value_in_range (v : string) :
  rating_value v
  = if in_rating_range (parseInt v) then parseInt v else None.
Proof. unfold rating_value, in_rating_range. by destruct (parseInt v). Qed.

Lemma ratings_numericValues (responses : list Response.t) :
  Some <$> ratings responses
  = filter (fun n => in_rating_range n = true)
      (parseInt <$> omap Response.response_value responses).
Proof.
  unfold ratings. induction responses as [|r rs IH]; [done|].
  rewrite !omap_cons.
  destruct (Response.response_value r) as [v|]; cbn [mbind option_bind];
    [|done].
  rewrite fmap_cons, filter_cons, rating_value_in_range.
  destruct (in_rating_range (parseInt v)) eqn:E.
  - rewrite decide_True by done.
    destruct (parseInt v); [|done]. by rewrite fmap_cons, IH.
  - by rewrite decide_False.
Qed.

Lemma foldl_sum_Some (l : list Z) (a : Z) :
  foldl (fun sum val => sum + default 0 val) a (Some <$> l) = a + sum l.
Proof.
  revert a. induction l as [|x l IH]; intros a; unfold sum; cbn; [lia|].
  rewrite IH. unfold sum. lia.
Qed.

Lemma sum_Permutation (l1 l2 : list Z) : l1 ≡ₚ l2 -> sum l1 = sum l2.
Proof. unfold sum. induction 1; cbn in *; lia. Qed.

Lemma length_two_filters {A} (key : A -> string) (a b : string)
    (xs : list A) :
  a <> b -> (forall x, x ∈ xs -> key x = a \/ key x = b) ->
  length xs
  = (length (filter (fun x => key x = a) xs)
     + length (filter (fun x => key x = b) xs))%nat.
Proof.
  intros Hab. induction xs as [|x xs IH]; intros Hall; [done|].
  rewrite !filter_cons. cbn [length].
  rewrite IH by (intros y Hy; apply Hall; by right).
  destruct (Hall x ltac:(by left)) as [Hx|Hx].
  - rewrite decide_True by done. rewrite decide_False by congruence.
    cbn. lia.
  - rewrite decide_False by congruence. rewrite decide_True by done.
    cbn. lia.
Qed.

(** A record with two keys counts a list that has as many elements as the
    two values together. *)
Lemma countByType_two_keys {A} (key : A -> string) (xs : list A)
    (a b : string) (na nb : nat) :
  a <> b -> countByType key xs = {[ a := na; b := nb ]} ->
  length xs = (na + nb)%nat.
Proof.
  intros Hab Hmap.
  assert (forall k, countByType key xs !! k
                    = ({[ a := na; b := nb ]} : gmap string nat) !! k)
    as Hk by (intros k; by rewrite Hmap).
  rewrite (length_two_filters key a b xs Hab).
  - pose proof (Hk a) as Ha. pose proof (Hk b) as Hb.
    rewrite countByType_lookup in Ha, Hb.
    rewrite lookup_insert_eq in Ha.
    rewrite lookup_insert_ne, lookup_singleton_eq in Hb by done.
    destruct (length (filter (fun x => key x = a) xs)); [done|].
    destruct (length (filter (fun x => key x = b) xs)); [done|].
    injection Ha as <-. injection Hb as <-. done.
  - intros x Hx. destruct (decide (key x = a)) as [|Hna]; [by left|].
    destruct (decide (key x = b)) as [|Hnb]; [by right|].
    pose proof (Hk (key x)) as Hkx.
    rewrite lookup_insert_ne, lookup_singleton_ne in Hkx by done.
    by destruct (countByType_None key xs (key x) Hkx x Hx).
Qed.

(** C3, as stated, fails: with ten responses of teachers, parents and
    students, seven of them rated, the three others are counted under
    their respondent type as well; no list of ten responses whose
    respondent types are plain keys is counted as
    {teacher: 5, parent: 2}. *)
Lemma ten_responses_count_every_type :
  length ten_responses = 10%nat /\
  plain_keys Response.respondent_type ten_responses = true /\
  ratings ten_responses = [5; 4; 3; 5; 4; 2; 3] /\
  responsesByType (loadStats 2 10 ten_responses two_questions)
  = {[ "teacher" := 5%nat; "parent" := 2%nat; "student" := 3%nat ]} /\
  responsesByType (loadStats 2 10 ten_responses two_questions)
  <> {[ "teacher" := 5%nat; "parent" := 2%nat ]} /\
  forall (questionsCount responsesCount : nat) (responses : list Response.t)
         (questions : list Question.t),
    plain_keys Response.respondent_type responses = true ->
    length responses = 10%nat ->
    responsesByType
      (loadStats questionsCount responsesCount responses questions)
    <> {[ "teacher" := 5%nat; "parent" := 2%nat ]}.
Proof.
  assert (forall (questionsCount responsesCount : nat)
                 (responses : list Response.t) (questions : list Question.t),
            plain_keys Response.respondent_type responses = true ->
            length responses = 10%nat ->
            responsesByType
              (loadStats questionsCount responsesCount responses questions)
            <> {[ "teacher" := 5%nat; "parent" := 2%nat ]}) as Hgen.
  { intros qc rc rs qs _ Hlen. rewrite loadStats_responsesByType.
    intros Hmap. apply countByType_two_keys in Hmap; [lia | done]. }
  split; [done|]. split; [reflexivity|]. split; [vm_compute; reflexivity|].
  split; [vm_compute; reflexivity|]. split; [by apply Hgen | exact Hgen].
Qed.

(** C3, amended: for responses whose respondent types are plain keys, as
    the four respondent types of the data model are, the average is the
    sum of the ratings over their number, the ratings being the response
    values that parse as an integer from 1 to 5, and 0 when there is none;
    it agrees with [calculateAverageFromResponses].  [responsesByType]
    counts every response, rated or not, under its respondent type.  When
    the ratings are 5, 4, 3, 5, 4, 2 and 3 in some order, the average is
    26/7 and the grade is good; the seven rated responses alone give
    {teacher: 5, parent: 2}. *)
Theorem loadStats_average_and_counts (questionsCount responsesCount : nat)
    (responses : list Response.t) (questions : list Question.t) :
  plain_keys Response.respondent_type responses = true ->
  let st := loadStats questionsCount responsesCount responses questions in
  (averageRating st
   = match ratings responses with
     | [] => JS.zero
     | rs => JS.div (JS.of_Z (sum rs)) (JS.of_nat (length rs))
     end) /\
  averageRating st
  = calculateAverageFromResponses (omap Response.response_value responses) /\
  (forall type : string,
     plain_key type = true ->
     default 0%nat (responsesByType st !! type)
     = length (filter (fun r => Response.respondent_type r = type)
                 responses)) /\
  (forall type : string,
     is_Some (responsesByType st !! type)
     <-> exists r, r ∈ responses /\ Response.respondent_type r = type) /\
  (ratings responses ≡ₚ [5; 4; 3; 5; 4; 2; 3] ->
   averageRating st = JS.div (JS.of_Z 26) (JS.of_Z 7) /\
   JS.lt lit_3_71428 (averageRating st) = true /\
   JS.lt (averageRating st) lit_3_71429 = true /\
   level (convertToGrade (averageRating st)) = good) /\
  responsesByType
    (loadStats questionsCount responsesCount rated_responses questions)
  = {[ "teacher" := 5%nat; "parent" := 2%nat ]}.
Proof.
  intros _ st. subst st.
  pose proof (loadStats_averageRating questionsCount responsesCount
                responses questions) as Havg.
  split; [done|]. split; [|split; [|split; [|split]]].
  - rewrite Havg. unfold calculateAverageFromResponses.
    rewrite <- ratings_numericValues, length_fmap, foldl_sum_Some.
    destruct (ratings responses) as [|x l]; [done|].
    rewrite decide_False by done. done.
  - intros type _. rewrite loadStats_responsesByType.
    rewrite countByType_lookup. by destruct (length _).
  - intros type. rewrite loadStats_responsesByType.
    destruct (countByType Response.respondent_type responses !! type)
      as [n|] eqn:E.
    + apply countByType_Some in E as [_ Hr]. split; [done | by eexists].
    + split; [by intros [? ?]|]. intros (r & Hr & Ht).
      by destruct (countByType_None _ _ _ E r Hr).
  - intros Hperm. rewrite Havg.
    pose proof (sum_Permutation _ _ Hperm) as Hsum.
    pose proof (Permutation_length Hperm) as Hlen.
    destruct (ratings responses) as [|x l]; [done|]. cbv zeta.
    rewrite Hsum, Hlen. vm_compute. repeat split; reflexivity.
  - rewrite loadStats_responsesByType. vm_compute. reflexivity.
Qed.

Lemma loadStats_average_and_counts_witness :
  let st := loadStats 2 10 ten_responses two_questions in
  averageRating st = JS.div (JS.of_Z 26) (JS.of_Z 7) /\
  JS.lt lit_3_71428 (averageRating st) = true /\
  JS.lt (averageRating st) lit_3_71429 = true /\
  level (convertToGrade (averageRating st)) = good.
Proof.
  apply (loadStats_average_and_counts 2 10 ten_responses two_questions
           eq_refl).
  vm_compute. reflexivity.
Defined.

(** C4: for responses and questions whose respondent types are plain
    keys, as the four respondent types of the data model are, the
    completion rate is defined for exactly the respondent types that have
    questions; for such a type it is
    round(responded / max(total, 1) * 100) with [total] at least 1, so the
    divisor is never zero; and when the responses of the type do not
    outnumber its questions, it is an integer from 0 to 100.  (The number
    of questions is below 2^53, as every array length is.) *)
Theorem completionRate_per_type (questionsCount responsesCount : nat)
    (responses : list Response.t) (questions : list Question.t) :
  plain_keys Response.respondent_type responses = true ->
  plain_keys Question.respondent_type questions = true ->
  let st := loadStats questionsCount responsesCount responses questions in
  let questionsByType := countByType Question.respondent_type questions in
  (forall type : string,
     is_Some (completionRate st !! type)
     <-> exists q, q ∈ questions /\ Question.respondent_type q = type) /\
  (forall (type : string) (rate : JS.number),
     completionRate st !! type = Some rate ->
     let responded := default 0%nat (responsesByType st !! type) in
     let total := default 0%nat (questionsByType !! type) in
     (1 <= total)%nat /\
     JS.of_nat (Nat.max total 1) <> S754_zero false /\
     rate
     = JS.Math_round
         (JS.mul (JS.div (JS.of_nat responded) (JS.of_nat (Nat.max total 1)))
            JS.hundred) /\
     (Z.of_nat (length questions) < 2 ^ 53 ->
      (responded <= total)%nat ->
      JS.le JS.zero rate = true /\ JS.le rate JS.hundred = true /\
      exists n : Z, 0 <= n <= 100 /\ rate = JS.of_Z n)).
Proof.
  intros _ _ st questionsByType. subst st questionsByType. split.
  - intros type. rewrite loadStats_completionRate.
    destruct (countByType Question.respondent_type questions !! type)
      as [n|] eqn:E.
    + apply countByType_Some in E as [_ Hq]. split; [done | by eexists].
    + split; [by intros [? ?]|]. intros (q & Hq & Ht).
      by destruct (countByType_None _ _ _ E q Hq).
  - intros type rate. rewrite loadStats_completionRate.
    rewrite loadStats_responsesByType.
    destruct (countByType Question.respondent_type questions !! type)
      as [n|] eqn:E; [|done].
    intros [= <-]. apply countByType_Some in E as [[Hn1 Hn2] _].
    destruct n as [|n]; [lia|]. cbn [or_one].
    change (default 0%nat (Some (S n))) with (S n).
    rewrite Nat.max_l by lia.
    split; [lia|]. split.
    { unfold JS.of_nat. rewrite Nat2Z.inj_succ, <- Z.add_1_r.
      destruct (Z.of_nat n + 1) as [|p|p] eqn:Ep; [lia| |lia].
      destruct (of_Z_positive p) as [(m & e & ->)| ->]; done. }
    split; [done|]. intros Hlen Hle.
    destruct (percentage_integer
                (default 0%nat
                   (countByType Response.respondent_type responses !! type))
                (S n)) as (k & Hk & Hrate); [done | lia | lia |].
    rewrite Hrate. destruct (percent_in_range k Hk) as [H0 H100].
    split; [done|]. split; [done|]. by exists k.
Qed.

Lemma completionRate_per_type_witness :
  completionRate
    (loadStats 2 1 [response_of "teacher" "5"] two_questions) !! "teacher"
  = Some (JS.of_Z 50) /\
  JS.le JS.zero (JS.of_Z 50) = true /\
  JS.le (JS.of_Z 50) JS.hundred = true.
Proof.
  pose proof (completionRate_per_type 2 1 [response_of "teacher" "5"]
                two_questions eq_refl eq_refl) as [_ H].
  assert (completionRate
            (loadStats 2 1 [response_of "teacher" "5"] two_questions)
          !! "teacher" = Some (JS.of_Z 50)) as E
    by (vm_compute; reflexivity).
  destruct (H "teacher" (JS.of_Z 50) E) as (_ & _ & _ & Hb).
  destruct Hb as (H0 & H100 & _);
    [vm_compute; reflexivity | vm_compute; lia |].
  split; [exact E|]. split; [exact H0 | exact H100].
Defined.

(** ** The completion rate of a report *)

Lemma reportCompletionRate_no_questions (nResponses : nat) :
  reportCompletionRate nResponses 0
  = match nResponses with O => JS.NaN | S _ => JS.Infinity end.
Proof.
  unfold reportCompletionRate, JS.of_nat.
  destruct nResponses as [|n]; [vm_compute; reflexivity|].
  rewrite Nat2Z.inj_succ, <- Z.add_1_r.
  destruct (Z.of_nat n + 1) as [|p|p] eqn:Ep; [lia| |lia].
  destruct (of_Z_positive p) as [(m & e & ->)| ->]; reflexivity.
Qed.

(** C10: when the project has no question, the completion rate of the
    report that [generateReport] returns is the result of a division by
    zero: [Infinity] when the project has responses and [NaN] when it has
    none, in both cases not a finite number. *)
Theorem report_completionRate_without_questions
    (JSON_parse : string -> throws json) (db : Firestore)
    (data : gmap string value) (now : string) (generated : throws string)
    (r : Functions.ReportResponse) :
  generateReport JSON_parse db data now generated = ret r ->
  whereProject snd (field data "projectId") (questions db) = [] ->
  let rate :=
    Functions.completionRate (Functions.statistics (Functions.report r)) in
  rate
  = match whereProject id (field data "projectId") (responses db) with
    | [] => JS.NaN
    | _ :: _ => JS.Infinity
    end /\
  JS.isFinite rate = false.
Proof.
  unfold generateReport, try_catch_rethrow, ret, throw.
  destruct (truthy (field data "projectId")); [|done].
  intros Hret Hq.
  match type of Hret with
  | match ?body with _ => _ end = _ =>
      destruct body as [e|res] eqn:Hbody; [done|]
  end.
  injection Hret as ->. revert Hbody. unfold bind, ret, throw.
  repeat match goal with
         | |- context [match ?x with inl _ => _ | inr _ => _ end] =>
             destruct x; [done|]
         | |- context [if ?b then _ else _] => destruct b; [|done]
         end.
  intros [= <-]. cbn. rewrite Hq. cbn [length].
  rewrite reportCompletionRate_no_questions.
  by destruct (whereProject id _ _).
Qed.

Lemma report_completionRate_without_questions_witness :
  match
    generateReport RefJSON.parse db_without_questions
      {[ "projectId" := Str "p1" ]} "2026-11-03T00:00:00.000Z"
      (ret ("Here is the report: "
            ++ example_stringify example_payload)%string)
  with
  | inr r =>
      Functions.completionRate (Functions.statistics (Functions.report r))
      = JS.Infinity
  | inl _ => False
  end.
Proof.
  destruct (generateReport RefJSON.parse db_without_questions
              {[ "projectId" := Str "p1" ]} "2026-11-03T00:00:00.000Z"
              (ret ("Here is the report: "
                    ++ example_stringify example_payload)%string))
    as [e|r] eqn:E.
  - vm_compute in E. discriminate E.
  - exact (proj1 (report_completionRate_without_questions RefJSON.parse
                    db_without_questions {[ "projectId" := Str "p1" ]}
                    "2026-11-03T00:00:00.000Z" _ r E eq_refl)).
Defined.

(** ** The grade distribution *)

Lemma grade_count_increment (distribution : GradeCounts) (l l' : GradeLevel) :
  grade_count (grade_increment distribution l) l'
  = ((if decide (l = l') then 1 else 0) + grade_count distribution l')%nat.
Proof. by destruct l, l'. Qed.

Lemma foldl_grade_count (scores : list JS.number) (acc : GradeCounts)
    (l : GradeLevel) :
  grade_count
    (foldl (fun distribution score =>
              let grade := convertToGrade score in
              grade_increment distribution (level grade)) acc scores) l
  = (grade_count acc l
     + length (filter (fun s => level (convertToGrade s) = l) scores))%nat.
Proof.
  revert acc. induction scores as [|s scores IH]; intros acc; cbn [foldl].
  - cbn. lia.
  - rewrite IH. cbv zeta. rewrite grade_count_increment, filter_cons.
    destruct (decide (level (convertToGrade s) = l)); cbn; lia.
Qed.

Lemma length_filter_levels (scores : list JS.number) :
  (length (filter (fun s => level (convertToGrade s) = excellent) scores)
   + length (filter (fun s => level (convertToGrade s) = good) scores)
   + length (filter (fun s => level (convertToGrade s) = average) scores)
   + length (filter (fun s => level (convertToGrade s) = poor) scores))%nat
  = length scores.
Proof.
  induction scores as [|s scores IH]; [done|].
  rewrite !filter_cons.
  destruct (level (convertToGrade s)); repeat case_decide; try done;
    cbn; lia.
Qed.

(** X1: each count of the distribution is the number of scores of that
    grade, so the four counts add up to the number of scores; a score
    that is not a number is counted as poor. *)
Theorem getGradeDistribution_counts (scores : list JS.number) :
  let distribution := getGradeDistribution scores in
  (forall l : GradeLevel,
     grade_count distribution l
     = length (filter (fun s => level (convertToGrade s) = l) scores)) /\
  (n_excellent distribution + n_good distribution
   + n_average distribution + n_poor distribution)%nat = length scores /\
  getGradeDistribution (scores ++ [JS.NaN])
  = grade_increment distribution poor.
Proof.
  intros distribution.
  assert (forall l : GradeLevel,
            grade_count distribution l
            = length (filter (fun s => level (convertToGrade s) = l) scores))
    as Hcount.
  { intros l. subst distribution. unfold getGradeDistribution.
    rewrite foldl_grade_count. by destruct l. }
  split; [done|]. split.
  - rewrite <- (length_filter_levels scores).
    by rewrite <- (Hcount excellent), <- (Hcount good), <- (Hcount average),
      <- (Hcount poor).
  - subst distribution. unfold getGradeDistribution.
    by rewrite foldl_app.
Qed.

(** ** Survey links and the loading of a survey *)

Lemma getSurveyLinkByCode_Some (survey_links : list StoredLink) (now : Z)
    (accessCode : string) (data : StoredLink) :
  getSurveyLinkByCode survey_links now accessCode = Some data ->
  head (filter (fun d => SurveyLink.access_code (link d) = accessCode /\
                         SurveyLink.is_active (link d) = true) survey_links)
  = Some data /\
  data ∈ survey_links /\
  SurveyLink.access_code (link data) = accessCode /\
  SurveyLink.is_active (link data) = true.
Proof.
  unfold getSurveyLinkByCode.
  destruct (filter _ survey_links) as [|d snapshot] eqn:E; [done|].
  intros Hdata.
  assert (data = d) as ->.
  { destruct (expires_at d) as [expiry|]; [|by injection Hdata].
    destruct (expiry <? now); [done|]. by injection Hdata. }
  assert (d ∈ filter (fun d => SurveyLink.access_code (link d) = accessCode /\
                               SurveyLink.is_active (link d) = true)
            survey_links) as Hin by (rewrite E; left).
  apply list_elem_of_filter in Hin as [[Hcode Hactive] Hin]. done.
Qed.

(** X2: a link that [getSurveyLinkByCode] returns is a document of the
    collection that carries the code, is active and has not expired; it is
    the first active document with the code. *)
Theorem getSurveyLinkByCode_sound (survey_links : list StoredLink) (now : Z)
    (accessCode : string) (data : StoredLink) :
  getSurveyLinkByCode survey_links now accessCode = Some data ->
  data ∈ survey_links /\
  SurveyLink.access_code (link data) = accessCode /\
  SurveyLink.is_active (link data) = true /\
  (forall expiry, expires_at data = Some expiry -> now <= expiry) /\
  exists before after,
    survey_links = before ++ data :: after /\
    forall d, d ∈ before ->
      SurveyLink.access_code (link d) <> accessCode \/
      SurveyLink.is_active (link d) = false.
Proof.
  intros Hdata.
  destruct (getSurveyLinkByCode_Some _ _ _ _ Hdata)
    as (Hhead & Hin & Hcode & Hactive).
  repeat (split; [done|]). split.
  - revert Hdata. unfold getSurveyLinkByCode.
    destruct (filter _ survey_links) as [|d snapshot]; [done|].
    injection Hhead as ->. intros Hdata expiry Hexp. rewrite Hexp in Hdata.
    destruct (expiry <? now) eqn:Hlt; [done|]. lia.
  - clear Hdata Hin. induction survey_links as [|x l IH]; [done|].
    rewrite filter_cons in Hhead. case_decide as Hx.
    + injection Hhead as ->. exists [], l. split; [done|].
      intros ? ?%elem_of_nil. done.
    + destruct (IH Hhead) as (before & after & -> & Hbefore).
      exists (x :: before), after. split; [done|].
      intros y Hy. apply elem_of_cons in Hy as [->|Hy]; [|by apply Hbefore].
      destruct (decide (SurveyLink.access_code (link x) = accessCode));
        [|by left].
      right. destruct (SurveyLink.is_active (link x)); [|done].
      by destruct Hx.
Qed.

Lemma getSurveyLinkByCode_sound_witness :
  let data := {| link := example_link "l2" "parent" "PARENT01" true;
                 expires_at := Some 1798675200000 |} in
  data ∈ example_links /\
  SurveyLink.is_active (link data) = true /\
  exists before after,
    example_links = before ++ data :: after /\
    forall d, d ∈ before ->
      SurveyLink.access_code (link d) <> "PARENT01" \/
      SurveyLink.is_active (link d) = false.
Proof.
  destruct (getSurveyLinkByCode_sound example_links 1762128000000 "PARENT01"
              {| link := example_link "l2" "parent" "PARENT01" true;
                 expires_at := Some 1798675200000 |})
    as (H1 & _ & H3 & _ & H5); [vm_compute; reflexivity|].
  split; [exact H1|]. split; [exact H3 | exact H5].
Defined.

(** X3: the survey page never reports a link as deactivated: a link that is
    not active is not found at all, and is reported as invalid. *)
Theorem loadSurvey_never_reports_inactive (survey_links : list StoredLink)
    (now : Z) (questionsOf : string -> string -> list Question.t)
    (accessCode : option string) :
  loadSurvey survey_links now questionsOf accessCode
  <> Refused "이 설문은 현재 비활성화되어 있습니다." /\
  (forall code : string,
     accessCode = Some code -> truthy_string code = true ->
     (forall d, d ∈ survey_links ->
        SurveyLink.access_code (link d) = code ->
        SurveyLink.is_active (link d) = false) ->
     loadSurvey survey_links now questionsOf accessCode
     = Refused "유효하지 않은 설문 링크입니다.").
Proof.
  split.
  - unfold loadSurvey. destruct accessCode as [code|]; [|done].
    destruct (truthy_string code); [|done]. cbn [negb].
    destruct (getSurveyLinkByCode survey_links now code) as [data|] eqn:E;
      [|done].
    apply getSurveyLinkByCode_Some in E as (_ & _ & _ & E). cbv zeta.
    rewrite E. cbn [negb].
    by destruct (String.eqb _ _).
  - intros code -> Hcode Hall. unfold loadSurvey. rewrite Hcode. cbn [negb].
    destruct (getSurveyLinkByCode survey_links now code) as [data|] eqn:E;
      [|done].
    apply getSurveyLinkByCode_Some in E as (_ & Hin & Hc & Ha).
    by rewrite (Hall data Hin Hc) in Ha.
Qed.

(** X4: a survey is shown only for a code that was given, through an
    active, unexpired link of the collection that is not a teachers'
    link, with the questions of the link's project and respondent
    type. *)
Theorem loadSurvey_shown (survey_links : list StoredLink)
    (now : Z) (questionsOf : string -> string -> list Question.t)
    (accessCode : option string) (surveyLink : SurveyLink.t)
    (questions : list Question.t) :
  loadSurvey survey_links now questionsOf accessCode
  = Shown surveyLink questions ->
  exists data,
    data ∈ survey_links /\ link data = surveyLink /\
    accessCode = Some (SurveyLink.access_code surveyLink) /\
    SurveyLink.is_active surveyLink = true /\
    SurveyLink.respondent_type surveyLink <> "teacher" /\
    (forall expiry, expires_at data = Some expiry -> now <= expiry) /\
    questions = questionsOf (SurveyLink.project_id surveyLink)
                  (SurveyLink.respondent_type surveyLink).
Proof.
  unfold loadSurvey. destruct accessCode as [code|]; [|done].
  destruct (truthy_string code); [|done]. cbn [negb].
  destruct (getSurveyLinkByCode survey_links now code) as [data|] eqn:E;
    [|done].
  destruct (getSurveyLinkByCode_Some _ _ _ _ E) as (Hhead & Hin & Hc & Ha).
  cbv zeta. rewrite Ha. cbn [negb].
  destruct (String.eqb _ _) eqn:Ht; [done|]. intros [= <- <-].
  exists data. repeat (split; [done || by rewrite Hc|]).
  split; [by apply String.eqb_neq|]. split; [|done].
  revert E. unfold getSurveyLinkByCode.
  destruct (filter _ survey_links) as [|d snapshot]; [done|].
  injection Hhead as ->. intros Hdata expiry Hexp. rewrite Hexp in Hdata.
  destruct (expiry <? now) eqn:Hlt; [done|]. lia.
Qed.

Lemma loadSurvey_shown_witness :
  exists data,
    data ∈ example_links /\
    link data = example_link "l2" "parent" "PARENT01" true.
Proof.
  destruct (loadSurvey_shown example_links 1762128000000
              (fun _ _ => two_questions) (Some "PARENT01")
              (example_link "l2" "parent" "PARENT01" true) two_questions)
    as (data & H1 & H2 & _); [vm_compute; reflexivity|].
  exists data. split; [exact H1 | exact H2].
Defined.

(** ** The sections of the teacher survey *)

Lemma elem_of_uniq (xs : list string) (x : string) : x ∈ uniq xs <-> x ∈ xs.
Proof.
  induction xs as [|y xs IH]; [done|]. cbn [uniq].
  rewrite !elem_of_cons, list_elem_of_filter, IH.
  destruct (decide (x = y)); tauto.
Qed.

Lemma NoDup_uniq (xs : list string) : NoDup (uniq xs).
Proof.
  induction xs as [|y xs IH]; cbn [uniq]; [constructor|].
  constructor.
  - rewrite list_elem_of_filter. by intros [? _].
  - by apply NoDup_filter.
Qed.

Lemma sectionName_Some (q : Question.t) (s : string) :
  sectionName q = Some s
  <-> Question.section_name q = Some s /\ truthy_string s = true.
Proof.
  unfold sectionName. destruct (Question.section_name q) as [n|].
  - destruct (truthy_string n) eqn:E.
    + split; [by intros [= <-]|by intros [[= <-] _]].
    + split; [done|]. intros [[= <-] Hs]. congruence.
  - split; [done|by intros [? _]].
Qed.

Lemma elem_of_sections (questions : list Question.t) (s : string) :
  s ∈ sections questions
  <-> truthy_string s = true /\
      exists q, q ∈ questions /\ Question.section_name q = Some s.
Proof.
  unfold sections. rewrite elem_of_uniq, list_elem_of_omap. split.
  - intros (q & Hq & [Hsec Hs]%sectionName_Some). eauto.
  - intros (Hs & q & Hq & Hsec). exists q. split; [done|].
    by apply sectionName_Some.
Qed.

(** X5: the sections are the distinct non-empty section names of the
    questions, each listed once. *)
Theorem sections_distinct_names (questions : list Question.t) :
  NoDup (sections questions) /\
  (forall s : string,
     s ∈ sections questions
     <-> s <> EmptyString /\
         exists q, q ∈ questions /\ Question.section_name q = Some s) /\
  (sections questions = [] <-> forall q, q ∈ questions -> sectionName q = None).
Proof.
  split; [apply NoDup_uniq|]. split.
  - intros s. rewrite elem_of_sections.
    destruct s; cbn; [|split; intros [_ ?]; by split].
    split; intros [? ?]; done.
  - split.
    + intros Hnil q Hq. destruct (sectionName q) as [s|] eqn:E; [|done].
      apply sectionName_Some in E as [E Hs].
      assert (s ∈ sections questions) as Hin
        by (apply elem_of_sections; eauto).
      rewrite Hnil in Hin. by apply elem_of_nil in Hin.
    + intros Hall. destruct (sections questions) as [|s l] eqn:E; [done|].
      assert (s ∈ sections questions) as Hin by (rewrite E; left).
      apply elem_of_sections in Hin as (Hs & q & Hq & Hsec).
      specialize (Hall q Hq). 
      assert (sectionName q = Some s) as Hq' by by apply sectionName_Some.
      congruence.
Qed.

(** X6: the section views split the questions: a question with a section
    name is shown in the view of exactly that section, and a question
    without one is shown in no section view, although it is shown when no
    section is current. *)
Theorem sectionQuestions_partition (questions : list Question.t)
    (q : Question.t) :
  q ∈ questions ->
  q ∈ sectionQuestions questions None /\
  (forall s : string,
     s ∈ sections questions ->
     (q ∈ sectionQuestions questions (Some s) <-> sectionName q = Some s)) /\
  (forall s : string,
     sectionName q = Some s ->
     s ∈ sections questions /\ q ∈ sectionQuestions questions (Some s)).
Proof.
  intros Hq. split; [done|]. split.
  - intros s Hs. apply elem_of_sections in Hs as [Hs _].
    unfold sectionQuestions. rewrite Hs, list_elem_of_filter, sectionName_Some.
    tauto.
  - intros s Hs. apply sectionName_Some in Hs as [Hsec Hs]. split.
    + apply elem_of_sections. eauto.
    + unfold sectionQuestions. rewrite Hs. by apply list_elem_of_filter.
Qed.

Lemma sectionQuestions_partition_witness :
  sectioned_question "t4" None ∈ sectionQuestions sectioned_questions None /\
  sectioned_question "t4" None
  ∉ sectionQuestions sectioned_questions (Some "교육과정").
Proof.
  destruct (sectionQuestions_partition sectioned_questions
              (sectioned_question "t4" None)) as (H1 & H2 & _).
  { unfold sectioned_questions.
    repeat first [left | right]. }
  split; [exact H1|].
  intros Hin. apply (H2 "교육과정") in Hin; [discriminate Hin|].
  vm_compute. left.
Defined.

(** ** Priority voting *)

Lemma rerank_length (items : list PriorityVoting.PriorityItem) :
  length (PriorityVoting.rerank items) = length items.
Proof. unfold PriorityVoting.rerank. by rewrite length_imap. Qed.

Lemma rerank_lookup (items : list PriorityVoting.PriorityItem) (i : nat) :
  PriorityVoting.rerank items !! i
  = (fun item => {| PriorityVoting.id := PriorityVoting.id item;
                    PriorityVoting.text := PriorityVoting.text item;
                    PriorityVoting.rank := S i |}) <$> items !! i.
Proof. unfold PriorityVoting.rerank. by rewrite list_lookup_imap. Qed.

Lemma rerank_texts (items : list PriorityVoting.PriorityItem) :
  PriorityVoting.texts (PriorityVoting.rerank items)
  = PriorityVoting.texts items.
Proof.
  unfold PriorityVoting.texts. apply list_eq. intros i.
  rewrite !list_lookup_fmap, rerank_lookup.
  by destruct (items !! i).
Qed.

Lemma rerank_ranked (items : list PriorityVoting.PriorityItem) :
  PriorityVoting.ranked (PriorityVoting.rerank items).
Proof.
  unfold PriorityVoting.ranked. apply list_eq. intros i.
  rewrite list_lookup_fmap, rerank_lookup, rerank_length.
  destruct (items !! i) as [x|] eqn:E; cbn.
  - apply lookup_lt_Some in E. symmetry. apply lookup_seq. lia.
  - apply lookup_ge_None in E. symmetry. apply lookup_ge_None.
    rewrite length_seq. lia.
Qed.

Lemma rerank_id (items : list PriorityVoting.PriorityItem) :
  PriorityVoting.ranked items -> PriorityVoting.rerank items = items.
Proof.
  unfold PriorityVoting.ranked. intros H. apply list_eq. intros i.
  rewrite rerank_lookup. destruct (items !! i) as [x|] eqn:E; cbn; [|done].
  assert ((PriorityVoting.rank <$> items) !! i
          = Some (PriorityVoting.rank x)) as Hr
    by by rewrite list_lookup_fmap, E.
  rewrite H in Hr. apply lookup_seq in Hr as [Hr _].
  destruct x as [xi xt xr]. cbn in *. f_equal. f_equal. lia.
Qed.

Lemma isSelected_texts (items : list PriorityVoting.PriorityItem) (t : string) :
  PriorityVoting.isSelected items t = true <-> t ∈ PriorityVoting.texts items.
Proof.
  unfold PriorityVoting.isSelected, PriorityVoting.texts.
  rewrite existsb_exists, list_elem_of_fmap.
  split.
  - intros (x & Hx & Ht). apply String.eqb_eq in Ht. exists x.
    split; [done|]. by apply list_elem_of_In.
  - intros (x & -> & Hx). exists x. split; [by apply list_elem_of_In|].
    apply String.eqb_refl.
Qed.

Lemma swap_adjacent {A} (l : list A) (i : nat) (a b : A) :
  l !! i = Some a -> l !! S i = Some b ->
  exists pre post,
    l = pre ++ a :: b :: post /\ length pre = i /\
    <[i := b]> (<[S i := a]> l) = pre ++ b :: a :: post.
Proof.
  revert i. induction l as [|x l IH]; intros [|i]; cbn; try done.
  - intros [= ->]. destruct l as [|y l]; [done|]. cbn. intros [= ->].
    by exists [], l.
  - intros Ha Hb. destruct (IH i Ha Hb) as (pre & post & Hl & Hlen & Hsw).
    exists (x :: pre), post. split; [by rewrite Hl|].
    split; [cbn; by rewrite Hlen|]. cbn. by f_equal.
Qed.

(** What a move does to the list before the ranks are renewed. *)
Lemma moveItem_swap (items : list PriorityVoting.PriorityItem) (index : nat)
    (direction : PriorityVoting.Direction) :
  (index < length items)%nat ->
  PriorityVoting.moveItem items index direction = PriorityVoting.Returned /\
    (direction = PriorityVoting.up /\ index = 0%nat \/
     direction = PriorityVoting.down /\ S index = length items) \/
  exists j pre a b post,
    (direction = PriorityVoting.up /\ index = S j \/
     direction = PriorityVoting.down /\ index = j) /\
    items = pre ++ a :: b :: post /\ length pre = j /\
    PriorityVoting.moveItem items index direction
    = PriorityVoting.Updated (PriorityVoting.rerank (pre ++ b :: a :: post)).
Proof.
  intros Hlt. unfold PriorityVoting.moveItem, PriorityVoting.is_last.
  destruct direction; cbn [PriorityVoting.is_up andb negb].
  - case_bool_decide as H0; [left; split; [done|]; by left|]. right.
    destruct index as [|j]; [done|]. cbn [pred].
    destruct (lookup_lt_is_Some_2 items (S j) Hlt) as [b Hb].
    destruct (lookup_lt_is_Some_2 items j ltac:(lia)) as [a Ha].
    rewrite Hb, Ha.
    destruct (swap_adjacent items j a b Ha Hb)
      as (pre & post & Hitems & Hlen & Hsw).
    exists j, pre, a, b, post. split; [by left|]. split; [done|].
    split; [done|]. rewrite list_insert_insert_ne by lia. by rewrite Hsw.
  - case_bool_decide as H0; [left; split; [done|]; by right|]. right.
    destruct (lookup_lt_is_Some_2 items index Hlt) as [a Ha].
    destruct (lookup_lt_is_Some_2 items (S index) ltac:(lia)) as [b Hb].
    rewrite Ha, Hb.
    destruct (swap_adjacent items index a b Ha Hb)
      as (pre & post & Hitems & Hlen & Hsw).
    exists index, pre, a, b, post. split; [by right|]. split; [done|].
    split; [done|]. by rewrite Hsw.
Qed.

Lemma texts_app (l1 l2 : list PriorityVoting.PriorityItem) :
  PriorityVoting.texts (l1 ++ l2)
  = PriorityVoting.texts l1 ++ PriorityVoting.texts l2.
Proof. unfold PriorityVoting.texts. by rewrite fmap_app. Qed.

Lemma texts_filter (items : list PriorityVoting.PriorityItem) (t : string) :
  PriorityVoting.texts
    (filter (fun item => PriorityVoting.text item <> t) items)
  = filter (fun s => s <> t) (PriorityVoting.texts items).
Proof.
  unfold PriorityVoting.texts. induction items as [|x l IH]; [done|].
  rewrite fmap_cons, !filter_cons.
  destruct (decide (PriorityVoting.text x <> t)); cbn; by rewrite IH.
Qed.

(** X7: the selection the buttons can reach keeps its ranks 1, 2, ... in
    order, holds no text twice and never exceeds [maxSelections]. *)
Theorem priority_selection_invariant (questionId : string)
    (maxSelections : nat) (items : list PriorityVoting.PriorityItem) :
  PriorityVoting.reachable questionId maxSelections items ->
  PriorityVoting.ranked items /\ NoDup (PriorityVoting.texts items) /\
  (length items <= maxSelections)%nat.
Proof.
  induction 1 as [|items now t _ (Hr & Hn & Hl)|items t _ (Hr & Hn & Hl)
                  |items index direction _ (Hr & Hn & Hl) Hlt].
  - repeat split; [constructor | cbn; lia].
  - unfold PriorityVoting.addItem.
    destruct (Nat.leb_spec maxSelections (length items)); [done|].
    destruct (PriorityVoting.isSelected items t) eqn:Hsel; [done|].
    cbn [PriorityVoting.after].
    repeat split.
    + unfold PriorityVoting.ranked in *. rewrite fmap_app, Hr, length_app. cbn.
      rewrite Nat.add_1_r, seq_S. done.
    + rewrite texts_app. apply NoDup_app. split; [done|]. split.
      * intros s Hs. cbn. intros ->%list_elem_of_singleton.
        apply isSelected_texts in Hs. congruence.
      * cbn. apply NoDup_singleton.
    + rewrite length_app. cbn. lia.
  - cbn [PriorityVoting.removeItem PriorityVoting.after]. repeat split.
    + apply rerank_ranked.
    + rewrite rerank_texts, texts_filter. by apply NoDup_filter.
    + rewrite rerank_length.
      pose proof (length_filter_le
                    (fun item => PriorityVoting.text item <> t) items).
      lia.
  - destruct (moveItem_swap items index direction Hlt)
      as [[-> _]|(j & pre & a & b & post & _ & Hitems & _ & ->)]; [done|].
    cbn [PriorityVoting.after]. repeat split.
    + apply rerank_ranked.
    + rewrite rerank_texts. rewrite Hitems in Hn.
      rewrite texts_app in *. cbn in *.
      eapply NoDup_Permutation_proper; [|exact Hn].
      apply Permutation_app_head. apply perm_swap.
    + rewrite rerank_length. rewrite Hitems in Hl.
      rewrite length_app in *. cbn in *. lia.
Qed.

Lemma priority_selection_invariant_witness :
  PriorityVoting.ranked
    (PriorityVoting.after []
       (PriorityVoting.addItem "q3" 3 1762128000000 [] "교원 연수 확대")) /\
  NoDup
    (PriorityVoting.texts
       (PriorityVoting.after []
          (PriorityVoting.addItem "q3" 3 1762128000000 [] "교원 연수 확대"))) /\
  (length
     (PriorityVoting.after []
        (PriorityVoting.addItem "q3" 3 1762128000000 [] "교원 연수 확대"))
   <= 3)%nat.
Proof.
  apply (priority_selection_invariant "q3" 3).
  apply PriorityVoting.reach_add, PriorityVoting.reach_empty.
Defined.

Lemma rerank_core (l1 l2 : list PriorityVoting.PriorityItem) :
  PriorityVoting.core l1 = PriorityVoting.core l2 ->
  PriorityVoting.rerank l1 = PriorityVoting.rerank l2.
Proof.
  intros H. apply list_eq. intros i. rewrite !rerank_lookup.
  assert (PriorityVoting.core l1 !! i = PriorityVoting.core l2 !! i) as Hi
    by by rewrite H.
  unfold PriorityVoting.core in Hi. rewrite !list_lookup_fmap in Hi.
  destruct (l1 !! i) as [x|], (l2 !! i) as [y|]; cbn in *; try done.
  injection Hi as -> ->. done.
Qed.

Lemma core_rerank (items : list PriorityVoting.PriorityItem) :
  PriorityVoting.core (PriorityVoting.rerank items) = PriorityVoting.core items.
Proof.
  unfold PriorityVoting.core. apply list_eq. intros i.
  rewrite !list_lookup_fmap, rerank_lookup. by destruct (items !! i).
Qed.

Lemma filter_unselected (items : list PriorityVoting.PriorityItem)
    (t : string) :
  PriorityVoting.isSelected items t = false ->
  filter (fun item => PriorityVoting.text item <> t) items = items.
Proof.
  intros Hsel. induction items as [|x l IH]; [done|].
  cbn in Hsel. apply orb_false_elim in Hsel as [Hx Hl].
  rewrite filter_cons. apply String.eqb_neq in Hx.
  rewrite decide_True by done. by rewrite IH.
Qed.

(** X8: adding an item and removing it again restores the selection, ranks
    included. *)
Theorem priority_add_then_remove (questionId : string) (maxSelections : nat)
    (now : N) (items items' : list PriorityVoting.PriorityItem) (t : string) :
  PriorityVoting.ranked items ->
  PriorityVoting.addItem questionId maxSelections now items t
  = PriorityVoting.Updated items' ->
  PriorityVoting.isSelected items' t = true /\
  PriorityVoting.removeItem items' t = PriorityVoting.Updated items.
Proof.
  intros Hr. unfold PriorityVoting.addItem.
  destruct (maxSelections <=? length items)%nat; [done|].
  destruct (PriorityVoting.isSelected items t) eqn:Hsel; [done|].
  intros [= <-]. split.
  - apply isSelected_texts. rewrite texts_app. apply elem_of_app. right.
    cbn. left.
  - unfold PriorityVoting.removeItem.
    rewrite filter_app, filter_unselected by done.
    rewrite filter_cons, filter_nil. cbn [PriorityVoting.text].
    rewrite decide_False by (intros H; by apply H).
    rewrite app_nil_r. by rewrite rerank_id.
Qed.

Lemma priority_add_then_remove_witness :
  PriorityVoting.removeItem
    (PriorityVoting.after example_selection
       (PriorityVoting.addItem "q3" 3 1762128001000 example_selection
          "시설 환경 개선"))
    "시설 환경 개선"
  = PriorityVoting.Updated example_selection.
Proof.
  refine (proj2 (priority_add_then_remove "q3" 3 1762128001000
                   example_selection _ "시설 환경 개선" _ _));
    reflexivity.
Defined.

(** X9: moving an item up and then down again restores the selection; moving
    an item up is the same as moving the one above it down. *)
Theorem priority_move_up_then_down
    (items : list PriorityVoting.PriorityItem) (j : nat) :
  PriorityVoting.ranked items -> (S j < length items)%nat ->
  exists moved : list PriorityVoting.PriorityItem,
    PriorityVoting.moveItem items (S j) PriorityVoting.up
    = PriorityVoting.Updated moved /\
    PriorityVoting.moveItem items j PriorityVoting.down
    = PriorityVoting.Updated moved /\
    PriorityVoting.texts moved !! j = PriorityVoting.texts items !! S j /\
    PriorityVoting.texts moved !! S j = PriorityVoting.texts items !! j /\
    PriorityVoting.moveItem moved j PriorityVoting.down
    = PriorityVoting.Updated items /\
    PriorityVoting.moveItem moved (S j) PriorityVoting.up
    = PriorityVoting.Updated items.
Proof.
  intros Hr Hlt.
  destruct (moveItem_swap items (S j) PriorityVoting.up Hlt)
    as [[_ [[_ ?]|[? _]]]|(j1 & pre & a & b & post & Hd & Hitems & Hlen & Hup)];
    [done | done |].
  destruct Hd as [[_ [= <-]]|[? _]]; [|done].
  destruct (moveItem_swap items j PriorityVoting.down ltac:(lia))
    as [[_ [[? _]|[_ ?]]]|(j2 & pre2 & a2 & b2 & post2 & Hd2 & Hitems2 & Hlen2
                             & Hdown)]; [done | lia |].
  destruct Hd2 as [[? _]|[_ <-]]; [done|].
  assert (pre2 = pre /\ a2 = a /\ b2 = b /\ post2 = post)
    as (-> & -> & -> & ->).
  { rewrite Hitems in Hitems2. apply app_inj_1 in Hitems2 as [-> Hrest];
      [|congruence]. by injection Hrest as -> -> ->. }
  set (moved := PriorityVoting.rerank (pre ++ b :: a :: post)) in *.
  assert (length moved = length items) as Hlm.
  { subst moved. rewrite rerank_length, Hitems, !length_app. done. }
  assert (PriorityVoting.core moved
          = PriorityVoting.core pre ++ PriorityVoting.core [b; a]
            ++ PriorityVoting.core post) as Hcore.
  { subst moved. rewrite core_rerank. unfold PriorityVoting.core.
    by rewrite fmap_app. }
  assert (forall dir i,
            (dir = PriorityVoting.up /\ i = S j \/
             dir = PriorityVoting.down /\ i = j) ->
            PriorityVoting.moveItem moved i dir
            = PriorityVoting.Updated items) as Hback.
  { intros dir i Hdi.
    assert (i < length moved)%nat as Hi
      by (destruct Hdi as [[_ ->]|[_ ->]]; lia).
    destruct (moveItem_swap moved i dir Hi)
      as [[_ Hret]|(j3 & pre3 & a3 & b3 & post3 & Hd3 & Hm & Hlen3 & ->)].
    { destruct Hdi as [[-> ->]|[-> ->]], Hret as [[? ?]|[? ?]];
        try done; lia. }
    assert (j3 = j) as -> by (destruct Hdi as [[-> ->]|[-> ->]],
                                Hd3 as [[? ?]|[? ?]]; try done; lia).
    f_equal. rewrite <- (rerank_id items Hr). apply rerank_core.
    assert (PriorityVoting.core (pre3 ++ a3 :: b3 :: post3)
            = PriorityVoting.core pre ++ PriorityVoting.core [b; a]
              ++ PriorityVoting.core post)
      as Hc by by rewrite <- Hm.
    unfold PriorityVoting.core in Hc |- *. rewrite !fmap_app in Hc. cbn in Hc.
    apply app_inj_1 in Hc as [Hpre Hrest];
      [|rewrite !length_fmap; congruence].
    injection Hrest as Ha1 Ha2 Hb1 Hb2 Hpost.
    rewrite Hitems, !fmap_app. cbn. rewrite Hpre, Hpost.
    by rewrite Ha1, Ha2, Hb1, Hb2. }
  exists moved. split; [done|]. split; [done|].
  assert (PriorityVoting.texts moved
          = PriorityVoting.texts pre
            ++ PriorityVoting.text b :: PriorityVoting.text a
               :: PriorityVoting.texts post)
    as Ht by (subst moved; by rewrite rerank_texts, texts_app).
  assert (length (PriorityVoting.texts pre) = j) as Hlp
    by (unfold PriorityVoting.texts; by rewrite length_fmap).
  assert (PriorityVoting.texts items
          = PriorityVoting.texts pre
            ++ PriorityVoting.text a :: PriorityVoting.text b
               :: PriorityVoting.texts post)
    as Hti by (rewrite Hitems; by rewrite texts_app).
  split; [|split; [|split]].
  - rewrite Ht, Hti, !lookup_app_r by lia.
    replace (j - length (PriorityVoting.texts pre))%nat with 0%nat by lia.
    replace (S j - length (PriorityVoting.texts pre))%nat with 1%nat by lia.
    done.
  - rewrite Ht, Hti, !lookup_app_r by lia.
    replace (j - length (PriorityVoting.texts pre))%nat with 0%nat by lia.
    replace (S j - length (PriorityVoting.texts pre))%nat with 1%nat by lia.
    done.
  - apply Hback. by right.
  - apply Hback. by left.
Qed.

Lemma priority_move_up_then_down_witness :
  exists moved : list PriorityVoting.PriorityItem,
    PriorityVoting.moveItem example_selection 1 PriorityVoting.up
    = PriorityVoting.Updated moved /\
    PriorityVoting.moveItem moved 0 PriorityVoting.down
    = PriorityVoting.Updated example_selection.
Proof.
  destruct (priority_move_up_then_down example_selection 0)
    as (moved & H1 & _ & _ & _ & H2 & _); [reflexivity | cbn; lia |].
  exists moved. split; [exact H1 | exact H2].
Defined.

(** ** The submission of a survey *)




(** A submission of two answers whose first write is rejected: the second
    answer is stored all the same, and the respondent is told that the
    submission failed. *)
Lemma handleSubmit_partial_write :
  let submitted :=
    handleSubmitWith (fun i => negb (Nat.eqb i 0)) two_questions
      example_answers example_survey_link "session-1" in
  (fun r => r !! "question_id") <$> fst submitted = [Some (Str "q2")] /\
  snd submitted = submit_failed /\
  submit_toast (snd submitted) = "응답 제출 중 오류가 발생했습니다.".
Proof. vm_compute. repeat split; reflexivity. Qed.

(** ** The chart data of the statistics *)

Lemma loadStats_chartData (questionsCount responsesCount : nat)
    (responses : list Response.t) (questions : list Question.t) :
  let st := loadStats questionsCount responsesCount responses questions in
  chartData st
  = (fun '(type, count) =>
       {| chart_respondent_type := type;
          average_score := averageRating st;
          response_count := count |})
      <$> map_to_list (responsesByType st).
Proof. unfold loadStats. by destruct (foldl addRating _ _). Qed.

Lemma sum_counts_bump (m : gmap string nat) (k : string) :
  sum_list (snd <$> map_to_list (bump m k))
  = S (sum_list (snd <$> map_to_list m)).
Proof.
  unfold bump.
  destruct (m !! k) as [n|] eqn:E.
  - rewrite <- (insert_delete_eq m k (S (default 0%nat (Some n)))).
    rewrite map_to_list_insert by apply lookup_delete_eq.
    rewrite <- (map_to_list_delete m k n E). cbn. lia.
  - rewrite map_to_list_insert by done. cbn. lia.
Qed.

Lemma sum_counts_countByType {A} (key : A -> string) (xs : list A) :
  sum_list (snd <$> map_to_list (countByType key xs)) = length xs.
Proof.
  induction xs as [|x xs IH] using rev_ind.
  - unfold countByType. cbn. by rewrite map_to_list_empty.
  - rewrite countByType_snoc, sum_counts_bump, IH, length_app. cbn. lia.
Qed.

(** X11: for responses whose respondent types are plain keys, the chart
    has one entry for each respondent type that has a response, with the
    number of its responses; the counts add up to the number of
    responses; and every entry carries the overall average, not an
    average of its own type. *)
Theorem loadStats_chart (questionsCount responsesCount : nat)
    (responses : list Response.t) (questions : list Question.t) :
  plain_keys Response.respondent_type responses = true ->
  let st := loadStats questionsCount responsesCount responses questions in
  (forall d, d ∈ chartData st ->
     average_score d = averageRating st /\
     response_count d
     = length (filter (fun r => Response.respondent_type r
                                = chart_respondent_type d) responses) /\
     (1 <= response_count d)%nat) /\
  (forall r, r ∈ responses ->
     exists d, d ∈ chartData st /\
               chart_respondent_type d = Response.respondent_type r) /\
  NoDup (chart_respondent_type <$> chartData st) /\
  sum_list (response_count <$> chartData st) = length responses.
Proof.
  intros _ st. subst st. rewrite loadStats_chartData.
  rewrite loadStats_responsesByType.
  set (avg := averageRating _). clearbody avg.
  set (typeCount := countByType Response.respondent_type responses).
  split; [|split; [|split]].
  - intros d ([type count] & -> & Hin)%list_elem_of_fmap.
    apply elem_of_map_to_list in Hin. cbn. split; [done|].
    subst typeCount. rewrite countByType_lookup in Hin.
    destruct (length (filter _ responses)) as [|n]; [done|].
    injection Hin as <-. split; [done|lia].
  - intros r Hr.
    destruct (typeCount !! Response.respondent_type r) as [n|] eqn:E.
    + exists {| chart_respondent_type := Response.respondent_type r;
                average_score := avg; response_count := n |}.
      split; [|done]. apply list_elem_of_fmap.
      exists (Response.respondent_type r, n). split; [done|].
      by apply elem_of_map_to_list.
    + by destruct (countByType_None _ _ _ E r Hr).
  - rewrite <- list_fmap_compose.
    replace (_ <$> map_to_list typeCount) with (fst <$> map_to_list typeCount);
      [apply NoDup_fst_map_to_list|].
    apply list_eq. intros i. rewrite !list_lookup_fmap.
    by destruct (map_to_list typeCount !! i) as [[type count]|].
  - rewrite <- list_fmap_compose.
    replace (_ <$> map_to_list typeCount) with (snd <$> map_to_list typeCount);
      [apply sum_counts_countByType|].
    apply list_eq. intros i. rewrite !list_lookup_fmap.
    by destruct (map_to_list typeCount !! i) as [[type count]|].
Qed.

Lemma loadStats_chart_witness :
  sum_list
    (response_count
       <$> chartData (loadStats 2 10 ten_responses two_questions))
  = 10%nat.
Proof.
  exact (proj2 (proj2 (proj2 (loadStats_chart 2 10 ten_responses
                                two_questions eq_refl)))).
Defined.

(** ** The average of response values *)

Lemma numericValues_ratings (responses : list string) :
  filter (fun n => in_rating_range n = true) (parseInt <$> responses)
  = Some <$> omap rating_value responses.
Proof.
  induction responses as [|v vs IH]; [done|].
  rewrite fmap_cons, filter_cons, omap_cons, rating_value_in_range.
  destruct (in_rating_range (parseInt v)) eqn:E.
  - rewrite decide_True by done.
    destruct (parseInt v); [|done]. by rewrite fmap_cons, IH.
  - by rewrite decide_False.
Qed.

Lemma calculateAverageFromResponses_ratings (responses : list string) :
  calculateAverageFromResponses responses
  = match omap rating_value responses with
    | [] => JS.zero
    | rs => JS.div (JS.of_Z (sum rs)) (JS.of_nat (length rs))
    end.
Proof.
  unfold calculateAverageFromResponses.
  rewrite numericValues_ratings, length_fmap, foldl_sum_Some.
  destruct (omap rating_value responses) as [|x l]; [done|].
  by rewrite decide_False.
Qed.

(** X12: the average depends on the valid ratings only, not on their order
    and not on the other values: two lists with the same ratings have the
    same average, and a list without a rating has the average 0. *)
Theorem calculateAverageFromResponses_invariance (l1 l2 : list string) :
  omap rating_value l1 ≡ₚ omap rating_value l2 ->
  calculateAverageFromResponses l1 = calculateAverageFromResponses l2 /\
  (omap rating_value l1 = [] -> calculateAverageFromResponses l1 = JS.zero) /\
  calculateAverageFromResponses
    (filter (fun v => is_Some (rating_value v)) l1)
  = calculateAverageFromResponses l1.
Proof.
  intros Hperm. rewrite !calculateAverageFromResponses_ratings.
  split; [|split].
  - pose proof (sum_Permutation _ _ Hperm) as Hsum.
    pose proof (Permutation_length Hperm) as Hlen.
    destruct (omap rating_value l1) as [|x1 r1],
             (omap rating_value l2) as [|x2 r2]; try done.
    cbv zeta. by rewrite Hsum, Hlen.
  - by intros ->.
  - replace (omap rating_value (filter _ l1)) with (omap rating_value l1);
      [done|].
    clear Hperm. induction l1 as [|v l IH]; [done|].
    rewrite filter_cons, omap_cons.
    destruct (rating_value v) as [n|] eqn:E.
    + rewrite decide_True by done. by rewrite omap_cons, E, IH.
    + rewrite decide_False by (by intros [? ?]). done.
Qed.

Lemma calculateAverageFromResponses_invariance_witness :
  calculateAverageFromResponses ["5"; "매우 만족"; "3"]
  = calculateAverageFromResponses ["3"; "5"].
Proof.
  apply (calculateAverageFromResponses_invariance
           ["5"; "매우 만족"; "3"] ["3"; "5"]).
  vm_compute. apply perm_swap.
Defined.

(** The quotient of two normal numbers is the rounding of the integer
    quotient of their mantissas, the dividend's shifted by 53 bits. *)
Lemma div_normal (mx my : positive) (ex ey : Z) :
  2 ^ 52 <= Z.pos mx < 2 ^ 53 -> 2 ^ 52 <= Z.pos my < 2 ^ 53 ->
  -1074 <= ex - ey - 53 ->
  exists q r : Z,
    Z.pos mx * 2 ^ 53 = Z.pos my * q + r /\ 0 <= r < Z.pos my /\
    JS.div (S754_finite false mx ex) (S754_finite false my ey)
    = binary_round_aux 53 1024 false q (ex - ey - 53)
        (new_location (Z.pos my) r).
Proof.
  intros Hmx Hmy He.
  assert (Z.pos (digits2_pos mx) = 53) as Hdx
    by (apply digits2_pos_unique; lia).
  assert (Z.pos (digits2_pos my) = 53) as Hdy
    by (apply digits2_pos_unique; lia).
  unfold JS.div, SFdiv, SFdiv_core_binary, JS.prec, JS.emax.
  cbn [Zdigits2 xorb]. rewrite Hdx, Hdy.
  rewrite fexp_normal by lia. rewrite Z.min_l by lia.
  replace (ex - ey - (53 + ex - (53 + ey) - 53)) with 53 by lia.
  replace (53 + ex - (53 + ey) - 53) with (ex - ey - 53) by lia.
  cbv beta iota.
  rewrite Z.shiftl_mul_pow2 by lia.
  destruct (div_eucl_spec (Z.pos mx * 2 ^ 53) (Z.pos my))
    as (q & r & -> & Hq & Hr); [lia|].
  by exists q, r.
Qed.

(** The quotient of a sum of [n] ratings by [n] lies between 1 and 5. *)
Lemma div_rating_range (s n : positive) :
  (n <= s)%positive -> Z.pos s <= 5 * Z.pos n -> Z.pos s < 2 ^ 53 ->
  exists (m : positive) (e : Z),
    JS.div (JS.of_Z (Z.pos s)) (JS.of_Z (Z.pos n)) = S754_finite false m e /\
    2 ^ 52 <= Z.pos m < 2 ^ 53 /\ -52 <= e /\
    (e < -50 \/ (e = -50 /\ Z.pos m <= 5 * 2 ^ 50)).
Proof.
  intros Hns Hs5 Hbig.
  pose proof (digits2_pos_le n s Hns) as Hdig.
  pose proof (digits2_pos_bounds s) as [Slo Shi].
  pose proof (digits2_pos_bounds n) as [Nlo Nhi].
  pose proof (digits2_pos_small s Hbig) as Hds.
  destruct (of_Z_normal s) as (ms & -> & Hms); [lia|].
  destruct (of_Z_normal n) as (mn & -> & Hmn); [lia|].
  set (ds := Z.pos (digits2_pos s)) in *.
  set (dn := Z.pos (digits2_pos n)) in *.
  assert (0 < ds) by (subst ds; lia). assert (0 < dn) by (subst dn; lia).
  assert (ds <= dn + 3) as Hd3.
  { destruct (Z.leb_spec ds (dn + 3)); [done|].
    assert (2 ^ (dn + 3) <= 2 ^ (ds - 1)) by (apply Z.pow_le_mono_r; lia).
    rewrite Z.pow_add_r in * by lia. lia. }
  assert (2 ^ 53 = 2 ^ ds * 2 ^ (53 - ds)) as Es53
    by (rewrite <- Z.pow_add_r by lia; f_equal; lia).
  assert (2 ^ 52 = 2 ^ (ds - 1) * 2 ^ (53 - ds)) as Es52
    by (rewrite <- Z.pow_add_r by lia; f_equal; lia).
  assert (2 ^ 53 = 2 ^ dn * 2 ^ (53 - dn)) as En53
    by (rewrite <- Z.pow_add_r by lia; f_equal; lia).
  assert (2 ^ 52 = 2 ^ (dn - 1) * 2 ^ (53 - dn)) as En52
    by (rewrite <- Z.pow_add_r by lia; f_equal; lia).
  assert (0 < 2 ^ (53 - ds)) by (apply Z.pow_pos_nonneg; lia).
  assert (0 < 2 ^ (53 - dn)) by (apply Z.pow_pos_nonneg; lia).
  assert (2 ^ 52 <= Z.pos ms < 2 ^ 53) as Hmsb
    by (rewrite Hms, Es52, Es53; nia).
  assert (2 ^ 52 <= Z.pos mn < 2 ^ 53) as Hmnb
    by (rewrite Hmn, En52, En53; nia).
  set (k := ds - dn) in *.
  assert (0 <= k <= 3) as Hk by (subst k; lia).
  assert (2 ^ (53 - dn) = 2 ^ k * 2 ^ (53 - ds)) as Ek
    by (rewrite <- Z.pow_add_r by lia; f_equal; lia).
  (* the ratings' bounds on the mantissas *)
  assert (0 < 2 ^ k) by (apply Z.pow_pos_nonneg; lia).
  assert (Z.pos mn <= Z.pos ms * 2 ^ k) as Hlow.
  { rewrite Hms, Hmn, Ek.
    replace (Z.pos s * 2 ^ (53 - ds) * 2 ^ k)
      with (Z.pos s * (2 ^ k * 2 ^ (53 - ds))) by ring.
    apply Z.mul_le_mono_nonneg_r; lia. }
  assert (Z.pos ms * 2 ^ k <= 5 * Z.pos mn) as Hhigh.
  { rewrite Hms, Hmn, Ek.
    replace (Z.pos s * 2 ^ (53 - ds) * 2 ^ k)
      with (Z.pos s * (2 ^ k * 2 ^ (53 - ds))) by ring.
    replace (5 * (Z.pos n * (2 ^ k * 2 ^ (53 - ds))))
      with (5 * Z.pos n * (2 ^ k * 2 ^ (53 - ds))) by ring.
    apply Z.mul_le_mono_nonneg_r; lia. }
  destruct (div_normal ms mn (ds - 53) (dn - 53) Hmsb Hmnb)
    as (q & r & Hq & Hr & ->); [lia|].
  replace (ds - 53 - (dn - 53) - 53) with (k - 53) by lia.
  clear Hms Hmn Es53 Es52 En53 En52 Ek Slo Shi Nlo Nhi Hdig Hds Hd3.
  clearbody k. clear ds dn H H0 H1 H2 H3.
  assert (2 ^ 52 <= q < 2 ^ 54) as Hqb by nia.
  destruct (decide (Z.pos ms * 2 ^ k = 5 * Z.pos mn)) as [Hfive|Hnot].
  { (* the quotient is 5 exactly *)
    assert (r = 0 /\ (k = 2 /\ q = 5 * 2 ^ 51 \/ k = 3 /\ q = 5 * 2 ^ 50))
      as [-> Hcase].
    { assert (k = 0 \/ k = 1 \/ k = 2 \/ k = 3) as [->|[->|[->| ->]]] by lia;
        cbn in Hfive; [lia | lia | |].
      - assert (q = 5 * 2 ^ 51) by nia. split; [nia|]. by left.
      - assert (q = 5 * 2 ^ 50) by nia. split; [nia|]. by right. }
    rewrite new_location_exact.
    exists 5629499534213120%positive, (-50).
    split; [|split; [done|split; [done|by right]]].
    destruct Hcase as [[-> ->]|[-> ->]]; vm_compute; reflexivity. }
  assert (Z.pos ms * 2 ^ k < 5 * Z.pos mn) as Hlt by lia.
  destruct q as [|pq|pq]; [lia| |lia].
  pose proof (digits2_pos_bounds pq) as [Blo Bhi].
  set (d := Z.pos (digits2_pos pq)) in *.
  assert (d = 53 \/ d = 54) as Hd.
  { assert (53 <= d <= 54); [|lia]. split.
    - destruct (Z.ltb_spec d 53); [|done].
      assert (2 ^ d <= 2 ^ 52) by (apply Z.pow_le_mono_r; lia). lia.
    - destruct (Z.ltb_spec 54 d); [|done].
      assert (2 ^ 54 <= 2 ^ (d - 1)) by (apply Z.pow_le_mono_r; lia). lia. }
  destruct (binary_round_aux_normal false pq (k - 53)
              (new_location (Z.pos mn) r))
    as (m' & e' & -> & Hm' & Hcases & _); [fold d; lia | fold d; lia |].
  fold d in Hcases.
  assert (e' <= 971) as He' by lia.
  apply Z.leb_le in He'. rewrite He'.
  exists m', e'. split; [done|]. split; [done|].
  assert (k = 0 -> d = 54) as Hk0.
  { intros ->. rewrite Z.mul_1_r in Hlow.
    assert (2 ^ 53 <= Z.pos pq) by nia.
    destruct Hd as [Hd|Hd]; [|done]. rewrite Hd in Bhi. lia. }
  split; [lia|].
  assert (k = 0 \/ k = 1 \/ k = 2 \/ k = 3) as Hk4 by lia.
  destruct Hd as [Hd|Hd]; rewrite Hd in *.
  - change (2 ^ (53 - 53)) with 1 in Hcases. rewrite Z.div_1_r in Hcases.
    destruct Hk4 as [->|[->|[->| ->]]]; [lia | lia | lia |].
    change (2 ^ 3) with 8 in *.
    assert (Z.pos pq < 5 * 2 ^ 50) by nia. lia.
  - change (2 ^ (54 - 53)) with 2 in Hcases.
    destruct Hk4 as [->|[->|[->| ->]]]; [lia | lia | |].
    + change (2 ^ 2) with 4 in *.
      assert (Z.pos pq < 5 * 2 ^ 51) by nia.
      assert (Z.pos pq / 2 < 5 * 2 ^ 50)
        by (apply Z.div_lt_upper_bound; lia).
      lia.
    + change (2 ^ 3) with 8 in *.
      assert (2 ^ 53 <= Z.pos pq) by lia. nia.
Qed.


Lemma rating_value_bounds (v : string) (n : Z) :
  rating_value v = Some n -> 1 <= n <= 5.
Proof.
  unfold rating_value. destruct (parseInt v) as [z|]; [|done].
  destruct ((1 <=? z) && (z <=? 5)) eqn:E; [|done]. intros [= <-].
  apply andb_prop in E as [?%Z.leb_le ?%Z.leb_le]. lia.
Qed.

Lemma sum_bounds (rs : list Z) :
  Forall (fun n => 1 <= n <= 5) rs ->
  Z.of_nat (length rs) <= sum rs <= 5 * Z.of_nat (length rs).
Proof.
  unfold sum. induction 1 as [|n rs Hn _ IH]; cbn [foldr length]; lia.
Qed.

Lemma SFleb_finite (m1 m2 : positive) (e1 e2 : Z) :
  e1 < e2 \/ (e1 = e2 /\ Z.pos m1 <= Z.pos m2) ->
  SFleb (S754_finite false m1 e1) (S754_finite false m2 e2) = true.
Proof.
  intros H. unfold SFleb, SFcompare.
  destruct (Z.compare_spec e1 e2) as [->| |]; [|done|lia].
  rewrite Pos.compare_cont_spec.
  destruct (Pos.compare_spec m1 m2); [done|done|lia].
Qed.

(** The mean of ratings, as the number the division yields, lies between
    1 and 5. *)
Lemma mean_of_ratings_range (rs : list Z) :
  Forall (fun n => 1 <= n <= 5) rs -> rs <> [] ->
  Z.of_nat (length rs) < 2 ^ 50 ->
  let a := JS.div (JS.of_Z (sum rs)) (JS.of_nat (length rs)) in
  JS.le JS.one a = true /\ JS.le a (JS.of_Z 5) = true.
Proof.
  intros Hall Hne Hlen a. subst a.
  pose proof (sum_bounds rs Hall) as [Hlo Hhi].
  assert (0 < Z.of_nat (length rs)) by (destruct rs; [done|cbn; lia]).
  unfold JS.of_nat.
  destruct (Z.of_nat (length rs)) as [|n|n] eqn:En; [lia| |lia].
  destruct (sum rs) as [|s|s] eqn:Es; [lia| |lia].
  destruct (div_rating_range s n) as (m & e & -> & Hm & He & Hcase);
    [lia | lia | lia |].
  change (JS.of_Z 5) with (S754_finite false 5629499534213120 (-50)).
  unfold JS.le, JS.one. split; apply SFleb_finite; lia.
Qed.

(** X13: an average of response values is 0, when there is no rating among
    them, or a number from 1 to 5; so is the average rating of the
    statistics.  (An array has fewer than 2^32 elements.) *)
Theorem average_rating_range (values : list string)
    (questionsCount responsesCount : nat) (responses : list Response.t)
    (questions : list Question.t) :
  Z.of_nat (length values) < 2 ^ 32 ->
  Z.of_nat (length responses) < 2 ^ 32 ->
  let in_range (a : JS.number) :=
    a = JS.zero \/ JS.le JS.one a = true /\ JS.le a (JS.of_Z 5) = true in
  in_range (calculateAverageFromResponses values) /\
  in_range
    (averageRating
       (loadStats questionsCount responsesCount responses questions)) /\
  (calculateAverageFromResponses values = JS.zero
   <-> omap rating_value values = []).
Proof.
  intros Hv Hr in_range. subst in_range. cbv beta.
  assert (forall A (f : A -> option Z) (l : list A),
            (forall x n, f x = Some n -> 1 <= n <= 5) ->
            Z.of_nat (length l) < 2 ^ 32 ->
            Forall (fun n => 1 <= n <= 5) (omap f l) /\
            Z.of_nat (length (omap f l)) < 2 ^ 50) as Homap.
  { intros A f l Hf Hl. split.
    - apply Forall_forall. intros n (x & _ & Hx)%list_elem_of_omap. eauto.
    - assert (length (omap f l) <= length l)%nat; [|lia].
      clear. induction l as [|x l IH]; [done|]. rewrite omap_cons.
      destruct (f x); cbn; lia. }
  rewrite calculateAverageFromResponses_ratings, loadStats_averageRating.
  destruct (Homap _ rating_value values rating_value_bounds Hv)
    as [Hall1 Hlen1].
  destruct (Homap _ (fun r => Response.response_value r ≫= rating_value)
              responses) as [Hall2 Hlen2]; [|done|].
  { intros r n. destruct (Response.response_value r) as [v|]; [|done].
    apply rating_value_bounds. }
  fold (ratings responses) in Hall2, Hlen2.
  split; [|split].
  - destruct (omap rating_value values) as [|x l] eqn:E; [by left|].
    right. by apply mean_of_ratings_range.
  - destruct (ratings responses) as [|x l] eqn:E; [by left|].
    right. by apply mean_of_ratings_range.
  - destruct (omap rating_value values) as [|x l] eqn:E; [done|].
    split; [|done]. intros Hzero.
    destruct (mean_of_ratings_range (x :: l)) as [H1 _]; [done..|].
    cbv zeta in H1, Hzero. rewrite Hzero in H1. done.
Qed.

Lemma average_rating_range_witness :
  (calculateAverageFromResponses ["5"; "4"] = JS.zero \/
   JS.le JS.one (calculateAverageFromResponses ["5"; "4"]) = true /\
   JS.le (calculateAverageFromResponses ["5"; "4"]) (JS.of_Z 5) = true) /\
  (calculateAverageFromResponses ["5"; "4"] = JS.zero
   <-> omap rating_value ["5"; "4"] = []).
Proof.
  destruct (average_rating_range ["5"; "4"] 2 10 ten_responses two_questions)
    as (H1 & _ & H3); [reflexivity | reflexivity |].
  split; [exact H1 | exact H3].
Defined.

(** ** The span the parser takes *)

Lemma through_last_close_split (s m : string) :
  through_last_close s = Some m ->
  exists mid post : string,
    s = (mid ++ String "}" post)%string /\ lacks "}" post = true /\
    m = (mid ++ String "}" EmptyString)%string.
Proof.
  revert m. induction s as [|c r IH]; cbn; [done|]. intros m.
  destruct (through_last_close r) as [m'|] eqn:E.
  - intros [= <-]. destruct (IH m' eq_refl) as (mid & post & -> & Hpost & ->).
    by exists (String c mid), post.
  - destruct (Ascii.eqb_spec c "}") as [->|]; [|done].
    intros [= <-]. exists EmptyString, r. split; [done|]. split; [|done].
    clear IH. induction r as [|d r IH]; [done|]. cbn in E |- *.
    destruct (through_last_close r); [done|].
    destruct (Ascii.eqb d "}"); [done|]. by rewrite IH.
Qed.

(** X14: a match, when there is one, runs from the first opening brace of the
    text to the last closing brace of the text, whatever lies between. *)
Theorem regex_match_first_to_last (s m : string) :
  regex_match s = Some m
  <-> exists pre body post : string,
        s = (pre ++ String "{" (body ++ String "}" post))%string /\
        lacks "{" pre = true /\ lacks "}" post = true /\
        m = String "{" (body ++ String "}" EmptyString).
Proof.
  split.
  - induction s as [|c r IH]; cbn; [done|].
    destruct (Ascii.eqb_spec c "{") as [->|Hc].
    + destruct (through_last_close r) as [m'|] eqn:E.
      * intros [= <-].
        destruct (through_last_close_split _ _ E)
          as (mid & post & -> & Hp & ->).
        by exists EmptyString, mid, post.
      * intros Hm.
        destruct (IH Hm) as (pre & body & post & -> & _).
        destruct (through_last_close_None _ (pre ++ String "{" body) post E).
        by rewrite append_assoc, append_cons.
    + intros Hm.
      destruct (IH Hm) as (pre & body & post & -> & Hpre & Hpost & ->).
      exists (String c pre), body, post. split; [done|]. split; [|done].
      cbn. rewrite Hpre. by destruct (Ascii.eqb_spec c "{").
  - intros (pre & body & post & -> & Hpre & Hpost & ->).
    by apply regex_match_span.
Qed.

(** ** What the callables return *)

(** X15: what a successful analysis tells: the request named an existing
    project by a non-empty string, the project has a response, the model's
    text had a span that parsed, and the statistics count the responses of
    that project. *)
Theorem analyzeResponses_success (JSON_parse : string -> throws json)
    (db : Firestore) (data : gmap string value) (generated : throws string)
    (r : Functions.AnalysisResponse) :
  analyzeResponses JSON_parse db data generated = ret r ->
  exists (p text span : string),
    field data "projectId" = Str p /\ p <> EmptyString /\
    is_Some (projects db !! p) /\
    generated = ret text /\ regex_match text = Some span /\
    JSON_parse span = ret (Functions.analysis r) /\
    Functions.analysis_success r = true /\
    let stats := Functions.analysis_statistics r in
    let mine := whereProject id (Str p) (responses db) in
    Functions.totalResponses stats = length mine /\
    (1 <= Functions.totalResponses stats)%nat /\
    Functions.textResponses stats
    = length (filter (fun d => truthy (field d "text_response") = true) mine) /\
    Functions.ratingResponses stats
    = length (filter (fun d => not_null (field d "rating_response") = true)
                mine).
Proof.
  unfold analyzeResponses, try_catch_rethrow.
  destruct (truthy (field data "projectId")) eqn:Hid; [|done].
  match goal with
  | |- match ?body with _ => _ end = _ -> _ =>
      destruct body as [e|res] eqn:Hbody; [done|]
  end.
  intros [= ->]. revert Hbody. unfold getDoc.
  destruct (field data "projectId") as [| | | |p|] eqn:Hp; try done.
  destruct (truthy_string p) eqn:Htp; [|done].
  unfold bind, ret, throw.
  case_bool_decide as Hproj; [|done].
  case_bool_decide as Hresp; [done|]. cbn [negb].
  destruct generated as [e|text]; [done|].
  unfold parseStructuredOutput.
  destruct (regex_match text) as [span|] eqn:Hspan; [|done].
  destruct (JSON_parse span) as [e|analysis] eqn:Hparse; [done|].
  intros [= <-]. exists p, text, span. cbn.
  split; [done|]. split; [by destruct p|]. repeat (split; [done|]).
  split; [|split].
  - destruct (whereProject id (Str p) (responses db)); [done|]. cbn. lia.
  - unfold textResponses. by rewrite length_fmap.
  - unfold ratingResponses. by rewrite length_fmap.
Qed.

Lemma analyzeResponses_success_witness :
  match
    analyzeResponses RefJSON.parse example_db {[ "projectId" := Str "p1" ]}
      (ret ("Here is the report: "
            ++ example_stringify example_payload)%string)
  with
  | inr r =>
      Functions.totalResponses (Functions.analysis_statistics r) = 10%nat
  | inl _ => False
  end.
Proof.
  destruct (analyzeResponses RefJSON.parse example_db
              {[ "projectId" := Str "p1" ]}
              (ret ("Here is the report: "
            ++ example_stringify example_payload)%string))
    as [e|r] eqn:E.
  - vm_compute in E. discriminate E.
  - destruct (analyzeResponses_success _ _ _ _ r E)
      as (p & text & span & Hp & _ & _ & _ & _ & _ & _ & Htotal & _).
    rewrite Htotal. vm_compute in Hp. injection Hp as <-.
    vm_compute. reflexivity.
Defined.

Lemma or_else_truthy (v : option json) (d : json) :
  json_truthy (Some d) = true -> json_truthy (Some (or_else v d)) = true.
Proof.
  intros Hd. unfold or_else. destruct v as [x|]; [|done].
  by destruct (json_truthy (Some x)) eqn:E.
Qed.

Lemma truthy_string_append (a : string) (c : ascii) (b : string) :
  truthy_string (a ++ String c b) = true.
Proof. by destruct a. Qed.

(** The shape of a returned report. *)
Lemma generateReport_inv (JSON_parse : string -> throws json)
    (db : Firestore) (data : gmap string value) (now : string)
    (generated : throws string) (r : Functions.ReportResponse) :
  generateReport JSON_parse db data now generated = ret r ->
  exists (p sid text span : string) (project : gmap string value)
         (reportData : json) (title sections : option json),
    field data "projectId" = Str p /\ truthy_string p = true /\
    projects db !! p = Some project /\
    field project "school_id" = Str sid /\ truthy_string sid = true /\
    generated = ret text /\ regex_match text = Some span /\
    JSON_parse span = ret reportData /\
    prop reportData "title" = ret title /\
    prop reportData "sections" = ret sections /\
    r = {| Functions.success := true;
           Functions.report :=
             {| Functions.title :=
                  or_else title
                    (JStr (school_name_or (schools db !! sid) EmptyString
                           ++ " 학교 평가 보고서"));
                Functions.generatedAt := now;
                Functions.sections := or_else sections (JArr []);
                Functions.statistics :=
                  {| Functions.report_totalResponses :=
                       length (whereProject id (Str p) (responses db));
                     Functions.completionRate :=
                       reportCompletionRate
                         (length (whereProject id (Str p) (responses db)))
                         (length (whereProject snd (Str p) (questions db)))
                  |} |} |}.
Proof.
  unfold generateReport, try_catch_rethrow.
  destruct (truthy (field data "projectId")) eqn:Hid; [|done].
  match goal with
  | |- match ?body with _ => _ end = _ -> _ =>
      destruct body as [e|res] eqn:Hbody; [done|]
  end.
  intros [= ->]. revert Hbody. unfold getDoc.
  destruct (field data "projectId") as [| | | |p|] eqn:Hp; try done.
  destruct (truthy_string p) eqn:Htp; [|done].
  unfold bind, ret, throw.
  case_bool_decide as Hproj; [|done].
  destruct Hproj as [project Hproj]. rewrite Hproj.
  change (default ∅ (Some project)) with project.
  destruct (field project "school_id") as [| | | |sid|] eqn:Hsid; try done.
  destruct (truthy_string sid) eqn:Htsid; [|done].
  destruct generated as [e|text]; [done|].
  unfold parseStructuredOutput.
  destruct (regex_match text) as [span|] eqn:Hspan; [|done].
  destruct (JSON_parse span) as [e|reportData] eqn:Hparse; [done|].
  destruct (prop reportData "title") as [e|title] eqn:Htitle; [done|].
  destruct (prop reportData "sections") as [e|sections] eqn:Hsections; [done|].
  intros [= <-].
  exists p, sid, text, span, project, reportData, title, sections.
  by rewrite Htitle, Hsections.
Qed.



(** ** The report view after a call *)

Lemma prop_not_null (s : json) (k : string) :
  is_null s = false -> exists v, prop s k = ret v.
Proof. destruct s; try done; eauto. Qed.

Lemma mapSections_ok (index : nat) (items : list json) :
  existsb is_null items = false ->
  exists secs,
    ReportGenerator.mapSections index items = ret secs /\
    ReportGenerator.id <$> secs
    = (fun i => pretty (S i)) <$> seq index (length items).
Proof.
  revert index. induction items as [|s items IH]; intros index Hnull.
  - by exists [].
  - cbn in Hnull. apply orb_false_elim in Hnull as [Hs Hitems].
    destruct (IH (S index) Hitems) as (more & Hmore & Hids).
    destruct (prop_not_null s "title" Hs) as [t Ht].
    destruct (prop_not_null s "content" Hs) as [c Hc].
    eexists. cbn [ReportGenerator.mapSections]. rewrite Ht, Hc. cbn.
    rewrite Hmore. cbn.
    split; [done|]. cbn. by rewrite Hids.
Qed.

Lemma mapSections_null (index : nat) (items : list json) :
  existsb is_null items = true ->
  ReportGenerator.mapSections index items
  = throw (TypeError "Cannot read properties of null (reading 'title')").
Proof.
  revert index. induction items as [|s items IH]; intros index Hnull; [done|].
  cbn in Hnull. destruct (is_null s) eqn:Hs.
  - by destruct s.
  - destruct (prop_not_null s "title" Hs) as [t Ht].
    destruct (prop_not_null s "content" Hs) as [c Hc].
    cbn [ReportGenerator.mapSections]. rewrite Ht, Hc. cbn. by rewrite IH.
Qed.

Lemma sectionsOf_throws (sections : json) (e : JsError) :
  ReportGenerator.sectionsOf sections = throw e ->
  e = TypeError "Cannot read properties of null (reading 'title')" \/
  e = TypeError "(reportData.sections || []).map is not a function".
Proof.
  unfold ReportGenerator.sectionsOf.
  destruct (or_else (Some sections) (JArr [])) as [| | | |items|] eqn:E;
    try (intros [= <-]; by right).
  destruct (existsb is_null items) eqn:Hnull.
  - rewrite mapSections_null by done. intros [= <-]. by left.
  - destruct (mapSections_ok 0 items Hnull) as (secs & -> & _). done.
Qed.

(** X17: the sections of the view: an array without a null element gives as
    many sections, numbered from 1 in order; a null element, or a truthy
    value that is not an array, makes the mapping throw; a falsy value
    gives no section. *)
Theorem sectionsOf_outcome (sections : json) :
  match sections with
  | JArr items =>
      if existsb is_null items
      then exists e, ReportGenerator.sectionsOf sections = throw e /\
                     name e = "TypeError"
      else exists secs,
             ReportGenerator.sectionsOf sections = ret secs /\
             length secs = length items /\
             ReportGenerator.id <$> secs
             = (fun i => pretty (S i)) <$> seq 0 (length items)
  | _ =>
      if json_truthy (Some sections)
      then exists e, ReportGenerator.sectionsOf sections = throw e /\
                     name e = "TypeError"
      else ReportGenerator.sectionsOf sections = ret []
  end.
Proof.
  destruct sections as [|b|n|s|items|fields];
    unfold ReportGenerator.sectionsOf, or_else.
  - done.
  - destruct b; cbn; eauto.
  - cbn [json_truthy]. destruct (JS.truthy n); cbn; eauto.
  - cbn [json_truthy]. destruct (truthy_string s); cbn; eauto.
  - cbn [json_truthy]. destruct (existsb is_null items) eqn:Hnull.
    + rewrite mapSections_null by done. eauto.
    + destruct (mapSections_ok 0 items Hnull) as (secs & Hsecs & Hids).
      exists secs. split; [done|]. split; [|done].
      apply (f_equal length) in Hids.
      by rewrite !length_fmap, length_seq in Hids.
  - cbn. eauto.
Qed.

(** X18: server and client together, when the server function returns a
    report and the transport refuses a completion rate that is not finite.
    For a project without questions the rate is not finite, the call is
    rejected with INTERNAL, and the view keeps the report it held and
    shows that error.  When the report is encoded, the view shows it, with
    the server's title, the time of the call and the number of responses
    of the project, exactly when its sections can be mapped; otherwise
    the view keeps the report it held and shows an error, although the
    server succeeded. *)
Theorem report_view_after_success (JSON_parse : string -> throws json)
    (encodes : Functions.ReportResponse -> bool)
    (db : Firestore) (data : gmap string value) (generated : throws string)
    (schoolItem : option string) (now : string) (thisYear : Z)
    (prior : ReportGenerator.State) (r : Functions.ReportResponse) :
  generateReport JSON_parse db data now generated = ret r ->
  (encodes r = true ->
   JS.isFinite
     (Functions.completionRate (Functions.statistics (Functions.report r)))
   = true) ->
  let st :=
    reportPipeline JSON_parse encodes db data generated schoolItem now
      thisYear prior in
  ReportGenerator.loading st = false /\
  (whereProject snd (field data "projectId") (questions db) = [] ->
   encodes r = false) /\
  if encodes r then
    match
      ReportGenerator.sectionsOf (Functions.sections (Functions.report r))
    with
    | inr secs =>
        ReportGenerator.error st = None /\
        ReportGenerator.toasts st
        = ReportGenerator.toasts prior
          ++ [ReportGenerator.toast_success "보고서가 생성되었습니다!"] /\
        exists g,
          ReportGenerator.report st = Some g /\
          ReportGenerator.report_title g
          = Functions.title (Functions.report r) /\
          ReportGenerator.report_sections g = secs /\
          ReportGenerator.generatedAt (ReportGenerator.metadata g) = now /\
          ReportGenerator.totalResponses (ReportGenerator.metadata g)
          = length (whereProject id (field data "projectId") (responses db))
    | inl e =>
        ReportGenerator.report st = ReportGenerator.report prior /\
        ReportGenerator.error st = Some (message e) /\
        ReportGenerator.toasts st
        = ReportGenerator.toasts prior
          ++ [ReportGenerator.toast_error (message e)]
    end
  else
    ReportGenerator.report st = ReportGenerator.report prior /\
    ReportGenerator.error st = Some "INTERNAL" /\
    ReportGenerator.toasts st
    = ReportGenerator.toasts prior ++ [ReportGenerator.toast_error "INTERNAL"].
Proof.
  intros Hret Hfinite st. subst st. unfold reportPipeline. rewrite Hret.
  apply generateReport_inv in Hret
    as (p & sid & text & span & project & reportData & title & sections
        & Hp & Htp & Hproj & Hsid & Htsid & Hgen & Hspan & Hparse
        & Htitle & Hsections & Hr).
  split; [done|]. split.
  { intros Hq. destruct (encodes r) eqn:Henc; [|done].
    specialize (Hfinite eq_refl). rewrite Hr in Hfinite.
    cbn [Functions.report Functions.statistics Functions.completionRate]
      in Hfinite.
    rewrite Hp in Hq. rewrite Hq in Hfinite. cbn [length] in Hfinite.
    rewrite reportCompletionRate_no_questions in Hfinite.
    by destruct (length _). }
  clear Hfinite.
  unfold httpsCallable, ReportGenerator.generateReport, ret, bind.
  destruct (encodes r) eqn:Henc.
  - subst r. unfold ReportGenerator.onResolved.
    cbn [Functions.report Functions.success Functions.title
         Functions.generatedAt Functions.sections Functions.statistics
         Functions.report_totalResponses].
    destruct (ReportGenerator.sectionsOf (or_else sections (JArr [])))
      as [e|secs] eqn:E.
    + unfold bind.
      assert (truthy_string (message e) = true /\
              ReportGenerator.functionsUnavailable (message e) = false)
        as [Hm Hf]
        by (destruct (sectionsOf_throws _ _ E) as [-> | ->]; by vm_compute).
      unfold ReportGenerator.onRejected. rewrite Hm, Hf. done.
    + unfold bind, ret.
      cbn [ReportGenerator.error ReportGenerator.toasts
           ReportGenerator.report ReportGenerator.loading].
      repeat (split; [done|]).
      eexists. split; [done|].
      cbn [ReportGenerator.report_title ReportGenerator.report_sections
           ReportGenerator.metadata ReportGenerator.generatedAt
           ReportGenerator.totalResponses].
      rewrite Hp.
      split; [|split; [done|split; [by destruct (truthy_string now)|done]]].
      assert (json_truthy
                (Some (or_else title
                         (JStr (school_name_or (schools db !! sid) EmptyString
                                ++ " 학교 평가 보고서")))) = true) as Ht
        by (apply or_else_truthy, truthy_string_append).
      unfold or_else at 1. by rewrite Ht.
  - unfold ReportGenerator.onRejected, transport_failure.
    cbn [message truthy_string].
    replace (ReportGenerator.functionsUnavailable "INTERNAL") with false
      by (by vm_compute).
    done.
Qed.

Lemma report_view_after_success_witness :
  ReportGenerator.toasts
    (reportPipeline RefJSON.parse report_encodable example_db
       {[ "projectId" := Str "p1" ]}
       (ret ("Here is the report: "
            ++ example_stringify example_payload)%string)
       None "2026-11-03T00:00:00.000Z" 2026 ReportGenerator.initial)
  = [ReportGenerator.toast_success "보고서가 생성되었습니다!"].
Proof.
  destruct (generateReport RefJSON.parse example_db
              {[ "projectId" := Str "p1" ]}
              "2026-11-03T00:00:00.000Z"
              (ret ("Here is the report: "
            ++ example_stringify example_payload)%string))
    as [e|r] eqn:E.
  - vm_compute in E. discriminate E.
  - pose proof (report_view_after_success RefJSON.parse report_encodable
                  example_db {[ "projectId" := Str "p1" ]} _ None
                  "2026-11-03T00:00:00.000Z" 2026 ReportGenerator.initial
                  r E) as H.
    assert (report_encodable r = true ->
            JS.isFinite
              (Functions.completionRate
                 (Functions.statistics (Functions.report r))) = true) as Hf.
    { unfold report_encodable. intros Hr.
      apply andb_prop in Hr as [Hr _]. apply andb_prop in Hr as [Hr _].
      exact Hr. }
    destruct (H Hf) as (_ & _ & Hview).
    vm_compute in E. injection E as <-.
    vm_compute in Hview. destruct Hview as (_ & Ht & _).
    exact Ht.
Defined.

(** At the project without questions of the examples the server function
    returns a report, the transport rejects the call, and the view, which
    held no report, shows INTERNAL and still holds none. *)
Lemma report_view_without_questions :
  let st :=
    reportPipeline RefJSON.parse report_encodable db_without_questions
      {[ "projectId" := Str "p1" ]}
      (ret ("Here is the report: "
            ++ example_stringify example_payload)%string)
      None "2026-11-03T00:00:00.000Z" 2026 ReportGenerator.initial in
  ReportGenerator.report st = None /\
  ReportGenerator.error st = Some "INTERNAL" /\
  ReportGenerator.toasts st = [ReportGenerator.toast_error "INTERNAL"].
Proof. vm_compute. repeat split; reflexivity. Qed.

(** X19: a failed request never clears the report on screen: when the call is
    rejected with a message that names none of the three codes, or
    resolves without [success], the report is the one shown before, the
    message is recorded and shown as a toast, and loading has ended. *)
Theorem failed_request_keeps_report (schoolItem : option string)
    (now : string) (thisYear : Z) (called : throws Functions.ReportResponse)
    (st : ReportGenerator.State) (errorMessage : string) :
  (exists err,
     called = throw err /\
     errorMessage
     = (if truthy_string (message err) then message err
        else "보고서 생성 중 오류가 발생했습니다.") /\
     ReportGenerator.functionsUnavailable errorMessage = false) \/
  (exists data,
     called = ret data /\ Functions.success data = false /\
     errorMessage = "보고서 결과를 받지 못했습니다.") ->
  let st' := ReportGenerator.generateReport schoolItem now thisYear called st in
  ReportGenerator.report st' = ReportGenerator.report st /\
  ReportGenerator.error st' = Some errorMessage /\
  ReportGenerator.loading st' = false /\
  ReportGenerator.toasts st'
  = ReportGenerator.toasts st ++ [ReportGenerator.toast_error errorMessage].
Proof.
  intros [(err & -> & -> & Hf)|(data & -> & Hs & ->)] st'; subst st';
    unfold ReportGenerator.generateReport, bind, throw, ret,
      ReportGenerator.onResolved.
  - unfold ReportGenerator.onRejected. by rewrite Hf.
  - rewrite Hs. unfold throw, ReportGenerator.onRejected.
    cbn [message Error truthy_string].
    replace (ReportGenerator.functionsUnavailable "보고서 결과를 받지 못했습니다.")
      with false
      by (by vm_compute).
    done.
Qed.

Lemma failed_request_keeps_report_witness :
  ReportGenerator.report
    (ReportGenerator.generateReport None "2026-11-03T00:00:00.000Z" 2026
       (throw (Error "Failed to fetch")) ReportGenerator.initial)
  = None.
Proof.
  refine (proj1 (failed_request_keeps_report None "2026-11-03T00:00:00.000Z"
                   2026 (throw (Error "Failed to fetch"))
                   ReportGenerator.initial "Failed to fetch" _)).
  left. exists (Error "Failed to fetch").
  split; [reflexivity|]. split; [reflexivity|]. vm_compute. reflexivity.
Defined.

(** ** Completion rates at their marks *)

(** Shifting out zero bits is exact. *)
Lemma iter_pos_shr_1_exact (k : positive) (z : Z) :
  0 < z ->
  SpecFloat.iter_pos shr_1 k
    {| shr_m := z * 2 ^ Z.pos k; shr_r := false; shr_s := false |}
  = {| shr_m := z; shr_r := false; shr_s := false |}.
Proof.
  revert z. induction k as [k IH|k IH|]; intros z Hz;
    cbn [SpecFloat.iter_pos].
  - assert (0 < 2 ^ Z.pos k) by (apply Z.pow_pos_nonneg; lia).
    replace (z * 2 ^ Z.pos k~1) with (z * 2 ^ Z.pos k * 2 ^ Z.pos k * 2).
    + destruct (z * 2 ^ Z.pos k * 2 ^ Z.pos k) as [|p|p] eqn:E; [nia| |nia].
      replace (Z.pos p * 2) with (Z.pos p~0) by lia. cbn [shr_1 orb].
      rewrite <- E, IH by nia. by apply IH.
    + rewrite Pos2Z.inj_xI, Z.pow_add_r, Z.pow_mul_r by lia.
      change (2 ^ 2) with 4. change (2 ^ 1) with 2.
      replace (4 ^ Z.pos k) with (2 ^ Z.pos k * 2 ^ Z.pos k); [lia|].
      rewrite <- Z.pow_add_r by lia.
      replace (Z.pos k + Z.pos k) with (2 * Z.pos k) by lia.
      by rewrite Z.pow_mul_r by lia.
  - assert (0 < 2 ^ Z.pos k) by (apply Z.pow_pos_nonneg; lia).
    replace (z * 2 ^ Z.pos k~0) with (z * 2 ^ Z.pos k * 2 ^ Z.pos k).
    + rewrite IH by nia. by apply IH.
    + rewrite Pos2Z.inj_xO, <- Z.mul_assoc, <- Z.pow_add_r by lia.
      do 2 f_equal. lia.
  - destruct z as [|p|p]; [lia| |lia].
    change (2 ^ 1) with 2. replace (Z.pos p * 2) with (Z.pos p~0) by lia.
    done.
Qed.

(** A 53-bit mantissa followed by [k] zero bits rounds to itself. *)
Lemma binary_round_aux_exact (m : positive) (k e : Z) :
  2 ^ 52 <= Z.pos m < 2 ^ 53 -> 0 <= k -> -1074 <= e + k <= 971 ->
  binary_round_aux 53 1024 false (Z.pos m * 2 ^ k) e loc_Exact
  = S754_finite false m (e + k).
Proof.
  intros Hm Hk He.
  assert (0 < 2 ^ k) by (apply Z.pow_pos_nonneg; lia).
  destruct (Z.pos m * 2 ^ k) as [|P|P] eqn:EP; [lia| |lia].
  assert (Z.pos (digits2_pos P) = 53 + k) as HdP.
  { apply digits2_pos_unique. rewrite <- EP.
    replace (53 + k - 1) with (52 + k) by lia.
    rewrite !Z.pow_add_r by lia. nia. }
  assert (Z.pos (digits2_pos m) = 53) as Hdm
    by (apply digits2_pos_unique; lia).
  unfold binary_round_aux, shr_fexp. cbn [Zdigits2]. rewrite HdP.
  rewrite fexp_normal by lia.
  replace (53 + k + e - 53 - e) with k by lia.
  cbn [shr_record_of_loc].
  assert (shr {| shr_m := Z.pos P; shr_r := false; shr_s := false |} e k
          = ({| shr_m := Z.pos m; shr_r := false; shr_s := false |}, e + k))
    as ->.
  { destruct k as [|pk|pk]; [| |lia].
    - cbn [shr]. rewrite Z.add_0_r. f_equal. f_equal. lia.
    - cbn [shr]. f_equal. rewrite <- EP. by apply iter_pos_shr_1_exact. }
  cbn [loc_of_shr_record shr_m round_nearest_even Zdigits2].
  rewrite Hdm, fexp_normal by lia.
  replace (53 + (e + k) - 53 - (e + k)) with 0 by lia.
  cbn [shr shr_record_of_loc shr_m].
  change (1024 - 53) with 971.
  by replace (e + k <=? 971) with true by (symmetry; apply Z.leb_le; lia).
Qed.

(** Ten times a count is exact while it stays below 2^53. *)
Lemma mul_ten (q : positive) :
  10 * Z.pos q < 2 ^ 53 ->
  JS.mul (JS.of_Z (Z.pos q)) JS.ten = JS.of_Z (10 * Z.pos q).
Proof.
  intros Hbig.
  change (10 * Z.pos q) with (Z.pos (10 * q)) in *.
  pose proof (digits2_pos_bounds q) as [Qlo Qhi].
  pose proof (digits2_pos_bounds (10 * q)) as [Tlo Thi].
  pose proof (digits2_pos_small (10 * q) Hbig) as Hdt.
  assert (Z.pos (digits2_pos q) <= Z.pos (digits2_pos (10 * q))) as Hle
    by (apply digits2_pos_le; lia).
  destruct (of_Z_normal q) as (mq & -> & Hmq); [lia|].
  destruct (of_Z_normal (10 * q)) as (mt & -> & Hmt); [lia|].
  set (dq := Z.pos (digits2_pos q)) in *.
  set (dt := Z.pos (digits2_pos (10 * q))) in *.
  assert (0 < dq) by (subst dq; lia).
  assert (dq + 3 <= dt) as Hd3.
  { destruct (Z.leb_spec (dq + 3) dt); [done|].
    assert (2 ^ dt <= 2 ^ (dq + 2)) by (apply Z.pow_le_mono_r; lia).
    rewrite Z.pow_add_r in * by lia.
    replace (2 ^ dq) with (2 * 2 ^ (dq - 1)) in *
      by (rewrite <- Z.pow_succ_r by lia; f_equal; lia).
    lia. }
  assert (2 ^ 53 = 2 ^ dt * 2 ^ (53 - dt)) as Et53
    by (rewrite <- Z.pow_add_r by lia; f_equal; lia).
  assert (2 ^ 52 = 2 ^ (dt - 1) * 2 ^ (53 - dt)) as Et52
    by (rewrite <- Z.pow_add_r by lia; f_equal; lia).
  assert (0 < 2 ^ (53 - dt)) by (apply Z.pow_pos_nonneg; lia).
  assert (2 ^ 52 <= Z.pos mt < 2 ^ 53) as Hmtb
    by (rewrite Hmt, Et52, Et53; nia).
  unfold JS.mul, SFmul, JS.ten, JS.prec, JS.emax. cbn [xorb].
  set (k := dt + 49 - dq).
  assert (Z.pos (mq * 5629499534213120) = Z.pos mt * 2 ^ k) as ->.
  { rewrite Pos2Z.inj_mul, Hmq, Hmt. subst k.
    change (Z.pos 5629499534213120) with (5 * 2 ^ 50).
    replace (53 - dq) with (53 - dt + (dt - dq)) by lia.
    replace (dt + 49 - dq) with (dt - dq - 1 + 50) by lia.
    rewrite !Z.pow_add_r by lia.
    replace (2 ^ (dt - dq)) with (2 * 2 ^ (dt - dq - 1))
      by (rewrite <- Z.pow_succ_r by lia; f_equal; lia).
    lia. }
  rewrite binary_round_aux_exact by (subst k; lia).
  f_equal. subst k. lia.
Qed.

(** A normal number divided by its half is 2. *)
Lemma div_double (m : positive) (e : Z) :
  2 ^ 52 <= Z.pos m < 2 ^ 53 ->
  JS.div (S754_finite false m (e + 1)) (S754_finite false m e) = JS.of_Z 2.
Proof.
  intros Hm.
  assert (Z.pos (digits2_pos m) = 53) as Hd
    by (apply digits2_pos_unique; lia).
  unfold JS.div, SFdiv, SFdiv_core_binary, JS.prec, JS.emax.
  cbn [Zdigits2 xorb]. rewrite Hd.
  replace (53 + (e + 1) - (53 + e)) with 1 by lia.
  rewrite fexp_normal by lia. rewrite Z.min_l by lia.
  replace (e + 1 - e - (1 - 53)) with 53 by lia.
  cbv beta iota.
  rewrite Z.shiftl_mul_pow2 by lia.
  destruct (div_eucl_spec (Z.pos m * 2 ^ 53) (Z.pos m))
    as (q & r & -> & Hq & Hr); [lia|].
  assert (q = 2 ^ 53) as -> by nia. assert (r = 0) as -> by nia.
  rewrite new_location_exact. vm_compute. reflexivity.
Qed.

(** The rate is 0 without a response, 100 with as many responses as
    questions, and 200 with twice as many: it is not capped. *)
Lemma percentage_marks (total : nat) :
  (1 <= total)%nat -> Z.of_nat total < 2 ^ 52 ->
  percentage 0 total = JS.zero /\
  percentage total total = JS.hundred /\
  percentage (2 * total) total = JS.of_Z 200.
Proof.
  intros Hpos Hbig. unfold percentage, JS.of_nat.
  rewrite Nat2Z.inj_mul. change (Z.of_nat 2) with 2.
  destruct (Z.of_nat total) as [|q|q] eqn:Eq; [lia| |lia].
  pose proof (digits2_pos_bounds q) as [Qlo Qhi].
  assert (Z.pos (digits2_pos q) <= 52) as Hdq.
  { destruct (Z.leb_spec (Z.pos (digits2_pos q)) 52); [done|].
    assert (2 ^ 52 <= 2 ^ (Z.pos (digits2_pos q) - 1))
      by (apply Z.pow_le_mono_r; lia). lia. }
  destruct (of_Z_normal q) as (mq & Hq & Hmq); [lia|].
  destruct (of_Z_normal (q~0)) as (mq2 & Hq2 & Hmq2);
    [cbn [digits2_pos]; lia|].
  cbn [digits2_pos] in Hq2, Hmq2. rewrite Pos2Z.inj_succ in Hq2, Hmq2.
  set (dq := Z.pos (digits2_pos q)) in *.
  assert (0 < dq) by (subst dq; lia).
  assert (2 ^ (53 - dq) = 2 * 2 ^ (53 - Z.succ dq)) as E
    by (rewrite <- Z.pow_succ_r by lia; f_equal; lia).
  assert (mq2 = mq) as -> by lia.
  assert (2 ^ 53 = 2 ^ dq * 2 ^ (53 - dq)) as Eq53
    by (rewrite <- Z.pow_add_r by lia; f_equal; lia).
  assert (2 ^ 52 = 2 ^ (dq - 1) * 2 ^ (53 - dq)) as Eq52
    by (rewrite <- Z.pow_add_r by lia; f_equal; lia).
  assert (0 < 2 ^ (53 - dq)) by (apply Z.pow_pos_nonneg; lia).
  assert (2 ^ 52 <= Z.pos mq < 2 ^ 53) as Hm
    by (rewrite Hmq, Eq52, Eq53; nia).
  change (2 * Z.pos q) with (Z.pos q~0). rewrite Hq, Hq2.
  split; [reflexivity|]. split.
  - rewrite div_self by done. vm_compute. reflexivity.
  - replace (Z.succ dq - 53) with (dq - 53 + 1) by lia.
    rewrite div_double by done. vm_compute. reflexivity.
Qed.

(** X20: for responses and questions whose respondent types are plain
    keys, the completion rate of a respondent type that has questions is
    0 without a response of the type, 100 when the type has as many
    responses as questions, and 200 when it has twice as many: the rate
    counts responses, not respondents, and is not capped at 100. *)
Theorem completionRate_marks (questionsCount responsesCount : nat)
    (responses : list Response.t) (questions : list Question.t)
    (type : string) :
  plain_keys Response.respondent_type responses = true ->
  plain_keys Question.respondent_type questions = true ->
  let st := loadStats questionsCount responsesCount responses questions in
  let nq :=
    length (filter (fun q => Question.respondent_type q = type) questions) in
  let nr :=
    length (filter (fun r => Response.respondent_type r = type) responses) in
  (1 <= nq)%nat -> Z.of_nat nq < 2 ^ 52 ->
  completionRate st !! type = Some (percentage nr nq) /\
  (nr = 0%nat -> completionRate st !! type = Some JS.zero) /\
  (nr = nq -> completionRate st !! type = Some JS.hundred) /\
  (nr = (2 * nq)%nat ->
   completionRate st !! type = Some (JS.of_Z 200) /\
   JS.lt JS.hundred (JS.of_Z 200) = true).
Proof.
  intros _ _ st nq nr Hpos Hbig. subst st.
  assert (completionRate
            (loadStats questionsCount responsesCount responses questions)
          !! type = Some (percentage nr nq)) as Hrate.
  { rewrite loadStats_completionRate, !countByType_lookup.
    fold nq nr. destruct nq as [|n]; [lia|].
    f_equal. f_equal. by destruct nr. }
  destruct (percentage_marks nq Hpos Hbig) as (H0 & H100 & H200).
  split; [done|]. rewrite Hrate. split; [|split].
  - intros ->. by rewrite H0.
  - intros ->. by rewrite H100.
  - intros ->. by rewrite H200.
Qed.

Lemma completionRate_marks_witness :
  completionRate (loadStats 2 4 (take 4 rated_responses) two_questions)
  !! "teacher"
  = Some (JS.of_Z 200).
Proof.
  destruct (completionRate_marks 2 4 (take 4 rated_responses) two_questions
              "teacher") as (_ & _ & _ & H);
    [reflexivity | reflexivity | vm_compute; lia | reflexivity |].
  exact (proj1 (H eq_refl)).
Defined.

(** X21: the completion rate of a report takes ten responses to a question as
    complete: with [nq >= 1] questions and [nr] responses it is
    round(nr / (10 nq) * 100), an integer from 0 to 100 while
    [nr <= 10 nq], 100 at [nr = 10 nq] and 200 at [nr = 20 nq]. *)
Theorem report_completionRate_ten_per_question
    (JSON_parse : string -> throws json) (db : Firestore)
    (data : gmap string value) (now : string) (generated : throws string)
    (r : Functions.ReportResponse) :
  generateReport JSON_parse db data now generated = ret r ->
  let nq :=
    length (whereProject snd (field data "projectId") (questions db)) in
  let nr :=
    length (whereProject id (field data "projectId") (responses db)) in
  (1 <= nq)%nat -> Z.of_nat nq < 2 ^ 48 ->
  let rate :=
    Functions.completionRate (Functions.statistics (Functions.report r)) in
  rate = percentage nr (10 * nq) /\
  ((nr <= 10 * nq)%nat ->
   exists n : Z, 0 <= n <= 100 /\ rate = JS.of_Z n) /\
  (nr = 0%nat -> rate = JS.zero) /\
  (nr = (10 * nq)%nat -> rate = JS.hundred) /\
  (nr = (20 * nq)%nat -> rate = JS.of_Z 200).
Proof.
  intros (p & sid & text & span & project & reportData & title & sections
          & Hp & Htp & Hproj & Hsid & Htsid & Hgen & Hspan & Hparse
          & Htitle & Hsections & ->)%generateReport_inv.
  rewrite Hp. intros nq nr Hpos Hbig rate. subst rate.
  cbn [Functions.report Functions.statistics Functions.completionRate].
  fold nq nr.
  assert (reportCompletionRate nr nq = percentage nr (10 * nq)) as ->.
  { unfold reportCompletionRate, percentage, JS.of_nat.
    rewrite (Nat2Z.inj_mul 10 nq). change (Z.of_nat 10) with 10.
    destruct (Z.of_nat nq) as [|q|q] eqn:Eq; [lia| |lia].
    by rewrite mul_ten by lia. }
  destruct (percentage_marks (10 * nq)) as (H0 & H100 & H200); [lia|lia|].
  split; [done|]. split; [|split; [|split]].
  - intros Hle. apply percentage_integer; lia.
  - by intros ->.
  - by intros ->.
  - intros ->. by replace (20 * nq)%nat with (2 * (10 * nq))%nat by lia.
Qed.

Lemma report_completionRate_ten_per_question_witness :
  match
    generateReport RefJSON.parse example_db {[ "projectId" := Str "p1" ]}
      "2026-11-03T00:00:00.000Z"
      (ret ("Here is the report: "
            ++ example_stringify example_payload)%string)
  with
  | inr r =>
      Functions.completionRate (Functions.statistics (Functions.report r))
      = JS.of_Z 50
  | inl _ => False
  end.
Proof.
  destruct (generateReport RefJSON.parse example_db
              {[ "projectId" := Str "p1" ]}
              "2026-11-03T00:00:00.000Z"
              (ret ("Here is the report: "
            ++ example_stringify example_payload)%string))
    as [e|r] eqn:E.
  - vm_compute in E. discriminate E.
  - destruct (report_completionRate_ten_per_question _ _ _ _ _ r E)
      as (H & _); [vm_compute; lia | vm_compute; reflexivity |].
    rewrite H. vm_compute. reflexivity.
Defined.

(** ** Navigation and progress of the teacher survey *)

Lemma indexOf_lookup (xs : list string) (x : string) (i : nat) :
  NoDup xs -> xs !! i = Some x -> indexOf xs x = Z.of_nat i.
Proof.
  intros Hnd. revert i. induction Hnd as [|y xs Hy Hnd IH]; intros i Hi;
    [done|].
  cbn [indexOf]. destruct i as [|i]; cbn in Hi.
  - injection Hi as ->. by rewrite String.eqb_refl.
  - destruct (String.eqb_spec y x) as [->|Hne].
    + destruct Hy. by eapply list_elem_of_lookup_2.
    + cbv zeta. rewrite (IH i Hi).
      destruct (Z.ltb_spec (Z.of_nat i) 0); lia.
Qed.

(** X24: the navigation walks the sections in order.  At the section of
    position [i] the index is [i]; the next button is there exactly when
    a section follows and leads to it, the previous button exactly when a
    section precedes; going on and back returns to the section; the
    survey opens at position 0; without sections there is no button. *)
Theorem section_navigation (questions : list Question.t) (i : nat)
    (s : string) :
  let secs := sections questions in
  secs !! i = Some s ->
  currentSectionIndex secs (Some s) = Z.of_nat i /\
  canGoNext secs (Some s) = bool_decide (S i < length secs)%nat /\
  canGoPrev secs (Some s) = bool_decide (0 < i)%nat /\
  nextSection secs (Some s) = secs !! S i /\
  (forall s', nextSection secs (Some s) = Some s' ->
              prevSection secs (Some s') = Some s) /\
  (i = 0%nat <-> initialSection questions = Some s) /\
  canGoNext [] None = false /\ canGoPrev [] None = false.
Proof.
  intros secs Hi.
  assert (NoDup secs) as Hnd by apply NoDup_uniq.
  assert (forall j t, secs !! j = Some t ->
            currentSectionIndex secs (Some t) = Z.of_nat j) as Hidx.
  { intros j t Hj. unfold currentSectionIndex.
    assert (truthy_string t = true) as ->.
    { apply list_elem_of_lookup_2 in Hj.
      by apply elem_of_sections in Hj as [? _]. }
    by apply indexOf_lookup. }
  pose proof (lookup_lt_Some _ _ _ Hi) as Hlt.
  assert (nextSection secs (Some s) = secs !! S i) as Hnext.
  { unfold nextSection, at_index. rewrite (Hidx i s Hi).
    destruct (Z.ltb_spec (Z.of_nat i + 1) 0); [lia|].
    f_equal. lia. }
  split; [by apply Hidx|]. split; [|split; [|split; [done|split; [|split]]]].
  - unfold canGoNext. rewrite (Hidx i s Hi).
    case_bool_decide; [apply Z.ltb_lt | apply Z.ltb_ge]; lia.
  - unfold canGoPrev. rewrite (Hidx i s Hi).
    case_bool_decide; [apply Z.ltb_lt | apply Z.ltb_ge]; lia.
  - intros s' Hs'. rewrite Hnext in Hs'.
    unfold prevSection, at_index. rewrite (Hidx (S i) s' Hs').
    destruct (Z.ltb_spec (Z.of_nat (S i) - 1) 0); [lia|].
    replace (Z.to_nat (Z.of_nat (S i) - 1)) with i by lia. done.
  - unfold initialSection. fold secs. split.
    + intros ->. by destruct secs.
    + intros Hhead. destruct secs as [|t l] eqn:E; [done|].
      injection Hhead as ->.
      assert ((s :: l) !! 0%nat = Some s) as H0 by done.
      by eapply NoDup_lookup.
  - done.
Qed.

Lemma section_navigation_witness :
  currentSectionIndex (sections sectioned_questions) (Some "교육과정") = 0 /\
  canGoNext (sections sectioned_questions) (Some "교육과정") = true /\
  canGoPrev (sections sectioned_questions) (Some "교육과정") = false /\
  nextSection (sections sectioned_questions) (Some "교육과정")
  = Some "학교운영".
Proof.
  destruct (section_navigation sectioned_questions 0 "교육과정")
    as (H1 & H2 & H3 & H4 & _); [vm_compute; reflexivity|].
  split; [exact H1|]. split; [exact H2|]. split; [exact H3|].
  rewrite H4. vm_compute. reflexivity.
Defined.



(** ** Free text that is read as a rating *)

Lemma read_digits_stop (acc : option Z) (s : string) :
  no_digit_ahead s -> read_digits 10 acc s = acc.
Proof. destruct s as [|c r]; cbn; [done|]. by intros ->. Qed.

Lemma read_digits_cons (radix : Z) (acc : option Z) (c : ascii)
    (r : string) :
  read_digits radix acc (String c r)
  = match digit_value radix c with
    | Some d => read_digits radix (Some (radix * default 0 acc + d)) r
    | None => acc
    end.
Proof. reflexivity. Qed.

(** No white space is skipped before a rating digit. *)
Lemma skip_white_space_digit (n : Z) (rest : string) :
  1 <= n <= 5 ->
  skip_white_space (String (rating_digit n) rest)
  = String (rating_digit n) rest.
Proof.
  intros Hn.
  assert (n = 1 \/ n = 2 \/ n = 3 \/ n = 4 \/ n = 5)
    as [->|[->|[->|[->| ->]]]] by lia;
    by destruct rest as [|b [|c r]].
Qed.

(** X26: a value that starts with one of the digits 1 to 5, not followed by
    another digit, is a rating of that number, whatever text follows; so
    a free-text answer of this form enters the average rating. *)
Theorem text_with_leading_digit_is_rating (n : Z) (rest : string)
    (r : Response.t) :
  1 <= n <= 5 -> no_digit_ahead rest ->
  Response.response_value r = Some (String (rating_digit n) rest) ->
  parseInt (String (rating_digit n) rest) = Some n /\
  ratingOf r = Some n /\
  ratings [r] = [n] /\
  calculateAverageFromResponses [String (rating_digit n) rest]
  = JS.div (JS.of_Z n) JS.one.
Proof.
  intros Hn Hrest Hr.
  assert (parseInt (String (rating_digit n) rest) = Some n) as Hparse.
  { unfold parseInt. rewrite skip_white_space_digit by done.
    assert (n = 1 \/ n = 2 \/ n = 3 \/ n = 4 \/ n = 5)
      as [->|[->|[->|[->| ->]]]] by lia;
      cbv beta iota zeta delta [rating_digit];
      rewrite read_digits_cons;
      [change (digit_value 10 "1") with (Some 1)
      |change (digit_value 10 "2") with (Some 2)
      |change (digit_value 10 "3") with (Some 3)
      |change (digit_value 10 "4") with (Some 4)
      |change (digit_value 10 "5") with (Some 5)];
      cbv beta iota; by rewrite read_digits_stop. }
  assert (rating_value (String (rating_digit n) rest) = Some n) as Hrv.
  { unfold rating_value. rewrite Hparse.
    by replace ((1 <=? n) && (n <=? 5)) with true
      by (symmetry; apply andb_true_intro; split; apply Z.leb_le; lia). }
  split; [done|]. split; [|split].
  - by rewrite ratingOf_rating_value, Hr.
  - unfold ratings. cbn. by rewrite Hr; cbn; rewrite Hrv.
  - rewrite calculateAverageFromResponses_ratings. cbn. rewrite Hrv.
    cbn. unfold sum. cbn. by rewrite Z.add_0_r.
Qed.

Lemma text_with_leading_digit_is_rating_witness :
  ratingOf (response_of "parent" "3학년 학부모입니다") = Some 3.
Proof.
  refine (proj1 (proj2 (text_with_leading_digit_is_rating 3
                          "학년 학부모입니다"
                          (response_of "parent" "3학년 학부모입니다")
                          _ _ _))).
  - lia.
  - reflexivity.
  - reflexivity.
Defined.

(** ** The error codes of the callables, at examples *)

Lemma callables_never_surface_not_found_witness :
  code (HttpsError internal
          "분석 중 오류가 발생했습니다: Error: 프로젝트를 찾을 수 없습니다.")
  = Some invalid_argument \/
  code (HttpsError internal
          "분석 중 오류가 발생했습니다: Error: 프로젝트를 찾을 수 없습니다.")
  = Some internal.
Proof.
  apply (callables_never_surface_not_found RefJSON.parse example_db
           {[ "projectId" := Str "p9" ]} "2026-11-03T00:00:00.000Z"
           (ret "{}")).
  left. vm_compute. reflexivity.
Defined.

Lemma callables_require_projectId_witness :
  analyzeResponses RefJSON.parse example_db ∅ (ret "{}")
  = throw (HttpsError invalid_argument "프로젝트 ID가 필요합니다.") /\
  generateReport RefJSON.parse example_db ∅ "2026-11-03T00:00:00.000Z"
    (ret "{}")
  = throw (HttpsError invalid_argument "프로젝트 ID가 필요합니다.").
Proof. apply callables_require_projectId. reflexivity. Defined.
